(** * CarPriceML: the training job, the prediction service and the form UI

    A shallow embedding of [pipeline/train.py], [app/api/main.py] and
    [app/frontend/streamlit_app.py], and the properties of the written
    specification checked against it.

    Conventions.
    - Python dictionaries keep insertion order and are used both as maps
      and as ordered column lists (a one-row [pd.DataFrame] takes its
      columns from the keys of the row dictionary), so they are association
      lists with unique keys maintained by [dict_set]; file systems are
      [gmap]s from path to file.
    - Python exceptions are an error monad, [result].
    - A metadata file holds whatever JSON value it holds: the service and
      the form check nothing, so what they do with a value of the wrong
      shape is part of the model.
    - Floats are binary64 ([PrimFloat.float]).
    - pandas, scikit-learn and joblib are libraries: what the programs need
      from them is an interface the development is parametric in. *)

From Stdlib Require Import ZArith Floats Uint63 DecimalString.
From Stdlib Require Import DecimalN Ascii.
From stdpp Require Import gmap strings list fin_maps.

Open Scope string_scope.
Open Scope list_scope.
Set Warnings "-register-all,-clear-no-such-hyp,-inexact-float".

(** ** Python values, exceptions and dictionaries *)

Module Py.

(** The JSON-shaped fragment of Python values the three programs exchange. *)
Inductive pyval :=
| PNone
| PBool (b : bool)
| PInt (z : Z)
| PFloat (f : float)
| PStr (s : string)
| PList (l : list pyval)
| PDict (kvs : list (string * pyval)).

(** An exception: its class and [str(e)]. *)
Record pyexn := Exn { exn_class : string; str : string }.

Definition FileNotFoundError : string → pyexn := Exn "FileNotFoundError".
Definition ValueError : string → pyexn := Exn "ValueError".
Definition KeyError : string → pyexn := Exn "KeyError".

Inductive result (A : Type) :=
| Return (a : A)
| Raise (e : pyexn).
Arguments Return {A} a.
Arguments Raise {A} e.

#[global] Instance result_ret : MRet result := λ A a, Return a.
#[global] Instance result_bind : MBind result := λ A B k m,
  match m with
  | Return a => k a
  | Raise e => Raise e
  end.

(** [dict] is insertion-ordered: [d[k] = v] overwrites in place when [k] is
    already a key and appends otherwise. *)
Definition dict := list (string * pyval).

Fixpoint dict_get (d : dict) (k : string) : option pyval :=
  match d with
  | [] => None
  | (k', v) :: d' => if decide (k' = k) then Some v else dict_get d' k
  end.

(** [d.get(k, default)] *)
Definition get (d : dict) (k : string) (default : pyval) : pyval :=
  from_option id default (dict_get d k).

Fixpoint dict_set (d : dict) (k : string) (v : pyval) : dict :=
  match d with
  | [] => [(k, v)]
  | (k', v') :: d' =>
      if decide (k' = k) then (k', v) :: d' else (k', v') :: dict_set d' k v
  end.

Definition keys (d : dict) : list string := d.*1.
Definition values (d : dict) : list pyval := d.*2.

(** [{col: f(col) for col in cols}] *)
Definition dict_comprehension (f : string → pyval) (cols : list string) : dict :=
  fold_left (λ d col, dict_set d col (f col)) cols [].

(** The order in which a loop that inserts every element of [l] as a key
    leaves the keys: each name once, at its first position. *)
Definition first_occurrences (l : list string) : list string :=
  fold_left (λ acc x, if decide (x ∈ acc) then acc else acc ++ [x]) l [].

(** *** What the programs do with a value they have not checked *)

Definition TypeError : string → pyexn := Exn "TypeError".
Definition AttributeError : string → pyexn := Exn "AttributeError".
Definition OverflowError : string → pyexn := Exn "OverflowError".

(** [type(v).__name__] *)
Definition type_name (v : pyval) : string :=
  match v with
  | PNone => "NoneType"
  | PBool _ => "bool"
  | PInt _ => "int"
  | PFloat _ => "float"
  | PStr _ => "str"
  | PList _ => "list"
  | PDict _ => "dict"
  end.

(** [v.get(key, default)]: of these values only a dictionary has the
    method. *)
Definition get_method (v : pyval) (key : string) (default : pyval) : result pyval :=
  match v with
  | PDict kvs => Return (get kvs key default)
  | _ => Raise (AttributeError ("'" +:+ type_name v +:+ "' object has no attribute 'get'"))
  end.

(** [float(z)] for an int: the nearest float, ties to even, unless that
    is out of range. *)
Definition float_of_int (z : Z) : result float :=
  let x := SF2Prim (binary_normalize prec emax z 0 false) in
  if is_infinity x then Raise (OverflowError "int too large to convert to float")
  else Return x.

(** A number as arithmetic takes it: [True] is 1 and [False] is 0. *)
Inductive number :=
| Int (z : Z)
| Float (x : float).

Definition as_number (v : pyval) : option number :=
  match v with
  | PBool b => Some (Int (if b then 1 else 0))
  | PInt z => Some (Int z)
  | PFloat x => Some (Float x)
  | _ => None
  end.

Definition add_numbers (a b : number) : result pyval :=
  match a, b with
  | Int x, Int y => Return (PInt (x + y))
  | Int x, Float y => x' ← float_of_int x; Return (PFloat (x' + y))
  | Float x, Int y => y' ← float_of_int y; Return (PFloat (x + y'))
  | Float x, Float y => Return (PFloat (x + y))
  end.

(** The character [chr(34)]. *)
Definition double_quote : string := String (Ascii.ascii_of_nat 34) "".

(** [a + b] *)
Definition add_values (a b : pyval) : result pyval :=
  match a, b with
  | PList la, PList lb => Return (PList (la ++ lb))
  | PList _, _ =>
      Raise (TypeError ("can only concatenate list (not " +:+ double_quote +:+ type_name b
                        +:+ double_quote +:+ ") to list"))
  | PStr sa, PStr sb => Return (PStr (sa +:+ sb))
  | PStr _, _ =>
      Raise (TypeError ("can only concatenate str (not " +:+ double_quote +:+ type_name b
                        +:+ double_quote +:+ ") to str"))
  | _, _ =>
      match as_number a, as_number b with
      | Some x, Some y => add_numbers x y
      | _, _ =>
          Raise (TypeError ("unsupported operand type(s) for +: '" +:+ type_name a
                            +:+ "' and '" +:+ type_name b +:+ "'"))
      end
  end.

(** The characters of a [str], which is held as its UTF-8 bytes: a byte
    in 128..191 continues the character before it. *)
Definition continues (s : string) : bool :=
  match s with
  | String c _ => ((128 <=? N_of_ascii c) && (N_of_ascii c <? 192))%N
  | "" => false
  end.

Fixpoint characters (s : string) : list string :=
  match s with
  | "" => []
  | String c rest =>
      match characters rest with
      | next :: more =>
          if continues next then String c next :: more else String c "" :: next :: more
      | [] => [String c ""]
      end
  end.

(** [for x in v]: the elements of a list, the characters of a string, the
    keys of a dictionary. *)
Definition iterate (v : pyval) : result (list pyval) :=
  match v with
  | PList l => Return l
  | PStr s => Return (PStr <$> characters s)
  | PDict kvs => Return (PStr <$> keys kvs)
  | _ => Raise (TypeError ("'" +:+ type_name v +:+ "' object is not iterable"))
  end.

(** [hash(v)], as far as it raises: lists and dictionaries cannot be
    keys. *)
Definition hash_check (v : pyval) : result () :=
  match v with
  | PList _ | PDict _ => Raise (TypeError ("unhashable type: '" +:+ type_name v +:+ "'"))
  | _ => Return ()
  end.

Fixpoint hash_all (l : list pyval) : result () :=
  match l with
  | [] => Return ()
  | v :: rest => _ ← hash_check v; hash_all rest
  end.

(** The strings of a list of strings. *)
Definition as_str (v : pyval) : option string :=
  match v with
  | PStr s => Some s
  | _ => None
  end.
Definition names (l : list pyval) : option (list string) := mapM as_str l.

End Py.
Export Py.

(** ** The prediction service, [app/api/main.py] *)

Module Api.

(** A one-row table: [pd.DataFrame([row])]. *)
Record DataFrame := { columns : list string; data : list (list pyval) }.

(** What [joblib.load] returns, and the one thing the service does with
    it: [float(model.predict(X)[0])], which yields a price or raises. *)
Class Model := {
  pipeline : Type;
  model_predict : pipeline → DataFrame → result float;
}.

(** A file is characterised by what each loader makes of it. [json.load]
    gives whatever JSON value the file holds: [load_artifacts] does not look
    at it. *)
Record file `{Model} := {
  joblib_load : result pipeline;
  json_load : result pyval;
}.

Definition MODEL_PATH : string := "models/rf_model.joblib".
Definition META_PATH : string := "models/metadata.json".

(** What a handler hands back to FastAPI: a dictionary, served with status
    200, an [HTTPException], or an exception of another class, which
    nothing handles: the client is then served a bare 500. *)
Inductive response :=
| Ok200 (body : dict)
| HTTPException (status_code : Z) (detail : string)
| Uncaught (e : pyexn).

Definition status_of (r : response) : Z :=
  match r with
  | Ok200 _ => 200
  | HTTPException code _ => code
  | Uncaught _ => 500
  end.

(** Metadata as the training job writes it: a dictionary whose two
    feature entries are lists of names. Either entry may be missing. *)
Definition lists (meta : pyval) (numeric_cols categorical_cols : list string) : Prop :=
  ∃ kvs, meta = PDict kvs
         ∧ get kvs "numeric_features" (PList []) = PList (PStr <$> numeric_cols)
         ∧ get kvs "categorical_features" (PList []) = PList (PStr <$> categorical_cols).

(** [meta.get('numeric_features', []) + meta.get('categorical_features', [])] *)
Definition expected_cols (meta : pyval) : result pyval :=
  numeric_cols ← get_method meta "numeric_features" (PList []);
  categorical_cols ← get_method meta "categorical_features" (PList []);
  add_values numeric_cols categorical_cols.

(** The names [{col: features.get(col, None) for col in expected_cols}]
    walks through, in the order of the loop, or the exception the loop
    ends with: [expected_cols] may not be iterable, and [features.get]
    hashes each [col]. The request has strings for keys, so a [col] that
    is not a string finds nothing; the row then has a key that is not a
    string, and what pandas makes of such a column label is left out:
    [None]. *)
Definition row_keys (expected_cols : pyval) : result (option (list string)) :=
  cols ← iterate expected_cols;
  _ ← hash_all cols;
  Return (names cols).

(** [row = {col: features.get(col, None) for col in expected_cols}] *)
Definition inference_row (expected_cols : list string) (features : dict) : dict :=
  dict_comprehension (λ col, get features col PNone) expected_cols.

(** [X = pd.DataFrame([row])] *)
Definition inference_frame (expected_cols : list string) (features : dict) : DataFrame :=
  let row := inference_row expected_cols features in
  {| columns := keys row; data := [values row] |}.

Section Service.
Context `{Model}.

Definition load_artifacts (fs : gmap string file) : result (pipeline * pyval) :=
  match fs !! MODEL_PATH, fs !! META_PATH with
  | Some model_file, Some meta_file =>
      model ← joblib_load model_file;
      meta ← json_load meta_file;
      mret (model, meta)
  | _, _ =>
      Raise (FileNotFoundError "Model or metadata not found. Please train the model first.")
  end.

(** The whole body is inside [try: ... except Exception]. *)
Definition health (fs : gmap string file) : dict :=
  match ('(_model, meta) ← load_artifacts fs; expected_cols meta) : result pyval with
  | Return features =>
      [("status", PStr "ok"); ("model", PStr "rf"); ("features", features)]
  | Raise e =>
      [("status", PStr "error"); ("detail", PStr (str e))]
  end.

(** Only [load_artifacts] and the model's predict call are inside a
    [try]; an exception while the row is made is nobody's. [None] where
    the row is left out. *)
Definition predict (fs : gmap string file) (features : dict) : option response :=
  match load_artifacts fs with
  | Raise e => Some (HTTPException 500 (str e))
  | Return (model, meta) =>
      match (cols ← expected_cols meta; row_keys cols) : result (option (list string)) with
      | Raise e => Some (Uncaught e)
      | Return None => None
      | Return (Some expected_cols) =>
          let X := inference_frame expected_cols features in
          Some (match model_predict model X with
                | Raise e => HTTPException 400 ("Prediction failed: " +:+ str e)
                | Return pred => Ok200 [("price", PFloat pred)]
                end)
      end
  end.

End Service.

End Api.

(** ** The training job, [pipeline/train.py] *)

Module Train.

(** The column dtypes [pd.read_csv] and later conversions can produce. *)
Inductive dtype :=
| int64 | uint64 | float64 | complex128 | bool_ | datetime64 | object_.

#[global] Instance dtype_eq_dec : EqDecision dtype.
Proof. solve_decision. Defined.

(** [np.issubdtype(d, np.number)] *)
Definition is_number (d : dtype) : bool :=
  match d with
  | int64 | uint64 | float64 | complex128 => true
  | bool_ | datetime64 | object_ => false
  end.

(** What the job needs from pandas about the content of a cell: when two
    cells are equal (for [drop_duplicates]), how one converts to float (an
    element of [Series.astype(float)], which raises on text that is not a
    number) and how a float is stored back. A missing cell (NaN) is
    [None]. *)
Class Pandas := {
  cell : Type;
  cell_eq_dec :: EqDecision cell;
  astype_float : cell → result float;
  of_float : float → cell;
}.

Section Frames.
Context `{Pandas}.

Definition row := list (option cell).

(** A frame: named, typed columns and rows of cells, one per column.
    [read_csv] renames repeated headers, so the names are distinct. *)
Record DataFrame := { schema : list (string * dtype); rows : list row }.

Definition columns (df : DataFrame) : list string := (schema df).*1.

(** [df[c].dtype] *)
Definition dtype_of (df : DataFrame) (c : string) : option dtype :=
  (list_find (λ p, p.1 = c) (schema df)) ≫= λ ip, Some ip.2.2.

(** [df[c]] within one row: a cell that is not there reads as missing. *)
Definition row_get (names : list string) (r : row) (c : string) : option cell :=
  (list_find (λ p, p.1 = c) (zip names r)) ≫= λ ip, ip.2.2.

(** [df.drop(columns=[label])] *)
Definition drop_column (df : DataFrame) (label : string) : result DataFrame :=
  if decide (label ∈ columns df) then
    Return {| schema := filter (λ p, p.1 ≠ label) (schema df);
              rows := (λ r, (filter (λ p, p.1 ≠ label) (zip (columns df) r)).*2) <$> rows df |}
  else Raise (KeyError ("['" +:+ label +:+ "'] not found in axis")).

(** [df.drop_duplicates()]: the first of equal rows stays. *)
Fixpoint drop_duplicates_rows (rs : list row) : list row :=
  match rs with
  | [] => []
  | r :: rs' => r :: filter (λ r', r' ≠ r) (drop_duplicates_rows rs')
  end.

Definition drop_duplicates (df : DataFrame) : DataFrame :=
  {| schema := schema df; rows := drop_duplicates_rows (rows df) |}.

(** [df.dropna(subset=[label])] *)
Definition dropna (df : DataFrame) (label : string) : DataFrame :=
  {| schema := schema df;
     rows := filter (λ r, is_Some (row_get (columns df) r label)) (rows df) |}.

(** [df[label] = df[label].astype(float) * rate] *)
Definition convert_cell (rate : float) (c : option cell) : result (option cell) :=
  match c with
  | None => Return None
  | Some v => x ← astype_float v; Return (Some (of_float (x * rate)%float))
  end.

Fixpoint convert_row (label : string) (rate : float) (names : list string) (r : row)
  : result row :=
  match names, r with
  | name :: names', c :: r' =>
      c' ← (if decide (name = label) then convert_cell rate c else Return c);
      r'' ← convert_row label rate names' r';
      Return (c' :: r'')
  | _, _ => Return r
  end.

Fixpoint convert_rows (label : string) (rate : float) (names : list string)
  (rs : list row) : result (list row) :=
  match rs with
  | [] => Return []
  | r :: rs' =>
      r' ← convert_row label rate names r;
      rs'' ← convert_rows label rate names rs';
      Return (r' :: rs'')
  end.

Definition convert_target (df : DataFrame) (label : string) (rate : float)
  : result DataFrame :=
  rs ← convert_rows label rate (columns df) (rows df);
  Return {| schema := (λ p, if decide (p.1 = label) then (p.1, float64) else p) <$> schema df;
            rows := rs |}.

(** [df[label]] as a series *)
Definition series (df : DataFrame) (label : string) : list (option cell) :=
  (λ r, row_get (columns df) r label) <$> rows df.

(** [df.iloc[indices]] *)
Definition take_rows (df : DataFrame) (indices : list nat) : DataFrame :=
  {| schema := schema df; rows := omap (λ i, rows df !! i) indices |}.

Definition detect_feature_types (df : DataFrame) (target : string)
  : result (list string * list string) :=
  feature_df ← drop_column df target;
  let categorical_cols :=
    filter (λ c, dtype_of feature_df c = Some object_) (columns feature_df) in
  let numeric_cols :=
    filter (λ c, is_number <$> dtype_of feature_df c = Some true) (columns feature_df) in
  Return (numeric_cols, categorical_cols).

End Frames.

(** *** scikit-learn *)

(** The unfitted estimator [build_pipeline] assembles. *)
Inductive transformer :=
| SimpleImputer (strategy : string)
| StandardScaler
| OneHotEncoder (handle_unknown : string) (sparse_output : bool).

Record ColumnTransformer := {
  transformers : list (string * list (string * transformer) * list string);
  remainder : string;
}.

Record RandomForestRegressor := {
  n_estimators : Z;
  random_state : Z;
  n_jobs : Z;
}.

Record Pipeline := {
  preprocess : ColumnTransformer;
  model : RandomForestRegressor;
}.

Definition build_pipeline (numeric_cols categorical_cols : list string) : Pipeline :=
  let numeric_transformer :=
    [("imputer", SimpleImputer "median"); ("scaler", StandardScaler)] in
  let categorical_transformer :=
    [("imputer", SimpleImputer "most_frequent");
     ("encoder", OneHotEncoder "ignore" true)] in
  let preprocessor :=
    {| transformers := [("num", numeric_transformer, numeric_cols);
                        ("cat", categorical_transformer, categorical_cols)];
       remainder := "drop" |} in
  let model := {| n_estimators := 300; random_state := 42; n_jobs := -1 |} in
  {| preprocess := preprocessor; model := model |}.

(** What the job needs from scikit-learn: the seeded shuffle behind
    [train_test_split], fitting, predicting and the three metrics. Each of
    the last five may raise. *)
Class Sklearn `{Pandas} := {
  fitted : Type;
  permutation : Z → nat → list nat;
  permutation_spec : ∀ seed n, permutation seed n ≡ₚ seq 0 n;
  fit : Pipeline → DataFrame → list (option cell) → result fitted;
  pipeline_predict : fitted → DataFrame → result (list float);
  mean_squared_error : list (option cell) → list float → bool → result float;
  mean_absolute_error : list (option cell) → list float → result float;
  r2_score : list (option cell) → list float → result float;
}.

(** [math.ceil] of a float: an integer, or an exception for NaN and the
    infinities. *)
Definition ceil (x : float) : result Z :=
  match Prim2SF x with
  | S754_zero _ => Return 0%Z
  | S754_finite sign m e =>
      let floor_abs := (if (0 <=? e)%Z then Z.pos m * 2 ^ e else Z.pos m / 2 ^ (- e))%Z in
      let ceil_abs := (if (0 <=? e)%Z then Z.pos m * 2 ^ e else - ((- Z.pos m) / 2 ^ (- e)))%Z in
      Return (if sign then - floor_abs else ceil_abs)%Z
  | S754_infinity _ => Raise (Exn "OverflowError" "cannot convert float infinity to integer")
  | S754_nan => Raise (ValueError "cannot convert float NaN to integer")
  end.

(** An [int] where Python expects a [float] (a row count, far below
    2^63). *)
Definition float_of_nat (n : nat) : float := of_uint63 (Uint63.of_Z (Z.of_nat n)).

(** scikit-learn's [_validate_shuffle_split] as [train_test_split] calls it:
    a float [test_size], no [train_size]. *)
Definition validate_shuffle_split (n_samples : nat) (test_size : float) : result (Z * Z) :=
  if ((test_size <=? 0) || (1 <=? test_size))%float then
    Raise (ValueError "test_size should be a float in the (0, 1) range")
  else
    n_test ← ceil (test_size * float_of_nat n_samples)%float;
    let n_train := (Z.of_nat n_samples - n_test)%Z in
    if decide (n_train + n_test > Z.of_nat n_samples)%Z then
      Raise (ValueError "The sum of train_size and test_size should be smaller than the number of samples")
    else if decide (n_train = 0)%Z then
      Raise (ValueError "the resulting train set will be empty")
    else Return (n_train, n_test).

(** ... and as [ShuffleSplit] calls it again, with the two integers. *)
Definition validate_shuffle_split_int (n_samples : nat) (n_test n_train : Z)
  : result (Z * Z) :=
  if decide (n_test >= Z.of_nat n_samples ∨ n_test <= 0)%Z then
    Raise (ValueError "test_size should be positive and smaller than the number of samples")
  else if decide (n_train >= Z.of_nat n_samples ∨ n_train <= 0)%Z then
    Raise (ValueError "train_size should be positive and smaller than the number of samples")
  else if decide (n_train + n_test > Z.of_nat n_samples)%Z then
    Raise (ValueError "The sum of train_size and test_size should be smaller than the number of samples")
  else Return (n_train, n_test).

Section Split.
Context `{Sklearn}.

(** [train_test_split(X, y, test_size=test_size, random_state=seed)] *)
Definition train_test_split (X : DataFrame) (y : list (option cell))
  (test_size : float) (seed : Z)
  : result (DataFrame * DataFrame * list (option cell) * list (option cell)) :=
  let n_samples := length (rows X) in
  '(n_train, n_test) ← validate_shuffle_split n_samples test_size;
  '(n_train, n_test) ← validate_shuffle_split_int n_samples n_test n_train;
  let perm := permutation seed n_samples in
  let ind_test := take (Z.to_nat n_test) perm in
  let ind_train := take (Z.to_nat n_train) (drop (Z.to_nat n_test) perm) in
  Return (take_rows X ind_train, take_rows X ind_test,
          omap (λ i, y !! i) ind_train, omap (λ i, y !! i) ind_test).

End Split.

(** *** The file system and the run *)

(** A file, by what it holds: a table [pd.read_csv] parses, a pipeline
    [joblib.dump] wrote, a document [json.dump] wrote, or anything else,
    with the exception [pd.read_csv] raises on it. *)
Inductive file `{Sklearn} :=
| CsvFile (df : DataFrame)
| JoblibFile (obj : fitted)
| JsonFile (doc : pyval)
| OtherFile (e : pyexn).

(** The command line, after [argparse]. *)
Record args := {
  csv : string;
  target : string;
  test_size : float;
  currency_rate : float;
  out_model : string;
  out_meta : string;
}.

(** The character [chr(34)], the double quote. *)
Definition dquote : string := String (Ascii.ascii_of_nat 34) "".

(** [str(list(df.columns))], for names that need no escaping *)
Definition repr_list (l : list string) : string :=
  "[" +:+ String.concat ", " ((λ c, "'" +:+ c +:+ "'") <$> l) +:+ "]".

Section Main.
Context `{Sklearn}.

(** A step of the script: it reads and writes the file system and may
    raise. An exception nobody catches ends the run. Directories are
    implicit in the paths, and what the script prints is left out. *)
Definition script (A : Type) : Type :=
  gmap string file → result A * gmap string file.

#[global] Instance script_ret : MRet script := λ A a fs, (Return a, fs).
#[global] Instance script_bind : MBind script := λ A B k m fs,
  match m fs with
  | (Return a, fs') => k a fs'
  | (Raise e, fs') => (Raise e, fs')
  end.
Definition raise {A} (e : pyexn) : script A := λ fs, (Raise e, fs).
Definition lift {A} (r : result A) : script A := λ fs, (r, fs).

(** [path.exists()] *)
Definition path_exists (path : string) : script bool :=
  λ fs, (Return (bool_decide (is_Some (fs !! path))), fs).

(** [pd.read_csv(path)] *)
Definition read_csv (path : string) : script DataFrame := λ fs,
  match fs !! path with
  | Some (CsvFile df) => (Return df, fs)
  | Some (OtherFile e) => (Raise e, fs)
  | Some _ => (Raise (Exn "ParserError" "Error tokenizing data"), fs)
  | None => (Raise (FileNotFoundError ("No such file or directory: '" +:+ path +:+ "'")), fs)
  end.

(** [joblib.dump(obj, path)], parent directories made first *)
Definition joblib_dump (obj : fitted) (path : string) : script () :=
  λ fs, (Return (), <[path := JoblibFile obj]> fs).

(** [json.dump(doc, f)] on [path] opened for writing, parent directories
    made first *)
Definition json_dump (doc : pyval) (path : string) : script () :=
  λ fs, (Return (), <[path := JsonFile doc]> fs).

Definition main (a : args) : script () :=
  let csv_path := csv a in
  found ← path_exists csv_path;
  _ ← (if negb found then raise (FileNotFoundError ("CSV not found: " +:+ csv_path))
       else mret ());
  df ← read_csv csv_path;
  _ ← (if decide (target a ∉ columns df) then
         raise (ValueError ("Target column " +:+ dquote +:+ target a +:+ dquote
                            +:+ " not in CSV columns: " +:+ repr_list (columns df)))
       else mret ());
  (* Basic cleaning *)
  let df := drop_duplicates df in
  let df := dropna df (target a) in
  (* Currency conversion for target *)
  df ← lift (convert_target df (target a) (currency_rate a));
  '(numeric_cols, categorical_cols) ← lift (detect_feature_types df (target a));
  X ← lift (drop_column df (target a));
  let y := series df (target a) in
  '(X_train, X_test, y_train, y_test) ← lift (train_test_split X y (test_size a) 42);
  let pipeline := build_pipeline numeric_cols categorical_cols in
  pipeline ← lift (fit pipeline X_train y_train);
  (* Evaluation *)
  y_pred ← lift (pipeline_predict pipeline X_test);
  rmse ← lift (mean_squared_error y_test y_pred false);
  mae ← lift (mean_absolute_error y_test y_pred);
  r2 ← lift (r2_score y_test y_pred);
  (* Save model and metadata *)
  _ ← joblib_dump pipeline (out_model a);
  let metadata := PDict [
    ("target", PStr (target a));
    ("numeric_features", PList (PStr <$> numeric_cols));
    ("categorical_features", PList (PStr <$> categorical_cols));
    ("training_rows", PInt (Z.of_nat (length (rows X_train))));
    ("test_rows", PInt (Z.of_nat (length (rows X_test))));
    ("metrics", PDict [("rmse", PFloat rmse); ("mae", PFloat mae); ("r2", PFloat r2)]);
    ("currency_rate", PFloat (currency_rate a))
  ] in
  json_dump metadata (out_meta a).

(** The document at [path], when it is one [json.dump] wrote. *)
Definition read_json (fs : gmap string file) (path : string) : option pyval :=
  match fs !! path with
  | Some (JsonFile doc) => Some doc
  | _ => None
  end.

(** The status the interpreter exits with. *)
Definition exit_status {A} (r : result A) : Z :=
  match r with
  | Return _ => 0
  | Raise _ => 1
  end.

End Main.

End Train.

(** ** The form, [app/frontend/streamlit_app.py] *)

Module Frontend.

Definition placeholder : string := "Sélectionner...".

Definition CATEGORICAL_OPTIONS : gmap string (list string) := list_to_map [
  ("company", ["Maruti"; "Hyundai"; "Honda"; "Toyota"; "Ford"; "Skoda"; "Renault"; "Mahindra";
               "Tata"; "Volkswagen"; "BMW"; "Mercedes-Benz"; "Audi"; "Jeep"; "Nissan";
               "Datsun"; "Chevrolet"; "Fiat"; "MG"; "Volvo"; "Lexus"; "Jaguar"; "Land Rover"; "Daewoo"]);
  ("fuel", ["Petrol"; "Diesel"; "CNG"; "LPG"; "Electric"]);
  ("transmission", ["Manual"; "Automatic"]);
  ("owner", ["First"; "Second"; "Third"; "Fourth & Above"]);
  ("seller_type", ["Individual"; "Dealer"; "Trustmark Dealer"])
].

(** [CATEGORICAL_OPTIONS.get(key, [])] *)
Definition options_get (key : string) : list string :=
  default [] (CATEGORICAL_OPTIONS !! key).

Definition COMMON_MODELS : list string :=
  ["Swift"; "City"; "i20"; "Alto"; "Wagon"; "Baleno"; "Creta"; "Verna";
   "Fortuner"; "Innova"; "Corolla"; "Etios"; "Rapid"; "Duster"; "Figo";
   "EcoSport"; "X1"; "A6"; "Q5"; "C-Class"; "E-Class"; "S-Class"].

Definition COMMON_EDITIONS : list string :=
  ["VDI"; "VXI"; "ZXI"; "LXI"; "Asta"; "Sportz"; "Magna"; "SX";
   "VX"; "ZX"; "Delta"; "Zeta"; "Alpha"; "Highline"; "Comfortline";
   "Trendline"; "Elegance"; "Ambition"; "Plus"; "Option"].

Definition YEAR_OPTIONS : list N := N.of_nat <$> seq 2000 26.
Definition KM_DRIVEN_OPTIONS : list N :=
  [0; 5000; 10000; 15000; 20000; 25000; 30000; 40000; 50000;
   60000; 70000; 80000; 90000; 100000; 120000; 140000; 150000;
   170000; 200000]%N.
Definition ENGINE_CC_OPTIONS : list N :=
  [796; 998; 1061; 1086; 1197; 1198; 1199; 1248; 1298; 1364;
   1396; 1399; 1461; 1462; 1497; 1498; 1591; 1598; 1797; 1798;
   1968; 1995; 1998; 1999; 2143; 2179; 2362; 2477; 2494; 2755;
   2982; 2987; 3604]%N.
Definition POWER_BHP_OPTIONS : list N :=
  [34; 37; 40; 46; 47; 53; 57; 60; 64; 67; 68; 73; 74; 75; 78;
   81; 82; 83; 86; 88; 90; 93; 98; 100; 103; 108; 116; 117; 120;
   121; 126; 138; 141; 147; 155; 160; 168; 170; 171; 174; 177;
   183; 187; 188; 189; 190; 214; 241; 254; 280; 400]%N.
Definition TORQUE_NM_OPTIONS : list N :=
  [59; 60; 62; 69; 71; 76; 78; 84; 90; 91; 95; 96; 99; 104; 110;
   112; 113; 114; 115; 124; 130; 138; 145; 146; 151; 153; 160; 170;
   173; 177; 190; 200; 205; 213; 219; 224; 248; 250; 259; 260; 280;
   290; 300; 320; 343; 347; 360; 380; 382; 400; 430; 490; 500; 550;
   620; 640]%N.
Definition MILEAGE_MPG_OPTIONS : list N :=
  [22; 26; 28; 30; 32; 33; 34; 35; 36; 37; 38; 39; 40; 41; 42;
   43; 44; 45; 46; 47; 48; 49; 50; 51; 52; 53; 54; 55; 56; 57;
   58; 59; 61; 62; 64; 66; 98]%N.
Definition SEATS_OPTIONS : list N := [4; 5; 6; 7; 8]%N.

(** *** The string operations the form uses *)

(** [f"{x}"] *)
Definition format (x : N) : string := NilZero.string_of_uint (N.to_uint x).

(** [f"{x:,}"]: a comma before every group of three digits. *)
Fixpoint group3 (digits : string) : string :=
  match digits with
  | "" => ""
  | String c rest =>
      let n := String.length rest in
      String c (if (0 <? n)%nat && (n mod 3 =? 0)%nat then "," +:+ group3 rest
                else group3 rest)
  end.
Definition format_thousands (x : N) : string := group3 (format x).

(** [s.replace(old, new)] for a non-empty [old]; [skip] counts the
    characters of a match still to pass over. *)
Fixpoint replace_from (skip : nat) (old new s : string) : string :=
  match s with
  | "" => ""
  | String c rest =>
      match skip with
      | S k => replace_from k old new rest
      | O =>
          if String.prefix old s then new +:+ replace_from (String.length old - 1) old new rest
          else String c (replace_from 0 old new rest)
      end
  end.
Definition replace (s old new : string) : string := replace_from 0 old new s.

(** [int(s)] for a string of decimal digits, which is all the form hands
    to it. (Python also reads signs, blanks around and underscores within;
    here those raise as any other text does.) *)
Definition int (s : string) : result Z :=
  match NilZero.uint_of_string s with
  | Some u => Return (Z.of_N (N.of_uint u))
  | None => Raise (ValueError ("invalid literal for int() with base 10: '" +:+ s +:+ "'"))
  end.

(** [float(s)], likewise for a string of decimal digits. *)
Definition float_ (s : string) : result float :=
  match NilZero.uint_of_string s with
  | Some u => Return (of_uint63 (Uint63.of_Z (Z.of_N (N.of_uint u))))
  | None => Raise (ValueError ("could not convert string to float: '" +:+ s +:+ "'"))
  end.

(** [v.strip() == '']: every character of [v], read as UTF-8, is one
    Python counts as whitespace. *)
Definition space1 (a : N) : bool :=
  ((9 <=? a) && (a <=? 13) || (28 <=? a) && (a <=? 32))%N.
Definition space2 (a b : N) : bool :=
  ((a =? 194) && ((b =? 133) || (b =? 160)))%N.
Definition space3 (a b c : N) : bool :=
  ((a =? 225) && (b =? 154) && (c =? 128)
   || (a =? 226) && (b =? 128) && ((128 <=? c) && (c <=? 138) || (c =? 168) || (c =? 169) || (c =? 175))
   || (a =? 226) && (b =? 129) && (c =? 159)
   || (a =? 227) && (b =? 128) && (c =? 128))%N.

Fixpoint strips_to_empty (v : string) : bool :=
  match v with
  | "" => true
  | String a v1 =>
      if space1 (Ascii.N_of_ascii a) then strips_to_empty v1
      else match v1 with
           | "" => false
           | String b v2 =>
               if space2 (Ascii.N_of_ascii a) (Ascii.N_of_ascii b) then strips_to_empty v2
               else match v2 with
                    | "" => false
                    | String c v3 =>
                        if space3 (Ascii.N_of_ascii a) (Ascii.N_of_ascii b) (Ascii.N_of_ascii c)
                        then strips_to_empty v3
                        else false
                    end
           end
  end.

(** *** The widgets *)

(** What the person at the form does: which entry of each selection list
    is picked (by position; every list starts at position 0) and what is
    typed in each text box. A widget is told apart by the feature it is
    for. *)
Record user := { pick : string → nat; typed : string → string }.

(** [st.selectbox(label, options=[first] + others, index=0)] *)
Definition selectbox (u : user) (key : string) (first : pyval) (others : list pyval) : pyval :=
  default first ((first :: others) !! pick u key).

(** [st.text_input(label, value='')] *)
Definition text_input (u : user) (key : string) : pyval := PStr (typed u key).

(** [v == s] for a string [s] *)
Definition eq_str (v : pyval) (s : string) : bool :=
  match v with
  | PStr s' => bool_decide (s' = s)
  | _ => false
  end.

(** What a block stores for the value its widget returned. *)

(** [if inputs[k] == 'Sélectionner...': inputs[k] = None] *)
Definition or_none (v : pyval) : result pyval :=
  Return (if eq_str v placeholder then PNone else v).

(** [int(selected.replace(suffix, '').replace(',', ''))] unless the
    placeholder is selected, [None] then. *)
Definition int_or_none (suffix : string) (selected : pyval) : result pyval :=
  match selected with
  | PStr s =>
      if decide (s ≠ placeholder) then
        z ← int (replace (replace s suffix "") "," ""); Return (PInt z)
      else Return PNone
  | _ => Raise (Exn "AttributeError" "object has no attribute 'replace'")
  end.

(** [float(selected.replace(suffix, ''))] unless the placeholder is
    selected, [None] then. *)
Definition float_or_none (suffix : string) (selected : pyval) : result pyval :=
  match selected with
  | PStr s =>
      if decide (s ≠ placeholder) then
        x ← float_ (replace s suffix ""); Return (PFloat x)
      else Return PNone
  | _ => Raise (Exn "AttributeError" "object has no attribute 'replace'")
  end.

(** One [if name in cols: ...] block of the form: the list that has to
    declare the feature, what the widget returned and what the block stores
    for it. *)
Record block := Block {
  name : string;
  declared_in : list string;
  returned : pyval;
  store : pyval → result pyval;
}.

(** The blocks, in the order of the script. *)
Definition blocks (u : user) (numeric_cols categorical_cols : list string) : list block :=
  let labelled (suffix : string) (options : list N) : list pyval :=
    (λ x, PStr (format x +:+ suffix)) <$> options in
  [ Block "company" categorical_cols
      (selectbox u "company" (PStr placeholder) (PStr <$> options_get "company")) or_none;
    Block "model" categorical_cols
      (selectbox u "model" (PStr placeholder) (PStr <$> COMMON_MODELS)) or_none;
    Block "edition" categorical_cols
      (selectbox u "edition" (PStr placeholder) (PStr <$> COMMON_EDITIONS)) or_none;
    Block "name" categorical_cols (text_input u "name") Return;
    Block "year" numeric_cols
      (selectbox u "year" (PStr placeholder) ((λ x, PInt (Z.of_N x)) <$> YEAR_OPTIONS)) or_none;
    Block "km_driven" numeric_cols
      (selectbox u "km_driven" (PStr placeholder)
         ((λ x, PStr (format_thousands x +:+ " km")) <$> KM_DRIVEN_OPTIONS))
      (int_or_none " km");
    Block "engine_cc" numeric_cols
      (selectbox u "engine_cc" (PStr placeholder) (labelled " cc" ENGINE_CC_OPTIONS))
      (float_or_none " cc");
    Block "max_power_bhp" numeric_cols
      (selectbox u "max_power_bhp" (PStr placeholder) (labelled " bhp" POWER_BHP_OPTIONS))
      (float_or_none " bhp");
    Block "torque_nm" numeric_cols
      (selectbox u "torque_nm" (PStr placeholder) (labelled " Nm" TORQUE_NM_OPTIONS))
      (float_or_none " Nm");
    Block "mileage_mpg" numeric_cols
      (selectbox u "mileage_mpg" (PStr placeholder) (labelled " mpg" MILEAGE_MPG_OPTIONS))
      (float_or_none " mpg");
    Block "seats" numeric_cols
      (selectbox u "seats" (PStr placeholder) (labelled " places" SEATS_OPTIONS))
      (float_or_none " places");
    Block "fuel" categorical_cols
      (selectbox u "fuel" (PStr placeholder) (PStr <$> options_get "fuel")) or_none;
    Block "transmission" categorical_cols
      (selectbox u "transmission" (PStr placeholder) (PStr <$> options_get "transmission")) or_none;
    Block "owner" categorical_cols
      (selectbox u "owner" (PStr placeholder) (PStr <$> options_get "owner")) or_none;
    Block "seller_type" categorical_cols
      (selectbox u "seller_type" (PStr placeholder) (PStr <$> options_get "seller_type")) or_none ].

(** Running the blocks: [if name in cols: inputs[name] = ...]. *)
Fixpoint run_blocks (bs : list block) (inputs : dict) : result dict :=
  match bs with
  | [] => Return inputs
  | b :: bs' =>
      if decide (name b ∈ declared_in b) then
        v ← store b (returned b);
        run_blocks bs' (dict_set inputs (name b) v)
      else run_blocks bs' inputs
  end.

(** What the generic selection list of a remaining categorical feature
    returned, and what the loop stores for it. *)
Definition fallback_returned (u : user) (col : string) : pyval :=
  selectbox u col (PStr placeholder) [PStr "Autre"].

Definition fallback_store (v : pyval) : pyval :=
  if eq_str v placeholder then PNone
  else if eq_str v "Autre" then PStr ""
  else v.

(** [for col in categorical_cols: if col not in inputs: ...] *)
Fixpoint remaining (u : user) (cols : list string) (inputs : dict) : dict :=
  match cols with
  | [] => inputs
  | col :: cols' =>
      if decide (col ∉ keys inputs) then
        remaining u cols' (dict_set inputs col (fallback_store (fallback_returned u col)))
      else remaining u cols' inputs
  end.

(** The dictionary [inputs] when the form is submitted. *)
Definition form (u : user) (numeric_cols categorical_cols : list string) : result dict :=
  inputs ← run_blocks (blocks u numeric_cols categorical_cols) [];
  Return (remaining u categorical_cols inputs).

(** [None if (isinstance(v, str) and v.strip() == '') else v] *)
Definition normalize (v : pyval) : pyval :=
  match v with
  | PStr s => if strips_to_empty s then PNone else v
  | _ => v
  end.

(** [payload = {k: normalize(v) for k, v in inputs.items()}] *)
Definition payload (inputs : dict) : dict :=
  fold_left (λ d kv, dict_set d kv.1 (normalize kv.2)) inputs [].

(** The feature request [requests.post] sends on submission. *)
Definition submitted (u : user) (numeric_cols categorical_cols : list string) : result dict :=
  inputs ← form u numeric_cols categorical_cols;
  Return (payload inputs).

End Frontend.

(** ** The payload, from what the person did *)

(** A second description of the feature request, to compare [submitted]
    with: it says what is posted for a feature in terms of the position
    picked or the text typed, never of the labels shown. *)
Module FormSpec.
Import Frontend.

Inductive kind := Categorical | Numeric.

Inductive widget :=
| SelectionList (values : list pyval)
| TextBox.

(** The value a selection list stands for: none while it is left where it
    starts, on the placeholder. *)
Definition selected (u : user) (key : string) (values : list pyval) : option pyval :=
  match pick u key with
  | O => None
  | S i => values !! i
  end.

Definition number (x : N) : pyval := PInt (Z.of_N x).
Definition decimal (x : N) : pyval := PFloat (of_uint63 (Uint63.of_Z (Z.of_N x))).

(** The features the form has a widget of their own for, the metadata
    list that has to declare them, and the values on offer. *)
Definition dedicated : list (string * (kind * widget)) := [
  ("company", (Categorical, SelectionList (PStr <$> options_get "company")));
  ("model", (Categorical, SelectionList (PStr <$> COMMON_MODELS)));
  ("edition", (Categorical, SelectionList (PStr <$> COMMON_EDITIONS)));
  ("name", (Categorical, TextBox));
  ("year", (Numeric, SelectionList (number <$> YEAR_OPTIONS)));
  ("km_driven", (Numeric, SelectionList (number <$> KM_DRIVEN_OPTIONS)));
  ("engine_cc", (Numeric, SelectionList (decimal <$> ENGINE_CC_OPTIONS)));
  ("max_power_bhp", (Numeric, SelectionList (decimal <$> POWER_BHP_OPTIONS)));
  ("torque_nm", (Numeric, SelectionList (decimal <$> TORQUE_NM_OPTIONS)));
  ("mileage_mpg", (Numeric, SelectionList (decimal <$> MILEAGE_MPG_OPTIONS)));
  ("seats", (Numeric, SelectionList (decimal <$> SEATS_OPTIONS)));
  ("fuel", (Categorical, SelectionList (PStr <$> options_get "fuel")));
  ("transmission", (Categorical, SelectionList (PStr <$> options_get "transmission")));
  ("owner", (Categorical, SelectionList (PStr <$> options_get "owner")));
  ("seller_type", (Categorical, SelectionList (PStr <$> options_get "seller_type")))
].

Definition declares (numeric_cols categorical_cols : list string) (kd : kind) : list string :=
  match kd with
  | Categorical => categorical_cols
  | Numeric => numeric_cols
  end.

(** The widget a feature gets from a table: its own when the right list
    declares it. *)
Fixpoint widget_in (ds : list (string * (kind * widget)))
  (numeric_cols categorical_cols : list string) (key : string) : option widget :=
  match ds with
  | [] => None
  | d :: ds' =>
      if decide (d.1 = key) then
        if decide (key ∈ declares numeric_cols categorical_cols d.2.1) then Some d.2.2
        else None
      else widget_in ds' numeric_cols categorical_cols key
  end.

Definition widget_of : list string → list string → string → option widget :=
  widget_in dedicated.

(** What is posted for a dedicated widget: the value picked, the text
    typed, or null for a list left on its placeholder or a text of blanks
    only. *)
Definition posted_by (u : user) (key : string) (w : widget) : pyval :=
  match w with
  | SelectionList values => default PNone (selected u key values)
  | TextBox => if strips_to_empty (typed u key) then PNone else PStr (typed u key)
  end.

(** What is posted for a feature: as its dedicated widget says; null,
    whatever is picked, for another categorical feature, which gets the
    generic list; nothing for any other name. *)
Definition posted (u : user) (numeric_cols categorical_cols : list string) (key : string)
  : option pyval :=
  match widget_of numeric_cols categorical_cols key with
  | Some w => Some (posted_by u key w)
  | None => if decide (key ∈ categorical_cols) then Some PNone else None
  end.

(** What a block of the script posts for the value its widget returned:
    what it stores, after the payload's normalization. *)
Definition posts (store : pyval → result pyval) (returned : pyval) : result pyval :=
  v ← store returned; Return (normalize v).

(** A block of the script and an entry of the table agree: same feature,
    same declaring list, same value posted. *)
Definition agrees (u : user) (numeric_cols categorical_cols : list string)
  (b : block) (d : string * (kind * widget)) : Prop :=
  name b = d.1
  ∧ declared_in b = declares numeric_cols categorical_cols d.2.1
  ∧ posts (store b) (returned b) = Return (posted_by u d.1 d.2.2).

End FormSpec.

(** ** The service's tests, [tests/test_api.py] *)

Module Tests.
Import Api.

Inductive outcome := Passed | Failed | Skipped.

(** Whether a value has a JSON form: a float that is not finite has
    none. *)
Fixpoint json_compliant (v : pyval) : bool :=
  match v with
  | PFloat f => is_finite f
  | PList l => forallb json_compliant l
  | PDict kvs => forallb (λ kv, json_compliant kv.2) kvs
  | _ => true
  end.

(** What a client gets: a status code and a JSON body, or the bare 500
    of an exception nothing handled. *)
Inductive reply :=
| Reply (status_code : Z) (body : dict)
| InternalServerError (e : pyexn).

(** How a handler's result is served. A dictionary is served with 200,
    an [HTTPException] with its status code and [{"detail": detail}].
    What is served for a dictionary with no JSON form is up to the
    versions of FastAPI and pydantic installed, and is left out:
    [None]. *)
Definition served (r : response) : option reply :=
  match r with
  | Ok200 body =>
      if forallb json_compliant (values body) then Some (Reply 200 body) else None
  | HTTPException status_code detail => Some (Reply status_code [("detail", PStr detail)])
  | Uncaught e => Some (InternalServerError e)
  end.

Section Client.
Context `{Model}.


(** [client.post('/predict', json=payload)] *)
Definition post_predict (fs : gmap string file) (payload : dict) : option reply :=
  predict fs payload ≫= served.


(** Skipped when there is no metadata file; an exception in the body of
    the test fails it. The payload [{k: None for k in expected_cols}] is
    sent as JSON, where every key is a string: for keys that are not, the
    test is left out, as [predict] is. *)
Definition test_predict_minimal (fs : gmap string file) : option outcome :=
  match fs !! META_PATH with
  | None => Some Skipped
  | Some meta_file =>
      match (meta ← json_load meta_file; cols ← expected_cols meta; row_keys cols)
            : result (option (list string)) with
      | Raise _ => Some Failed
      | Return None => None
      | Return (Some expected_cols) =>
          let payload := dict_comprehension (λ _, PNone) expected_cols in
          match post_predict fs payload with
          | None => None
          | Some (InternalServerError _) => Some Failed
          | Some (Reply status_code body) =>
              Some (if bool_decide (status_code = 200%Z) then
                      if bool_decide ("price" ∈ keys body) then Passed else Failed
                    else Failed)
          end
      end
  end.

End Client.

End Tests.

(** ** The form and the service together *)

(** The form reads the same [models/metadata.json] as the service and
    posts to its [/predict]. *)
Module Session.

(** What the person sees after submitting: the price, the status and the
    body of an answer that is not a 200, the bare 500 of a service that
    raised, or that the service cannot be reached. *)
Inductive shown :=
| Price (price : float)
| ErrorStatus (status_code : Z) (body : dict)
| ServerError
| Unreachable.

Section Submit.
Context `{Api.Model}.

(** [numeric_cols] and [categorical_cols] of the form: read off the
    metadata file when there is one, empty otherwise. Metadata that does
    not parse, that is not a dictionary or whose two entries do not add
    stops the script. The form is modelled for lists of names; for
    entries of another kind it is left out: [None]. *)
Definition form_columns (fs : gmap string Api.file)
  : option (result (list string * list string)) :=
  match fs !! Api.META_PATH with
  | None => Some (Return ([], []))
  | Some meta_file =>
      match Api.json_load meta_file with
      | Raise e => Some (Raise e)
      | Return metadata =>
          match get_method metadata "numeric_features" (PList []) with
          | Raise e => Some (Raise e)
          | Return numeric_cols =>
              match get_method metadata "categorical_features" (PList []) with
              | Raise e => Some (Raise e)
              | Return categorical_cols =>
                  match add_values numeric_cols categorical_cols with
                  | Raise e => Some (Raise e)
                  | Return _ =>
                      match numeric_cols, categorical_cols with
                      | PList numeric_cols, PList categorical_cols =>
                          numeric_cols ← names numeric_cols;
                          categorical_cols ← names categorical_cols;
                          Some (Return (numeric_cols, categorical_cols))
                      | _, _ => None
                      end
                  end
              end
          end
      end
  end.

(** What is shown for the service's answer: a 200 shows the price, any
    other status shows the error. An exception while showing the price,
    as for a connection that fails, shows the service as unreachable. *)
Definition show (r : Tests.reply) : shown :=
  match r with
  | Tests.InternalServerError _ => ServerError
  | Tests.Reply status_code body =>
      if bool_decide (status_code = 200%Z) then
        match get body "price" PNone with
        | PFloat price => Price price
        | _ => Unreachable
        end
      else ErrorStatus status_code body
  end.

(** [if submitted: ...], with a service that answers. [None] where the
    form or what the service sends is left out. *)
Definition on_submit (u : Frontend.user) (fs : gmap string Api.file) : option (result shown) :=
  match form_columns fs with
  | None => None
  | Some (Raise e) => Some (Raise e)
  | Some (Return (numeric_cols, categorical_cols)) =>
      match Frontend.submitted u numeric_cols categorical_cols with
      | Raise e => Some (Raise e)
      | Return payload => (λ r, Return (show r)) <$> Tests.post_predict fs payload
      end
  end.

End Submit.

End Session.

(** ** Text *)

(** Predicates on strings and values, to state what the form's string
    operations do. *)
Module Text.
(** Every character of [s] satisfies [P]. *)
Fixpoint every (P : ascii → bool) (s : string) : bool :=
  match s with
  | "" => true
  | String c rest => P c && every P rest
  end.

(** [c.isdigit()], for ASCII. *)
Definition digit (c : ascii) : bool :=
  ((48 <=? N_of_ascii c) && (N_of_ascii c <=? 57))%N.

(** [c != a] *)
Definition other_than (a c : ascii) : bool := negb (Ascii.eqb c a).

(** A value other than null that the form can post: a number, or text
    that is not blank. *)
Definition plain (v : pyval) : bool :=
  match v with
  | PInt _ | PFloat _ => true
  | PStr s => negb (Frontend.strips_to_empty s)
  | _ => false
  end.
End Text.

(** ** Test inputs *)

Module Fixture.

(** A stand-in for a trained pipeline: it quotes one price for every row
    of scalars and rejects a row with a list or a dictionary in it. *)
Definition is_scalar (v : pyval) : bool :=
  match v with
  | PList _ | PDict _ => false
  | _ => true
  end.

#[global] Instance flat_rate : Api.Model := {|
  Api.pipeline := float;
  Api.model_predict price X :=
    if forallb (forallb is_scalar) (Api.data X) then Return price
    else Raise (ValueError "setting an array element with a sequence.")
|}.

Definition trained_meta : pyval :=
  PDict [("target", PStr "price");
         ("numeric_features", PList [PStr "year"; PStr "km_driven"]);
         ("categorical_features", PList [PStr "fuel"]);
         ("training_rows", PInt 70);
         ("test_rows", PInt 30);
         ("metrics", PDict [("rmse", PFloat 0); ("mae", PFloat 0); ("r2", PFloat 0)]);
         ("currency_rate", PFloat 1)].

Definition not_a_pickle : pyexn := Exn "UnpicklingError" "invalid load key".
Definition not_json : pyexn := Exn "JSONDecodeError" "Expecting value: line 1 column 1 (char 0)".

(** The artifact store after a training run. *)
Definition trained : gmap string Api.file :=
  {[ Api.MODEL_PATH := {| Api.joblib_load := Return 450000%float;
                          Api.json_load := Raise not_json |};
     Api.META_PATH := {| Api.joblib_load := Raise not_a_pickle;
                         Api.json_load := Return trained_meta |} ]}.

(** The artifact store before any training run. *)
Definition untrained : gmap string Api.file := ∅.

Definition request : dict :=
  [("year", PInt 2015); ("km_driven", PInt 40000); ("fuel", PStr "Petrol")].
Definition request_reordered : dict :=
  [("fuel", PStr "Petrol"); ("year", PInt 2015); ("km_driven", PInt 40000)].
Definition request_nested : dict :=
  [("year", PList [PInt 2015]); ("fuel", PStr "Petrol")].
(** One expected feature left out, one unexpected key supplied. *)
Definition request_partial : dict :=
  [("colour", PStr "red"); ("fuel", PStr "Diesel"); ("year", PInt 2012)].

(** A metadata document that names one feature in both lists. *)
Definition overlapping_meta : pyval :=
  PDict [("numeric_features", PList [PStr "year"]);
         ("categorical_features", PList [PStr "year"])].

(** The artifact store with that metadata. *)
Definition overlapping : gmap string Api.file :=
  {[ Api.MODEL_PATH := {| Api.joblib_load := Return 450000%float;
                          Api.json_load := Raise not_json |};
     Api.META_PATH := {| Api.joblib_load := Raise not_a_pickle;
                         Api.json_load := Return overlapping_meta |} ]}.

(** The artifact store with a metadata file that holds [[]], which is
    JSON and no dictionary. *)
Definition metadata_a_list : gmap string Api.file :=
  {[ Api.MODEL_PATH := {| Api.joblib_load := Return 450000%float;
                          Api.json_load := Raise not_json |};
     Api.META_PATH := {| Api.joblib_load := Raise not_a_pickle;
                         Api.json_load := Return (PList []) |} ]}.

(** A metadata document whose numeric features are null, and the
    artifact store with it. *)
Definition null_features_meta : pyval :=
  PDict [("numeric_features", PNone); ("categorical_features", PList [PStr "fuel"])].
Definition null_features : gmap string Api.file :=
  {[ Api.MODEL_PATH := {| Api.joblib_load := Return 450000%float;
                          Api.json_load := Raise not_json |};
     Api.META_PATH := {| Api.joblib_load := Raise not_a_pickle;
                         Api.json_load := Return null_features_meta |} ]}.

(** The artifact store with a metadata file that lists a list among the
    feature names. *)
Definition nested_name : gmap string Api.file :=
  {[ Api.MODEL_PATH := {| Api.joblib_load := Return 450000%float;
                          Api.json_load := Raise not_json |};
     Api.META_PATH := {| Api.joblib_load := Raise not_a_pickle;
                         Api.json_load := Return (PDict [("numeric_features",
                                                          PList [PStr "year"; PList []])]) |} ]}.

(** A stand-in for pandas cells: integers, floats (by their IEEE
    decomposition, which has decidable equality), booleans and text; text
    converts to float when it is a string of digits. *)
Inductive value :=
| VInt (z : Z)
| VFloat (x : spec_float)
| VBool (b : bool)
| VStr (s : string).

#[global] Instance spec_float_eq_dec : EqDecision spec_float.
Proof. solve_decision. Defined.
#[global] Instance value_eq_dec : EqDecision value.
Proof. solve_decision. Defined.

#[global] Instance toy_pandas : Train.Pandas := {|
  Train.cell := value;
  Train.astype_float v :=
    match v with
    | VInt z => float_of_int z
    | VFloat x => Return (SF2Prim x)
    | VBool b => Return (if b then 1 else 0)%float
    | VStr s => Frontend.float_ s
    end;
  Train.of_float x := VFloat (Prim2SF x)
|}.

(** A stand-in for scikit-learn: no shuffling, a model that predicts 0 for
    every row, metrics that report 0. *)
#[global] Instance toy_sklearn : Train.Sklearn := {|
  Train.fitted := ();
  Train.permutation _ n := seq 0 n;
  Train.permutation_spec _ n := Permutation_refl (seq 0 n);
  Train.fit _ _ _ := Return ();
  Train.pipeline_predict _ X := Return (replicate (length (Train.rows X)) 0%float);
  Train.mean_squared_error _ _ _ := Return 0%float;
  Train.mean_absolute_error _ _ := Return 0%float;
  Train.r2_score _ _ := Return 0%float
|}.

(** A CSV of [n] distinct rows with the columns year, km_driven, fuel and
    price. *)
Definition cars (n : nat) : Train.DataFrame :=
  {| Train.schema := [("year", Train.int64); ("km_driven", Train.int64);
                      ("fuel", Train.object_); ("price", Train.float64)];
     Train.rows := (λ i, [Some (VInt 2015); Some (VInt (1000 * Z.of_nat i));
                          Some (VStr "Petrol");
                          Some (VFloat (Prim2SF (of_uint63 (Uint63.of_Z (5000 + Z.of_nat i)))))])
                   <$> seq 0 n |}.



Definition arguments : Train.args :=
  {| Train.csv := "data/cars.csv";
     Train.target := "price";
     Train.test_size := 0.3;
     Train.currency_rate := 1.0;
     Train.out_model := "models/rf_model.joblib";
     Train.out_meta := "models/metadata.json" |}.

(** The same command line, asking for a column the CSVs do not have. *)
Definition arguments_cost : Train.args :=
  {| Train.csv := "data/cars.csv";
     Train.target := "cost";
     Train.test_size := 0.3;
     Train.currency_rate := 1.0;
     Train.out_model := "models/rf_model.joblib";
     Train.out_meta := "models/metadata.json" |}.

Definition disk (df : Train.DataFrame) : gmap string Train.file :=
  {[ "data/cars.csv" := Train.CsvFile df ]}.

(** Someone who touches one widget only: the generic list of the feature
    colour, set to its second entry, "Autre". *)
Definition picks_autre : Frontend.user :=
  {| Frontend.pick key := if decide (key = "colour") then 1 else 0;
     Frontend.typed _ := "" |}.

(** Someone who picks a 2015 Diesel with 40,000 km and 5 seats and types
    blanks for the name. *)
Definition buyer : Frontend.user :=
  {| Frontend.pick key :=
       if decide (key = "year") then 16
       else if decide (key = "km_driven") then 8
       else if decide (key = "seats") then 2
       else if decide (key = "fuel") then 2
       else 0;
     Frontend.typed _ := "  " |}.

(** The artifact store with the metadata in place and no model file. *)
Definition metadata_only : gmap string Api.file :=
  {[ Api.META_PATH := {| Api.joblib_load := Raise not_a_pickle;
                         Api.json_load := Return trained_meta |} ]}.

(** The artifact store with a model file that does not load. *)
Definition corrupt_model : gmap string Api.file :=
  {[ Api.MODEL_PATH := {| Api.joblib_load := Raise not_a_pickle;
                          Api.json_load := Raise not_json |};
     Api.META_PATH := {| Api.joblib_load := Raise not_a_pickle;
                         Api.json_load := Return trained_meta |} ]}.

(** Another command line: a fifth of the rows for testing, prices
    converted at 11 to 1. *)
Definition arguments_rated : Train.args :=
  {| Train.csv := "data/cars.csv";
     Train.target := "price";
     Train.test_size := 0.2;
     Train.currency_rate := 11;
     Train.out_model := "models/rf_model.joblib";
     Train.out_meta := "models/metadata.json" |}.

End Fixture.

(** * Properties *)

(** ** Dictionaries *)

Module PyFacts.

Lemma dict_get_set (d : dict) (k k' : string) (v : pyval) :
  dict_get (dict_set d k v) k' = if decide (k = k') then Some v else dict_get d k'.
Proof.
  induction d as [|[k0 v0] d IH]; csimpl.
  - repeat case_decide; congruence.
  - destruct (decide (k0 = k)) as [->|Hne]; csimpl.
    + repeat case_decide; congruence.
    + rewrite IH. repeat case_decide; congruence.
Qed.

Lemma dict_get_None (d : dict) (k : string) :
  dict_get d k = None ↔ k ∉ keys d.
Proof.
  unfold keys. induction d as [|[k0 v0] d IH]; csimpl.
  - split; [intros _; apply not_elem_of_nil | done].
  - rewrite not_elem_of_cons. destruct (decide (k0 = k)) as [->|Hne].
    + split; [done | intros [Hk _]; done].
    + rewrite IH. split; [intros Hk; split; [congruence | done] | intros [_ Hk]; done].
Qed.

Lemma dict_get_Some_key (d : dict) (k : string) (v : pyval) :
  dict_get d k = Some v → k ∈ keys d.
Proof.
  intros Hget. destruct (decide (k ∈ keys d)) as [|Hnot]; [done|].
  apply dict_get_None in Hnot. congruence.
Qed.

Lemma keys_dict_set (d : dict) (k : string) (v : pyval) :
  keys (dict_set d k v) = if decide (k ∈ keys d) then keys d else keys d ++ [k].
Proof.
  unfold keys. induction d as [|[k0 v0] d IH]; csimpl.
  - done.
  - destruct (decide (k0 = k)) as [->|Hne]; csimpl.
    + rewrite decide_True by left. done.
    + rewrite IH. destruct (decide (k ∈ d.*1)) as [Hin|Hnin].
      * rewrite decide_True by (by right). done.
      * rewrite decide_False; [done|]. rewrite not_elem_of_cons. naive_solver.
Qed.

Lemma NoDup_keys_dict_set (d : dict) (k : string) (v : pyval) :
  NoDup (keys d) → NoDup (keys (dict_set d k v)).
Proof.
  intros Hd. rewrite keys_dict_set. case_decide; [done|].
  apply NoDup_app. split_and!; [done | | apply NoDup_singleton].
  intros x Hx ->%list_elem_of_singleton. done.
Qed.

(** Setting a key to [f] of it, in a dictionary that already maps every
    key to [f] of it. *)
Lemma dict_set_tabulate (f : string → pyval) (acc : list string) (x : string) :
  dict_set ((λ c, (c, f c)) <$> acc) x (f x)
  = (λ c, (c, f c)) <$> (if decide (x ∈ acc) then acc else acc ++ [x]).
Proof.
  induction acc as [|c acc IH]; csimpl.
  - done.
  - destruct (decide (c = x)) as [->|Hne].
    + rewrite decide_True by left. done.
    + rewrite IH. destruct (decide (x ∈ acc)) as [Hin|Hnin].
      * rewrite decide_True by (by right). done.
      * rewrite decide_False; [done|]. rewrite not_elem_of_cons. naive_solver.
Qed.

Lemma fold_tabulate (f : string → pyval) (cols acc : list string) :
  fold_left (λ d col, dict_set d col (f col)) cols ((λ c, (c, f c)) <$> acc)
  = (λ c, (c, f c)) <$>
      fold_left (λ acc x, if decide (x ∈ acc) then acc else acc ++ [x]) cols acc.
Proof.
  revert acc. induction cols as [|c cols IH]; intros acc; simpl; [done|].
  rewrite dict_set_tabulate. apply IH.
Qed.

(** A comprehension lists each distinct column once, where it first
    occurs, with its value. *)
Lemma dict_comprehension_tabulate (f : string → pyval) (cols : list string) :
  dict_comprehension f cols = (λ c, (c, f c)) <$> first_occurrences cols.
Proof. apply (fold_tabulate f cols []). Qed.

Lemma keys_dict_comprehension (f : string → pyval) (cols : list string) :
  keys (dict_comprehension f cols) = first_occurrences cols.
Proof.
  rewrite dict_comprehension_tabulate. unfold keys.
  rewrite <- list_fmap_compose. apply list_fmap_id.
Qed.

Lemma values_dict_comprehension (f : string → pyval) (cols : list string) :
  values (dict_comprehension f cols) = f <$> first_occurrences cols.
Proof.
  rewrite dict_comprehension_tabulate. unfold values.
  rewrite <- list_fmap_compose. done.
Qed.

Lemma fold_first_NoDup (l acc : list string) :
  NoDup (acc ++ l) →
  fold_left (λ acc x, if decide (x ∈ acc) then acc else acc ++ [x]) l acc = acc ++ l.
Proof.
  revert acc. induction l as [|x l IH]; intros acc Hnd; csimpl.
  - by rewrite app_nil_r.
  - assert (x ∉ acc) as Hx.
    { apply NoDup_app in Hnd as (_ & Hdisj & _). intros Hin.
      apply (Hdisj x Hin). left. }
    rewrite decide_False by done.
    rewrite IH; rewrite <- app_assoc; done.
Qed.

Lemma first_occurrences_NoDup (l : list string) :
  NoDup l → first_occurrences l = l.
Proof. intros Hnd. apply (fold_first_NoDup l []). done. Qed.

Lemma fold_first_elem_of (l acc : list string) (x : string) :
  x ∈ fold_left (λ acc x, if decide (x ∈ acc) then acc else acc ++ [x]) l acc
  ↔ x ∈ acc ∨ x ∈ l.
Proof.
  revert acc. induction l as [|y l IH]; intros acc; csimpl.
  - rewrite elem_of_nil. naive_solver.
  - rewrite IH, elem_of_cons. case_decide.
    + naive_solver.
    + rewrite elem_of_app, list_elem_of_singleton. naive_solver.
Qed.

Lemma first_occurrences_elem_of (l : list string) (x : string) :
  x ∈ first_occurrences l ↔ x ∈ l.
Proof.
  unfold first_occurrences. rewrite fold_first_elem_of, elem_of_nil. naive_solver.
Qed.

Lemma dict_get_tabulate (f : string → pyval) (l : list string) (k : string) :
  dict_get ((λ c, (c, f c)) <$> l) k = if decide (k ∈ l) then Some (f k) else None.
Proof.
  induction l as [|c l IH]; csimpl.
  - done.
  - destruct (decide (c = k)) as [->|Hne].
    + rewrite decide_True by left. done.
    + rewrite IH. destruct (decide (k ∈ l)).
      * rewrite decide_True by (by right). done.
      * rewrite decide_False; [done|]. rewrite not_elem_of_cons. naive_solver.
Qed.

Lemma dict_get_comprehension (f : string → pyval) (cols : list string) (k : string) :
  dict_get (dict_comprehension f cols) k = if decide (k ∈ cols) then Some (f k) else None.
Proof.
  rewrite dict_comprehension_tabulate, dict_get_tabulate.
  destruct (decide (k ∈ cols)) as [Hin|Hnin].
  - rewrite decide_True; [done|]. by apply first_occurrences_elem_of.
  - rewrite decide_False; [done|]. by rewrite first_occurrences_elem_of.
Qed.

Lemma dict_comprehension_ext (f g : string → pyval) (cols : list string) :
  (∀ c, c ∈ cols → f c = g c) → dict_comprehension f cols = dict_comprehension g cols.
Proof.
  intros Hfg. rewrite !dict_comprehension_tabulate.
  apply list_fmap_ext. intros i c Hc. f_equal. apply Hfg.
  apply first_occurrences_elem_of. by eapply list_elem_of_lookup_2.
Qed.

(** Dictionaries with the same items in another order have the same
    lookups. *)
Lemma dict_get_Permutation (d d' : dict) (k : string) :
  NoDup (keys d) → d ≡ₚ d' → dict_get d k = dict_get d' k.
Proof.
  intros Hnd Hperm. induction Hperm as [|[k0 v0] d d' Hperm IH
                                        |[k0 v0] [k1 v1] d|d d' d'' Hperm1 IH1 Hperm2 IH2].
  - done.
  - apply NoDup_cons in Hnd as [_ Hnd]. csimpl. case_decide; [done|]. by apply IH.
  - apply NoDup_cons in Hnd as [Hne _]. apply not_elem_of_cons in Hne as [Hne _].
    csimpl in *. repeat case_decide; congruence.
  - rewrite IH1 by done. apply IH2. unfold keys in *. by rewrite <- Hperm1.
Qed.

Lemma dict_set_fresh (d : dict) (k : string) (v : pyval) :
  k ∉ keys d → dict_set d k v = d ++ [(k, v)].
Proof.
  unfold keys. induction d as [|[k0 v0] d IH]; csimpl; [done|].
  rewrite not_elem_of_cons. intros [Hne Hk].
  rewrite decide_False by done. by rewrite IH.
Qed.

Lemma dict_get_fmap_values (f : pyval → pyval) (d : dict) (k : string) :
  dict_get ((λ kv, (kv.1, f kv.2)) <$> d) k = f <$> dict_get d k.
Proof.
  induction d as [|[k0 v0] d IH]; csimpl; [done|]. by case_decide.
Qed.

Lemma fold_first_occurrences_NoDup (l acc : list string) :
  NoDup acc →
  NoDup (fold_left (λ acc x, if decide (x ∈ acc) then acc else acc ++ [x]) l acc).
Proof.
  revert acc. induction l as [|x l IH]; intros acc Hacc; cbn; [done|].
  apply IH. case_decide as Hx; [done|].
  apply NoDup_app. split_and!; [done | | apply NoDup_singleton].
  intros y Hy ->%list_elem_of_singleton. done.
Qed.

Lemma first_occurrences_no_repeat (l : list string) : NoDup (first_occurrences l).
Proof. apply fold_first_occurrences_NoDup, NoDup_nil_2. Qed.

End PyFacts.

(** ** The prediction service *)

Module ApiFacts.
Import Api PyFacts.

Lemma bind_Return {A B} (x : A) (k : A → result B) : Return x ≫= k = k x.
Proof. done. Qed.

Lemma names_strings (l : list string) : names (PStr <$> l) = Some l.
Proof. unfold names. apply mapM_Some. induction l; constructor; done. Qed.

Lemma names_Some (cols : list pyval) (l : list string) :
  names cols = Some l → cols = PStr <$> l.
Proof.
  unfold names. intros Hall%mapM_Some. induction Hall as [|v x cols l Hv _ IH]; [done|].
  destruct v; try done. cbn in Hv. injection Hv as <-. by rewrite IH.
Qed.

Lemma hash_all_strings (l : list string) : hash_all (PStr <$> l) = Return ().
Proof. by induction l. Qed.

Lemma row_keys_names (l : list string) : row_keys (PList (PStr <$> l)) = Return (Some l).
Proof. unfold row_keys. cbn. by rewrite hash_all_strings, names_strings. Qed.

(** Metadata with two lists of names: the expected columns are the one
    followed by the other. *)
Lemma lists_expected_cols meta numeric_cols categorical_cols :
  lists meta numeric_cols categorical_cols →
  expected_cols meta = Return (PList (PStr <$> (numeric_cols ++ categorical_cols))).
Proof.
  intros (kvs & -> & Hnumeric & Hcategorical). unfold expected_cols. cbn.
  rewrite Hnumeric, Hcategorical. cbn. by rewrite fmap_app.
Qed.

Lemma columns_inference_frame expected_cols features :
  columns (inference_frame expected_cols features) = first_occurrences expected_cols.
Proof. apply keys_dict_comprehension. Qed.

Lemma data_inference_frame expected_cols features :
  data (inference_frame expected_cols features)
  = [ (λ col, get features col PNone) <$> first_occurrences expected_cols ].
Proof. cbn. f_equal. apply values_dict_comprehension. Qed.

(** The frame is made of the request's values at the expected columns and
    of nothing else. *)
Lemma inference_frame_ext expected_cols features features' :
  (∀ col, col ∈ expected_cols → dict_get features col = dict_get features' col) →
  inference_frame expected_cols features = inference_frame expected_cols features'.
Proof.
  intros Hsame. unfold inference_frame, inference_row.
  rewrite (dict_comprehension_ext _ (λ col, get features' col PNone)); [done|].
  intros c Hc. unfold get. by rewrite Hsame.
Qed.

Section Service.
Context `{Model}.

Lemma load_artifacts_Return (fs : gmap string file) model meta :
  load_artifacts fs = Return (model, meta) ↔
  ∃ model_file meta_file,
    fs !! MODEL_PATH = Some model_file ∧ fs !! META_PATH = Some meta_file ∧
    joblib_load model_file = Return model ∧ json_load meta_file = Return meta.
Proof.
  unfold load_artifacts. split.
  - destruct (fs !! MODEL_PATH) as [mf|], (fs !! META_PATH) as [jf|]; try done.
    destruct (joblib_load mf) as [m|] eqn:Hm; [|done].
    destruct (json_load jf) as [j|] eqn:Hj; [|done].
    cbn. intros [= -> ->]. eauto 10.
  - intros (mf & jf & -> & -> & Hm & Hj). rewrite Hm, Hj. done.
Qed.

(** What [predict] answers once the artifacts are loaded and the
    expected columns are names. *)
Lemma predict_names (fs : gmap string file) (features : dict) model meta expected_names :
  load_artifacts fs = Return (model, meta) →
  expected_cols meta = Return (PList (PStr <$> expected_names)) →
  predict fs features
  = Some (match model_predict model (inference_frame expected_names features) with
          | Raise e => HTTPException 400 ("Prediction failed: " +:+ str e)
          | Return pred => Ok200 [("price", PFloat pred)]
          end).
Proof.
  intros Hload Hcols. unfold predict. rewrite Hload, Hcols.
  change (Return ?x ≫= ?k) with (k x). by rewrite row_keys_names.
Qed.

(** [predict] sees of the request only its values at the expected
    columns. *)
Lemma predict_ext (fs : gmap string file) (features features' : dict) :
  (∀ model meta cols expected_names col,
     load_artifacts fs = Return (model, meta) →
     expected_cols meta = Return cols → row_keys cols = Return (Some expected_names) →
     col ∈ expected_names →
     dict_get features col = dict_get features' col) →
  predict fs features = predict fs features'.
Proof.
  intros Hsame. unfold predict.
  destruct (load_artifacts fs) as [[model meta]|e] eqn:Hload; [|done].
  destruct (expected_cols meta) as [cols|e] eqn:Hcols; [|done].
  change (Return cols ≫= ?k) with (k cols).
  destruct (row_keys cols) as [[expected_names|]|e] eqn:Hkeys; [|done..].
  rewrite (inference_frame_ext expected_names features features'); [done|].
  intros col Hcol. by eapply Hsame.
Qed.

(** C2, amended. When no feature name is repeated in the metadata's two
    lists, the frame [predict] hands to the model has exactly the numeric
    features followed by the categorical features as its columns, in that
    order, in one row; the row holds the request's value for each column and
    null where the request has none; a request key that is not a column
    changes nothing. *)
Theorem predict_row_aligned (fs : gmap string file) (features : dict) model meta
  (numeric_cols categorical_cols : list string) :
  load_artifacts fs = Return (model, meta) →
  lists meta numeric_cols categorical_cols →
  NoDup (numeric_cols ++ categorical_cols) →
  let X := inference_frame (numeric_cols ++ categorical_cols) features in
  columns X = numeric_cols ++ categorical_cols
  ∧ data X = [ (λ col, default PNone (dict_get features col)) <$> columns X ]
  ∧ (∀ col, col ∈ columns X → dict_get features col = None →
       dict_get (inference_row (numeric_cols ++ categorical_cols) features) col = Some PNone)
  ∧ (∀ k v, k ∉ columns X →
       inference_frame (numeric_cols ++ categorical_cols) (dict_set features k v) = X)
  ∧ predict fs features =
      Some (match model_predict model X with
            | Return pred => Ok200 [("price", PFloat pred)]
            | Raise e => HTTPException 400 ("Prediction failed: " +:+ str e)
            end).
Proof.
  intros Hload Hlists Hnd X.
  assert (columns X = numeric_cols ++ categorical_cols) as Hcols.
  { unfold X. rewrite columns_inference_frame. by apply first_occurrences_NoDup. }
  split_and!.
  - done.
  - rewrite Hcols. unfold X. rewrite data_inference_frame.
    by rewrite first_occurrences_NoDup.
  - intros col Hcol Hnone. unfold inference_row.
    rewrite dict_get_comprehension, decide_True by (by rewrite <- Hcols).
    unfold get. by rewrite Hnone.
  - intros k v Hk. apply inference_frame_ext. intros col Hcol.
    rewrite dict_get_set, decide_False; [done|].
    intros ->. apply Hk. by rewrite Hcols.
  - rewrite (predict_names fs features model meta (numeric_cols ++ categorical_cols));
      [|done|by apply lists_expected_cols].
    by destruct (model_predict model _).
Qed.

(** C3. [predict] answers 500 with the cause when the artifacts do not
    load, 400 with the cause after the prefix when the model's predict
    call fails, and the price when it succeeds. The two kinds of failure
    it signals are told apart by the status, and each [HTTPException] and
    each price has the cause the claim gives it. *)
Theorem predict_failure_kinds (fs : gmap string file) (features : dict) :
  (∀ e, load_artifacts fs = Raise e → predict fs features = Some (HTTPException 500 (str e)))
  ∧ (∀ model meta numeric_cols categorical_cols e,
       load_artifacts fs = Return (model, meta) →
       lists meta numeric_cols categorical_cols →
       model_predict model (inference_frame (numeric_cols ++ categorical_cols) features)
         = Raise e →
       predict fs features = Some (HTTPException 400 ("Prediction failed: " +:+ str e)))
  ∧ (∀ model meta numeric_cols categorical_cols price,
       load_artifacts fs = Return (model, meta) →
       lists meta numeric_cols categorical_cols →
       model_predict model (inference_frame (numeric_cols ++ categorical_cols) features)
         = Return price →
       predict fs features = Some (Ok200 [("price", PFloat price)]))
  ∧ (∀ status_code detail,
       predict fs features = Some (HTTPException status_code detail) →
       (status_code = 500%Z ∧ ∃ e, load_artifacts fs = Raise e ∧ detail = str e)
       ∨ (status_code = 400%Z
          ∧ ∃ model meta X e,
              load_artifacts fs = Return (model, meta)
              ∧ model_predict model X = Raise e
              ∧ detail = "Prediction failed: " +:+ str e))
  ∧ (∀ body,
       predict fs features = Some (Ok200 body) →
       ∃ model meta X price,
         load_artifacts fs = Return (model, meta)
         ∧ model_predict model X = Return price
         ∧ body = [("price", PFloat price)]).
Proof.
  split_and!.
  - intros e Hload. unfold predict. by rewrite Hload.
  - intros model meta numeric_cols categorical_cols e Hload Hcols%lists_expected_cols Hraise.
    by rewrite (predict_names fs features model meta (numeric_cols ++ categorical_cols)),
         Hraise.
  - intros model meta numeric_cols categorical_cols price Hload Hcols%lists_expected_cols
           Hprice.
    by rewrite (predict_names fs features model meta (numeric_cols ++ categorical_cols)),
         Hprice.
  - intros status_code detail. unfold predict.
    destruct (load_artifacts fs) as [[model meta]|e] eqn:Hload.
    + destruct (expected_cols meta) as [cols|e]; [|done].
      change (Return cols ≫= ?k) with (k cols).
      destruct (row_keys cols) as [[expected_names|]|e]; [|done..].
      destruct (model_predict model (inference_frame expected_names features))
        as [price|e] eqn:Hpredict; [done|].
      intros [= <- <-]. right. split; [done|]. eauto 10.
    + intros [= <- <-]. left. eauto.
  - intros body. unfold predict.
    destruct (load_artifacts fs) as [[model meta]|e] eqn:Hload; [|done].
    destruct (expected_cols meta) as [cols|e]; [|done].
    change (Return cols ≫= ?k) with (k cols).
    destruct (row_keys cols) as [[expected_names|]|e]; [|done..].
    destruct (model_predict model (inference_frame expected_names features))
      as [price|e] eqn:Hpredict; [|done].
    intros [= <-]. eauto 10.
Qed.

(** C4, amended. The health check says "ok" exactly when both files are
    there, both load, and the metadata is a dictionary whose two feature
    entries, an empty list for a missing one, add up; then it reports that
    sum as the features, for two lists of names the one followed by the
    other. Otherwise it says "error" with the cause: the exception of
    [load_artifacts], that the metadata has no [get], or that the two
    entries do not add. It always answers with a dictionary. *)
Theorem health_ok_iff_artifacts_load (fs : gmap string file) :
  (dict_get (health fs) "status" = Some (PStr "ok") ↔
     ∃ model_file meta_file model kvs features,
       fs !! MODEL_PATH = Some model_file ∧ fs !! META_PATH = Some meta_file ∧
       joblib_load model_file = Return model ∧ json_load meta_file = Return (PDict kvs) ∧
       add_values (get kvs "numeric_features" (PList []))
                  (get kvs "categorical_features" (PList [])) = Return features)
  ∧ (∀ model kvs features,
       load_artifacts fs = Return (model, PDict kvs) →
       add_values (get kvs "numeric_features" (PList []))
                  (get kvs "categorical_features" (PList [])) = Return features →
       health fs = [("status", PStr "ok"); ("model", PStr "rf"); ("features", features)])
  ∧ (∀ model meta numeric_cols categorical_cols,
       load_artifacts fs = Return (model, meta) → lists meta numeric_cols categorical_cols →
       health fs = [("status", PStr "ok"); ("model", PStr "rf");
                    ("features", PList (PStr <$> (numeric_cols ++ categorical_cols)))])
  ∧ (∀ e, load_artifacts fs = Raise e →
       health fs = [("status", PStr "error"); ("detail", PStr (str e))])
  ∧ (∀ model meta,
       load_artifacts fs = Return (model, meta) → (∀ kvs, meta ≠ PDict kvs) →
       health fs = [("status", PStr "error");
                    ("detail", PStr ("'" +:+ type_name meta
                                     +:+ "' object has no attribute 'get'"))])
  ∧ (∀ model kvs e,
       load_artifacts fs = Return (model, PDict kvs) →
       add_values (get kvs "numeric_features" (PList []))
                  (get kvs "categorical_features" (PList [])) = Raise e →
       health fs = [("status", PStr "error"); ("detail", PStr (str e))])
  ∧ (dict_get (health fs) "status" = Some (PStr "ok")
     ∨ dict_get (health fs) "status" = Some (PStr "error")).
Proof.
  assert (∀ kvs, expected_cols (PDict kvs)
                 = add_values (get kvs "numeric_features" (PList []))
                              (get kvs "categorical_features" (PList []))) as Hdict by done.
  unfold health.
  destruct (load_artifacts fs) as [[model meta]|e] eqn:Hload.
  2: { split_and!; [|done|done|by intros ? [= <-]|done|done|by right].
       split; [done|].
       intros (mf & jf & model & kvs & features & Hm & Hj & Hlm & Hlj & _).
       assert (load_artifacts fs = Return (model, PDict kvs)) as Hok.
       { apply load_artifacts_Return. eauto 10. }
       congruence. }
  rewrite bind_Return. cbn beta iota.
  destruct (expected_cols meta) as [features|e] eqn:Hcols.
  - assert (∃ kvs, meta = PDict kvs) as [kvs ->] by (destruct meta; by eauto).
    rewrite Hdict in Hcols.
    split_and!; [| | |done| | |by left].
    + split; [intros _|done].
      apply load_artifacts_Return in Hload as (mf & jf & ?). naive_solver.
    + intros ? ? ? [= <- <-]. congruence.
    + intros ? ? ? ? [= <- <-] Hlists%lists_expected_cols.
      rewrite Hdict in Hlists. congruence.
    + intros ? ? [= <- <-] Hnot. by destruct (Hnot kvs).
    + intros ? ? ? [= <- <-]. congruence.
  - split_and!; [| | |done| | |by right].
    + split; [done|].
      intros (mf & jf & model' & kvs & features & Hm & Hj & Hlm & Hlj & Hadd).
      assert (load_artifacts fs = Return (model', PDict kvs)) as Hok.
      { apply load_artifacts_Return. eauto 10. }
      assert (meta = PDict kvs) as -> by congruence. rewrite Hdict in Hcols. congruence.
    + intros ? ? ? [= <- ->]. rewrite Hdict in Hcols. congruence.
    + intros ? ? ? ? [= <- <-] Hlists%lists_expected_cols. congruence.
    + intros ? ? [= <- <-] Hnot.
      destruct meta; try (by injection Hcols as <-). by destruct (Hnot kvs).
    + intros ? ? ? [= <- ->]. rewrite Hdict in Hcols. congruence.
Qed.

(** C8. The body of a health response is one of two, according to the
    artifacts: status "ok", model "rf" and the features when they load and
    the feature entries add up; status "error" and a detail otherwise.
    The error body has neither model nor features, which the claim, like
    the docstring of the handler, has in every response. *)
Theorem health_body_shape (fs : gmap string file) :
  (∀ model meta features,
     load_artifacts fs = Return (model, meta) → expected_cols meta = Return features →
     health fs = [("status", PStr "ok"); ("model", PStr "rf"); ("features", features)]
     ∧ dict_get (health fs) "detail" = None)
  ∧ (∀ e,
       load_artifacts fs = Raise e
       ∨ (∃ model meta, load_artifacts fs = Return (model, meta)
                        ∧ expected_cols meta = Raise e) →
       health fs = [("status", PStr "error"); ("detail", PStr (str e))]
       ∧ dict_get (health fs) "model" = None
       ∧ dict_get (health fs) "features" = None).
Proof.
  unfold health. split.
  - intros model meta features -> Hcols.
    change (Return (model, meta) ≫= ?k) with (k (model, meta)). cbn beta iota.
    by rewrite Hcols.
  - intros e [-> | (model & meta & -> & Hcols)]; [done|].
    change (Return (model, meta) ≫= ?k) with (k (model, meta)). cbn beta iota.
    by rewrite Hcols.
Qed.

(** C10, amended. What the health check reports as features is the
    metadata's numeric features followed by its categorical features.
    [predict] aligns each request to that list with every name at its
    first place only: the columns of the frame it hands to the model are
    the reported list exactly when the list repeats no name. *)
Theorem health_features_are_expected_cols (fs : gmap string file) model meta
  (numeric_cols categorical_cols : list string) :
  load_artifacts fs = Return (model, meta) →
  lists meta numeric_cols categorical_cols →
  dict_get (health fs) "features"
    = Some (PList (PStr <$> (numeric_cols ++ categorical_cols)))
  ∧ ∀ features,
      let X := inference_frame (numeric_cols ++ categorical_cols) features in
      predict fs features
      = Some (match model_predict model X with
              | Return pred => Ok200 [("price", PFloat pred)]
              | Raise e => HTTPException 400 ("Prediction failed: " +:+ str e)
              end)
      ∧ columns X = first_occurrences (numeric_cols ++ categorical_cols)
      ∧ (columns X = numeric_cols ++ categorical_cols
         ↔ NoDup (numeric_cols ++ categorical_cols)).
Proof.
  intros Hload Hlists.
  pose proof (lists_expected_cols _ _ _ Hlists) as Hcols. split.
  - unfold health. rewrite Hload.
    change (Return (model, meta) ≫= ?k) with (k (model, meta)). cbn beta iota.
    by rewrite Hcols.
  - intros features X. split_and!.
    + rewrite (predict_names fs features model meta (numeric_cols ++ categorical_cols))
        by done.
      by destruct (model_predict model _).
    + apply columns_inference_frame.
    + unfold X. rewrite columns_inference_frame. split.
      * intros <-. apply first_occurrences_no_repeat.
      * apply first_occurrences_NoDup.
Qed.

(** C6. Two requests that map every feature name to the same value get
    the same answer from the same stored artifacts, whatever the order of
    their keys. *)
Theorem predict_key_order_invariant (fs : gmap string file) (features features' : dict) :
  (∀ k, dict_get features k = dict_get features' k) →
  predict fs features = predict fs features'.
Proof.
  intros Hsame. unfold predict.
  destruct (load_artifacts fs) as [[model meta]|e]; [|done].
  destruct (expected_cols meta) as [cols|e]; [|done].
  change (Return cols ≫= ?k) with (k cols).
  destruct (row_keys cols) as [[expected_names|]|e]; [|done..].
  assert (inference_frame expected_names features = inference_frame expected_names features')
    as ->; [|done].
  unfold inference_frame, inference_row.
  rewrite (dict_comprehension_ext _ (λ col, get features' col PNone)); [done|].
  intros col _. unfold get. by rewrite Hsame.
Qed.

(** In particular, for the same items supplied in another order. *)
Corollary predict_permuted (fs : gmap string file) (features features' : dict) :
  NoDup (keys features) → features ≡ₚ features' →
  predict fs features = predict fs features'.
Proof.
  intros Hnd Hperm. apply predict_ext.
  intros _ _ _ _ k _ _ _ _. by apply dict_get_Permutation.
Qed.

End Service.

Lemma trained_lists : lists Fixture.trained_meta ["year"; "km_driven"] ["fuel"].
Proof. eexists. split_and!; reflexivity. Qed.

(** C2 as stated fails on a metadata document that lists one name twice:
    the row is a dictionary, so the frame has the column once. *)
Lemma predict_columns_repeated_name :
  load_artifacts Fixture.overlapping = Return (450000%float, Fixture.overlapping_meta)
  ∧ lists Fixture.overlapping_meta ["year"] ["year"]
  ∧ predict Fixture.overlapping Fixture.request
    = Some (match model_predict 450000%float (inference_frame (["year"] ++ ["year"])
                                                Fixture.request) with
            | Return pred => Ok200 [("price", PFloat pred)]
            | Raise e => HTTPException 400 ("Prediction failed: " +:+ str e)
            end)
  ∧ columns (inference_frame (["year"] ++ ["year"]) Fixture.request) = ["year"]
  ∧ columns (inference_frame (["year"] ++ ["year"]) Fixture.request) ≠ ["year"] ++ ["year"].
Proof.
  split_and!; [reflexivity | eexists; split_and!; reflexivity | reflexivity | reflexivity
               | discriminate].
Qed.

(** C4 as stated fails on a metadata file that holds a JSON list: both
    files are there and both load, and the health check says "error". *)
Lemma health_error_though_artifacts_load :
  (∃ model_file meta_file model meta,
     Fixture.metadata_a_list !! MODEL_PATH = Some model_file
     ∧ Fixture.metadata_a_list !! META_PATH = Some meta_file
     ∧ joblib_load model_file = Return model ∧ json_load meta_file = Return meta)
  ∧ health Fixture.metadata_a_list
    = [("status", PStr "error"); ("detail", PStr "'list' object has no attribute 'get'")]
  ∧ dict_get (health Fixture.metadata_a_list) "status" ≠ Some (PStr "ok").
Proof.
  split_and!; [|reflexivity|discriminate].
  eexists _, _, _, _. split_and!; reflexivity.
Qed.

(** C10 as stated fails on a metadata document that lists one name
    twice: the health check reports the name twice, the frame [predict]
    hands to the model has the column once. *)
Lemma health_list_not_the_columns :
  load_artifacts Fixture.overlapping = Return (450000%float, Fixture.overlapping_meta)
  ∧ dict_get (health Fixture.overlapping) "features" = Some (PList [PStr "year"; PStr "year"])
  ∧ predict Fixture.overlapping Fixture.request
    = Some (match model_predict 450000%float
                    {| columns := ["year"]; data := [[PInt 2015]] |} with
            | Return pred => Ok200 [("price", PFloat pred)]
            | Raise e => HTTPException 400 ("Prediction failed: " +:+ str e)
            end)
  ∧ ["year"] ≠ ["year"; "year"].
Proof. split_and!; [reflexivity | reflexivity | reflexivity | discriminate]. Qed.

(** [predict_row_aligned] on a request that leaves one expected feature
    out and supplies a key nobody expects. *)
Lemma predict_row_aligned_witness :
  load_artifacts Fixture.trained = Return (450000%float, Fixture.trained_meta)
  ∧ lists Fixture.trained_meta ["year"; "km_driven"] ["fuel"]
  ∧ NoDup (["year"; "km_driven"] ++ ["fuel"])
  ∧ columns (inference_frame (["year"; "km_driven"] ++ ["fuel"]) Fixture.request_partial)
    = ["year"; "km_driven"; "fuel"]
  ∧ data (inference_frame (["year"; "km_driven"] ++ ["fuel"]) Fixture.request_partial)
    = [[PInt 2012; PNone; PStr "Diesel"]]
  ∧ predict Fixture.trained Fixture.request_partial
    = Some (Ok200 [("price", PFloat 450000)]).
Proof.
  assert (load_artifacts Fixture.trained = Return (450000%float, Fixture.trained_meta))
    as Hload by reflexivity.
  assert (NoDup (["year"; "km_driven"] ++ ["fuel"])) as Hnd
    by (apply (bool_decide_unpack _); vm_compute; exact I).
  destruct (predict_row_aligned Fixture.trained Fixture.request_partial _ _ _ _
              Hload trained_lists Hnd) as (Hcols & Hdata & _ & _ & Hpredict).
  split_and!; [exact Hload | exact trained_lists | exact Hnd | exact Hcols | exact Hdata
               | exact Hpredict].
Defined.

(** [predict_failure_kinds]: before training, on a request the model
    rejects, and on one it prices. *)
Lemma predict_failure_kinds_witness :
  predict Fixture.untrained Fixture.request
    = Some (HTTPException 500 "Model or metadata not found. Please train the model first.")
  ∧ predict Fixture.trained Fixture.request_nested
    = Some (HTTPException 400 "Prediction failed: setting an array element with a sequence.")
  ∧ predict Fixture.trained Fixture.request = Some (Ok200 [("price", PFloat 450000)]).
Proof.
  split_and!.
  - apply (proj1 (predict_failure_kinds Fixture.untrained Fixture.request)
             (FileNotFoundError "Model or metadata not found. Please train the model first.")).
    reflexivity.
  - apply (proj1 (proj2 (predict_failure_kinds Fixture.trained Fixture.request_nested))
             450000%float Fixture.trained_meta ["year"; "km_driven"] ["fuel"]
             (ValueError "setting an array element with a sequence."));
      [reflexivity | exact trained_lists | reflexivity].
  - apply (proj1 (proj2 (proj2 (predict_failure_kinds Fixture.trained Fixture.request)))
             450000%float Fixture.trained_meta ["year"; "km_driven"] ["fuel"] 450000%float);
      [reflexivity | exact trained_lists | reflexivity].
Defined.

(** [health_ok_iff_artifacts_load]: after training, before, on metadata
    with null for a list, and on metadata that is a list. *)
Lemma health_ok_iff_artifacts_load_witness :
  dict_get (health Fixture.trained) "status" = Some (PStr "ok")
  ∧ health Fixture.trained
    = [("status", PStr "ok"); ("model", PStr "rf");
       ("features", PList [PStr "year"; PStr "km_driven"; PStr "fuel"])]
  ∧ dict_get (health Fixture.untrained) "status" ≠ Some (PStr "ok")
  ∧ health Fixture.null_features
    = [("status", PStr "error");
       ("detail", PStr "unsupported operand type(s) for +: 'NoneType' and 'list'")]
  ∧ health Fixture.metadata_a_list
    = [("status", PStr "error"); ("detail", PStr "'list' object has no attribute 'get'")].
Proof.
  pose proof (health_ok_iff_artifacts_load Fixture.trained) as (Hok & _ & Hnames & _).
  pose proof (health_ok_iff_artifacts_load Fixture.untrained) as (Hnot & _).
  pose proof (health_ok_iff_artifacts_load Fixture.null_features)
    as (_ & _ & _ & _ & _ & Hnull & _).
  pose proof (health_ok_iff_artifacts_load Fixture.metadata_a_list)
    as (_ & _ & _ & _ & Hlist & _).
  split_and!.
  - apply Hok. eexists _, _, _, _, _. split_and!; reflexivity.
  - apply (Hnames 450000%float Fixture.trained_meta ["year"; "km_driven"] ["fuel"]);
      [reflexivity | exact trained_lists].
  - intros (model_file & _ & _ & _ & _ & Hfile & _)%Hnot. discriminate Hfile.
  - apply (Hnull 450000%float
             [("numeric_features", PNone); ("categorical_features", PList [PStr "fuel"])]
             (TypeError "unsupported operand type(s) for +: 'NoneType' and 'list'"));
      reflexivity.
  - apply (Hlist 450000%float (PList [])); [reflexivity | discriminate].
Defined.

(** [health_body_shape]: after training, before, and on metadata that
    is no dictionary. *)
Lemma health_body_shape_witness :
  health Fixture.trained
    = [("status", PStr "ok"); ("model", PStr "rf");
       ("features", PList [PStr "year"; PStr "km_driven"; PStr "fuel"])]
  ∧ health Fixture.untrained
    = [("status", PStr "error");
       ("detail", PStr "Model or metadata not found. Please train the model first.")]
  ∧ dict_get (health Fixture.untrained) "model" = None
  ∧ dict_get (health Fixture.untrained) "features" = None
  ∧ dict_get (health Fixture.metadata_a_list) "features" = None.
Proof.
  destruct (proj1 (health_body_shape Fixture.trained) 450000%float Fixture.trained_meta
              (PList [PStr "year"; PStr "km_driven"; PStr "fuel"]) eq_refl eq_refl)
    as [Hok _].
  destruct (proj2 (health_body_shape Fixture.untrained)
              (FileNotFoundError "Model or metadata not found. Please train the model first.")
              (or_introl eq_refl)) as (Herror & Hmodel & Hfeatures).
  destruct (proj2 (health_body_shape Fixture.metadata_a_list)
              (AttributeError "'list' object has no attribute 'get'")
              (or_intror (ex_intro _ 450000%float (ex_intro _ (PList []) (conj eq_refl eq_refl)))))
    as (_ & _ & Hfeatures').
  split_and!; [exact Hok | exact Herror | exact Hmodel | exact Hfeatures | exact Hfeatures'].
Defined.

(** [health_features_are_expected_cols] on the trained store. *)
Lemma health_features_are_expected_cols_witness :
  load_artifacts Fixture.trained = Return (450000%float, Fixture.trained_meta)
  ∧ lists Fixture.trained_meta ["year"; "km_driven"] ["fuel"]
  ∧ dict_get (health Fixture.trained) "features"
    = Some (PList [PStr "year"; PStr "km_driven"; PStr "fuel"])
  ∧ columns (inference_frame (["year"; "km_driven"] ++ ["fuel"]) Fixture.request_reordered)
    = ["year"; "km_driven"; "fuel"].
Proof.
  assert (load_artifacts Fixture.trained = Return (450000%float, Fixture.trained_meta))
    as Hload by reflexivity.
  destruct (health_features_are_expected_cols Fixture.trained _ _ _ _ Hload trained_lists)
    as [Hfeatures Hrow].
  destruct (Hrow Fixture.request_reordered) as (_ & Hcols & _).
  split_and!; [exact Hload | exact trained_lists | exact Hfeatures | exact Hcols].
Defined.

(** [predict_key_order_invariant] on one request in two key orders. *)
Lemma predict_key_order_invariant_witness :
  (∀ k, dict_get Fixture.request k = dict_get Fixture.request_reordered k)
  ∧ predict Fixture.trained Fixture.request = predict Fixture.trained Fixture.request_reordered.
Proof.
  assert (∀ k, dict_get Fixture.request k = dict_get Fixture.request_reordered k) as Hsame.
  { intros k. cbn. repeat case_decide; congruence. }
  split; [exact Hsame|].
  exact (predict_key_order_invariant Fixture.trained _ _ Hsame).
Defined.

End ApiFacts.

(** ** The training job *)

Module TrainFacts.
Import Train PyFacts.

Section Frames.
Context `{Pandas}.

Lemma fst_filter_ne {A} (label : string) (l : list (string * A)) :
  (filter (λ p, p.1 ≠ label) l).*1 = filter (λ c, c ≠ label) l.*1.
Proof.
  induction l as [|[c x] l IH]; [done|]. csimpl.
  rewrite !filter_cons. cbn [fst]. case_decide; csimpl; by rewrite IH.
Qed.

Lemma find_filter_ne {A} (label c : string) (l : list (string * A)) :
  c ≠ label →
  snd <$> list_find (λ p, p.1 = c) (filter (λ p, p.1 ≠ label) l)
  = snd <$> list_find (λ p, p.1 = c) l.
Proof.
  intros Hne. induction l as [|[c' x] l IH]; [done|].
  rewrite filter_cons. cbn [fst]. destruct (decide (c' ≠ label)) as [Hc'|Hc'].
  - cbn. case_decide; [done|].
    rewrite <- !option_fmap_compose. cbn in IH |- *.
    destruct (list_find _ (filter _ l)) as [[? ?]|], (list_find _ l) as [[? ?]|];
      cbn in *; congruence.
  - cbn. rewrite decide_False.
    + rewrite IH. by destruct (list_find _ l) as [[? ?]|].
    + cbn. apply dec_stable in Hc'. congruence.
Qed.

Lemma dtype_of_schema (df df' : DataFrame) (c : string) :
  snd <$> list_find (λ p, p.1 = c) (schema df) = snd <$> list_find (λ p, p.1 = c) (schema df') →
  dtype_of df c = dtype_of df' c.
Proof.
  unfold dtype_of. intros Hfind.
  destruct (list_find _ (schema df)) as [[? [? ?]]|],
           (list_find _ (schema df')) as [[? [? ?]]|]; cbn in *; congruence.
Qed.

Lemma drop_column_Return (df X : DataFrame) (label : string) :
  drop_column df label = Return X →
  label ∈ columns df
  ∧ columns X = filter (λ c, c ≠ label) (columns df)
  ∧ length (rows X) = length (rows df)
  ∧ ∀ c, c ≠ label → dtype_of X c = dtype_of df c.
Proof.
  unfold drop_column. case_decide as Hin; [|done]. intros [= <-].
  split_and!; [done | apply fst_filter_ne | apply length_fmap |].
  intros c Hc. apply dtype_of_schema. cbn. by apply find_filter_ne.
Qed.

Lemma convert_row_length label rate names (r r' : row) :
  convert_row label rate names r = Return r' → length r' = length r.
Proof.
  revert r r'. induction names as [|name names IH]; intros [|c r] r'; cbn;
    try (by intros [= <-]).
  destruct (if decide (name = label) then convert_cell rate c else Return c) as [c'|]; [|done].
  cbn. destruct (convert_row label rate names r) as [r''|] eqn:Hr; [|done].
  cbn. intros [= <-]. cbn. f_equal. by apply IH.
Qed.

Lemma convert_rows_length label rate names (rs rs' : list row) :
  convert_rows label rate names rs = Return rs' → length rs' = length rs.
Proof.
  revert rs'. induction rs as [|r rs IH]; intros rs'; cbn; [by intros [= <-]|].
  destruct (convert_row label rate names r) as [r'|]; [|done]. cbn.
  destruct (convert_rows label rate names rs) as [rs''|]; [|done]. cbn.
  intros [= <-]. cbn. f_equal. by apply IH.
Qed.

Lemma find_retype (label c : string) (l : list (string * dtype)) :
  c ≠ label →
  snd <$> list_find (λ p, p.1 = c)
            ((λ p, if decide (p.1 = label) then (p.1, float64) else p) <$> l)
  = snd <$> list_find (λ p, p.1 = c) l.
Proof.
  intros Hne. induction l as [|[c' d] l IH]; [done|].
  cbn. destruct (decide (c' = label)) as [->|Hc']; cbn.
  - rewrite !decide_False by done.
    rewrite <- !option_fmap_compose. cbn in IH |- *.
    destruct (list_find _ (_ <$> l)) as [[? ?]|], (list_find _ l) as [[? ?]|];
      cbn in *; congruence.
  - case_decide; [done|].
    rewrite <- !option_fmap_compose. cbn in IH |- *.
    destruct (list_find _ (_ <$> l)) as [[? ?]|], (list_find _ l) as [[? ?]|];
      cbn in *; congruence.
Qed.

Lemma convert_target_Return (df df' : DataFrame) (label : string) (rate : float) :
  convert_target df label rate = Return df' →
  columns df' = columns df
  ∧ length (rows df') = length (rows df)
  ∧ ∀ c, c ≠ label → dtype_of df' c = dtype_of df c.
Proof.
  unfold convert_target.
  destruct (convert_rows label rate (columns df) (rows df)) as [rs|] eqn:Hrs; [|done].
  cbn. intros [= <-]. split_and!.
  - unfold columns. cbn. rewrite <- list_fmap_compose. apply list_fmap_ext.
    intros i [c d] _. cbn. by case_decide.
  - cbn. by eapply convert_rows_length.
  - intros c Hc. apply dtype_of_schema. cbn. by apply find_retype.
Qed.

Lemma filter_ext_in {A} (P Q : A → Prop) `{!∀ x, Decision (P x), !∀ x, Decision (Q x)}
  (l : list A) :
  (∀ x, x ∈ l → P x ↔ Q x) → filter P l = filter Q l.
Proof.
  induction l as [|x l IH]; intros HPQ; [done|].
  rewrite !filter_cons.
  rewrite IH by (intros y Hy; apply HPQ; by right).
  apply decide_ext, HPQ. left.
Qed.

Lemma detect_feature_types_Return (df : DataFrame) (target : string) numeric_cols categorical_cols :
  detect_feature_types df target = Return (numeric_cols, categorical_cols) →
  target ∈ columns df
  ∧ numeric_cols = filter (λ c, is_number <$> dtype_of df c = Some true)
                     (filter (λ c, c ≠ target) (columns df))
  ∧ categorical_cols = filter (λ c, dtype_of df c = Some object_)
                         (filter (λ c, c ≠ target) (columns df)).
Proof.
  unfold detect_feature_types.
  destruct (drop_column df target) as [X|] eqn:HX; [|done].
  apply drop_column_Return in HX as (Hin & Hcols & _ & Hdtype).
  cbn. intros [= <- <-]. rewrite Hcols. split_and!; [done| |].
  - apply filter_ext_in. intros c [Hc _]%list_elem_of_filter. by rewrite Hdtype.
  - apply filter_ext_in. intros c [Hc _]%list_elem_of_filter. by rewrite Hdtype.
Qed.

(** The two lists [detect_feature_types] returns: each feature column of a
    numeric dtype is in the first, each of dtype object in the second, in
    column order, and no other. *)
Lemma detect_feature_types_spec (df : DataFrame) (target : string) numeric_cols categorical_cols :
  detect_feature_types df target = Return (numeric_cols, categorical_cols) →
  (∀ c, c ∈ numeric_cols ↔
        c ∈ columns df ∧ c ≠ target ∧ ∃ d, dtype_of df c = Some d ∧ is_number d = true)
  ∧ (∀ c, c ∈ categorical_cols ↔
          c ∈ columns df ∧ c ≠ target ∧ dtype_of df c = Some object_)
  ∧ (∀ c, c ∈ numeric_cols → c ∉ categorical_cols).
Proof.
  intros (_ & -> & ->)%detect_feature_types_Return.
  assert (∀ c, c ∈ filter (λ c, is_number <$> dtype_of df c = Some true)
                     (filter (λ c, c ≠ target) (columns df)) ↔
               c ∈ columns df ∧ c ≠ target ∧ ∃ d, dtype_of df c = Some d ∧ is_number d = true)
    as Hnum.
  { intros c. rewrite !list_elem_of_filter. split.
    - intros (Hd & ? & ?). destruct (dtype_of df c) as [d|]; [|done].
      split_and!; [done..|]. exists d. split; [done|]. by injection Hd.
    - intros (? & ? & d & -> & Hd). cbn. by rewrite Hd. }
  split_and!; [done| |].
  - intros c. rewrite !list_elem_of_filter. naive_solver.
  - intros c (_ & _ & d & Hd & Hnumber)%Hnum (Hobj & _)%list_elem_of_filter.
    rewrite Hd in Hobj. injection Hobj as ->. done.
Qed.

Lemma drop_duplicates_rows_subseteq (rs : list row) r :
  r ∈ drop_duplicates_rows rs ↔ r ∈ rs.
Proof.
  induction rs as [|r0 rs IH]; cbn; [done|].
  rewrite !elem_of_cons, list_elem_of_filter, IH.
  destruct (decide (r = r0)); naive_solver.
Qed.

Lemma drop_duplicates_rows_length (rs : list row) :
  (length (drop_duplicates_rows rs) ≤ length rs)%nat.
Proof.
  induction rs as [|r rs IH]; cbn; [done|].
  pose proof (length_filter (λ r', r' ≠ r) (drop_duplicates_rows rs)). lia.
Qed.


Lemma filter_all {A} (P : A → Prop) `{!∀ x, Decision (P x)} (l : list A) :
  Forall P l → filter P l = l.
Proof.
  induction 1 as [|x l Hx _ IH]; [done|]. rewrite filter_cons_True by done. by rewrite IH.
Qed.

Lemma drop_duplicates_rows_id (rs : list row) :
  NoDup rs → drop_duplicates_rows rs = rs.
Proof.
  induction 1 as [|r rs Hr _ IH]; cbn; [done|]. rewrite IH. f_equal.
  apply filter_all, Forall_forall. intros r' Hr' ->. done.
Qed.




Lemma length_omap_lookup {A} (l : list A) (indices : list nat) :
  Forall (λ i, i < length l) indices →
  length (omap (λ i, l !! i) indices) = length indices.
Proof.
  induction 1 as [|i indices Hi _ IH]; [done|]. cbn.
  destruct (lookup_lt_is_Some_2 l i Hi) as [x ->]. cbn. by rewrite IH.
Qed.

End Frames.

Section Run.
Context `{Sklearn}.

Lemma train_test_split_Return (X : DataFrame) y (test_size : float) (seed : Z)
  X_train X_test y_train y_test :
  train_test_split X y test_size seed = Return (X_train, X_test, y_train, y_test) →
  ∃ n_train n_test : Z,
    validate_shuffle_split (length (rows X)) test_size = Return (n_train, n_test)
    ∧ (0 < n_train)%Z ∧ (0 < n_test)%Z
    ∧ (n_train + n_test = Z.of_nat (length (rows X)))%Z
    ∧ Z.of_nat (length (rows X_train)) = n_train
    ∧ Z.of_nat (length (rows X_test)) = n_test.
Proof.
  unfold train_test_split.
  destruct (validate_shuffle_split _ _) as [[n_train n_test]|] eqn:Hsizes; [|done].
  cbn. unfold validate_shuffle_split_int.
  repeat case_decide; try done. cbn. intros [= <- <- _ _].
  exists n_train, n_test.
  assert (n_train + n_test = Z.of_nat (length (rows X)))%Z as Hsum.
  { unfold validate_shuffle_split in Hsizes.
    destruct (_ || _); [done|].
    destruct (ceil _) as [n|]; [|done]. cbn in Hsizes.
    repeat case_decide; try done. injection Hsizes as <- <-. lia. }
  pose proof (permutation_spec seed (length (rows X))) as Hperm.
  assert (length (permutation seed (length (rows X))) = length (rows X)) as Hlen.
  { rewrite Hperm. apply length_seq. }
  assert (Forall (λ i, i < length (rows X)) (permutation seed (length (rows X)))) as Hrange.
  { rewrite Hperm. apply Forall_seq. lia. }
  split_and!; try done; try lia.
  - cbn. rewrite length_omap_lookup by (by apply Forall_take, Forall_drop).
    rewrite length_take, length_drop. lia.
  - cbn. rewrite length_omap_lookup by (by apply Forall_take).
    rewrite length_take. lia.
Qed.

Lemma bind_lift {A B} (r : result A) (k : A → script B) (fs : gmap string file) :
  (lift r ≫= k) fs = match r with Return x => k x fs | Raise e => (Raise e, fs) end.
Proof. by destruct r. Qed.

Lemma bind_path_exists {B} (path : string) (k : bool → script B) (fs : gmap string file) :
  (path_exists path ≫= k) fs = k (bool_decide (is_Some (fs !! path))) fs.
Proof. done. Qed.

Lemma bind_raise {A B} (e : pyexn) (k : A → script B) (fs : gmap string file) :
  (raise e ≫= k) fs = (Raise e, fs).
Proof. done. Qed.

Lemma bind_mret {A B} (x : A) (k : A → script B) (fs : gmap string file) :
  (mret x ≫= k) fs = k x fs.
Proof. done. Qed.

Lemma bind_read_csv {B} (path : string) (k : DataFrame → script B) (fs : gmap string file) :
  (read_csv path ≫= k) fs =
  match fs !! path with
  | Some (CsvFile df) => k df fs
  | Some (OtherFile e) => (Raise e, fs)
  | Some _ => (Raise (Exn "ParserError" "Error tokenizing data"), fs)
  | None => (Raise (FileNotFoundError ("No such file or directory: '" +:+ path +:+ "'")), fs)
  end.
Proof. unfold mbind, script_bind, read_csv. by destruct (fs !! path) as [[]|]. Qed.

Lemma bind_joblib_dump {B} obj path (k : () → script B) (fs : gmap string file) :
  (joblib_dump obj path ≫= k) fs = k () (<[path := JoblibFile obj]> fs).
Proof. done. Qed.

Lemma main_Raise_unchanged (a : args) (fs fs' : gmap string file) e :
  main a fs = (Raise e, fs') → fs' = fs.
Proof.
  unfold main. rewrite bind_path_exists.
  destruct (fs !! csv a) as [f|] eqn:Hcsv.
  2: { rewrite bool_decide_false by (by intros [? ?]). cbn [negb]. rewrite bind_raise. by intros [= _ <-]. }
  rewrite bool_decide_true by done. cbn [negb]. rewrite bind_mret, bind_read_csv, Hcsv.
  destruct f as [df| | |]; try by intros [= _ <-].
  case_decide as Htarget; [rewrite bind_raise; by intros [= _ <-]|].
  rewrite bind_mret.
  repeat (rewrite bind_lift;
          match goal with
          | |- context [match ?r with Return _ => _ | Raise _ => _ end] =>
              destruct r as [?|?] eqn:?; [|by intros [= _ <-]]
          end;
          repeat match goal with
          | x : (_ * _)%type |- _ => destruct x
          end).
  rewrite bind_joblib_dump. unfold json_dump. intros [=].
Qed.

Lemma main_Return_inv (a : args) (fs fs' : gmap string file) :
  main a fs = (Return (), fs') →
  ∃ df df' numeric_cols categorical_cols X X_train X_test y_train y_test
    pipeline y_pred rmse mae r2,
    fs !! csv a = Some (CsvFile df)
    ∧ target a ∈ columns df
    ∧ convert_target (dropna (drop_duplicates df) (target a)) (target a) (currency_rate a)
      = Return df'
    ∧ detect_feature_types df' (target a) = Return (numeric_cols, categorical_cols)
    ∧ drop_column df' (target a) = Return X
    ∧ train_test_split X (series df' (target a)) (test_size a) 42
      = Return (X_train, X_test, y_train, y_test)
    ∧ fit (build_pipeline numeric_cols categorical_cols) X_train y_train = Return pipeline
    ∧ pipeline_predict pipeline X_test = Return y_pred
    ∧ mean_squared_error y_test y_pred false = Return rmse
    ∧ mean_absolute_error y_test y_pred = Return mae
    ∧ r2_score y_test y_pred = Return r2
    ∧ fs' = <[out_meta a := JsonFile (PDict [
        ("target", PStr (target a));
        ("numeric_features", PList (PStr <$> numeric_cols));
        ("categorical_features", PList (PStr <$> categorical_cols));
        ("training_rows", PInt (Z.of_nat (length (rows X_train))));
        ("test_rows", PInt (Z.of_nat (length (rows X_test))));
        ("metrics", PDict [("rmse", PFloat rmse); ("mae", PFloat mae); ("r2", PFloat r2)]);
        ("currency_rate", PFloat (currency_rate a))])]>
      (<[out_model a := JoblibFile pipeline]> fs).
Proof.
  unfold main. rewrite bind_path_exists.
  destruct (fs !! csv a) as [f|] eqn:Hcsv.
  2: { rewrite bool_decide_false by (by intros [? ?]). cbn [negb]. by rewrite bind_raise. }
  rewrite bool_decide_true by done. cbn [negb]. rewrite bind_mret, bind_read_csv, Hcsv.
  destruct f as [df| | |]; try done.
  case_decide as Htarget; [by rewrite bind_raise|].
  rewrite bind_mret.
  repeat (rewrite bind_lift;
          match goal with
          | |- context [match ?r with Return _ => _ | Raise _ => _ end] =>
              destruct r as [?|?] eqn:?; [|done]
          end;
          repeat match goal with
          | x : (_ * _)%type |- _ => destruct x
          end).
  rewrite bind_joblib_dump. unfold json_dump. intros [= <-].
  eexists _, _, _, _, _, _, _, _, _, _, _, _, _, _. split_and!; try eassumption; done.
Qed.


Lemma main_completes (a : args) (fs : gmap string file) :
  (main a fs).1 = Return () → main a fs = (Return (), (main a fs).2).
Proof. destruct (main a fs) as [r fs']. cbn. by intros ->. Qed.

(** A run that fails leaves every file as it was. *)
Lemma main_exit_status (a : args) (fs : gmap string file) :
  exit_status (main a fs).1 ≠ 0%Z → (main a fs).2 = fs.
Proof.
  destruct (main a fs) as [[[]|e] fs'] eqn:Hmain; cbn; [done|].
  intros _. by eapply main_Raise_unchanged.
Qed.

(** C5. When the CSV path does not exist, or the CSV has no column named
    as the target, the run ends with an exception that says so, hence with
    a non-zero exit status, and the file system, the two output paths
    included, is as before. *)
Theorem main_fails_before_writing (a : args) (fs : gmap string file) :
  fs !! csv a = None ∨ (∃ df, fs !! csv a = Some (CsvFile df) ∧ target a ∉ columns df) →
  ∃ e,
    main a fs = (Raise e, fs)
    ∧ exit_status (main a fs).1 = 1%Z
    ∧ (main a fs).2 !! out_model a = fs !! out_model a
    ∧ (main a fs).2 !! out_meta a = fs !! out_meta a
    ∧ (fs !! csv a = None → e = FileNotFoundError ("CSV not found: " +:+ csv a))
    ∧ (∀ df, fs !! csv a = Some (CsvFile df) →
         e = ValueError ("Target column " +:+ dquote +:+ target a +:+ dquote
                         +:+ " not in CSV columns: " +:+ repr_list (columns df))).
Proof.
  intros [Hnone | (df & Hdf & Htarget)].
  - exists (FileNotFoundError ("CSV not found: " +:+ csv a)).
    assert (main a fs = (Raise (FileNotFoundError ("CSV not found: " +:+ csv a)), fs)) as ->.
    { unfold main. rewrite bind_path_exists, Hnone.
      rewrite bool_decide_false by (by intros [? ?]). done. }
    split_and!; try done. intros df Hdf. congruence.
  - eexists.
    assert (main a fs = (Raise (ValueError ("Target column " +:+ dquote +:+ target a +:+ dquote
                         +:+ " not in CSV columns: " +:+ repr_list (columns df))), fs)) as ->.
    { unfold main. rewrite bind_path_exists, Hdf.
      rewrite bool_decide_true by done. cbn [negb].
      rewrite bind_mret, bind_read_csv, Hdf.
      rewrite decide_True by done. done. }
    split_and!; try done; [congruence|]. intros df' Hdf'. congruence.
Qed.



End Run.



(** [main_fails_before_writing]: no CSV at the path, and a CSV without
    the column asked for. *)
Lemma main_fails_before_writing_witness :
  ((∅ : gmap string file) !! csv Fixture.arguments = None
   ∨ ∃ df, (∅ : gmap string file) !! csv Fixture.arguments = Some (CsvFile df)
           ∧ target Fixture.arguments ∉ columns df)
  ∧ main Fixture.arguments ∅
    = (Raise (FileNotFoundError "CSV not found: data/cars.csv"), ∅)
  ∧ main Fixture.arguments_cost (Fixture.disk (Fixture.cars 3))
    = (Raise (ValueError ("Target column " +:+ dquote +:+ "cost" +:+ dquote +:+
                          " not in CSV columns: ['year', 'km_driven', 'fuel', 'price']")),
       Fixture.disk (Fixture.cars 3)).
Proof.
  assert ((∅ : gmap string file) !! csv Fixture.arguments = None
          ∨ ∃ df, (∅ : gmap string file) !! csv Fixture.arguments = Some (CsvFile df)
                  ∧ target Fixture.arguments ∉ columns df) as Hmissing
    by (left; reflexivity).
  assert (Fixture.disk (Fixture.cars 3) !! csv Fixture.arguments_cost
          = Some (CsvFile (Fixture.cars 3))) as Hcsv by reflexivity.
  assert (target Fixture.arguments_cost ∉ columns (Fixture.cars 3)) as Hcost
    by (apply (bool_decide_unpack _); vm_compute; exact I).
  split_and!.
  - exact Hmissing.
  - destruct (main_fails_before_writing Fixture.arguments ∅ Hmissing)
      as (e & Hmain & _ & _ & _ & He & _).
    rewrite (He eq_refl) in Hmain. exact Hmain.
  - destruct (main_fails_before_writing Fixture.arguments_cost (Fixture.disk (Fixture.cars 3))
                (or_intror (ex_intro _ _ (conj Hcsv Hcost))))
      as (e & Hmain & _ & _ & _ & _ & He).
    rewrite (He _ Hcsv) in Hmain. exact Hmain.
Defined.



End TrainFacts.

(** ** The form *)

Module FrontendFacts.
Import Frontend FormSpec PyFacts.

Lemma fold_payload (l acc : dict) :
  NoDup (keys acc ++ keys l) →
  fold_left (λ d kv, dict_set d kv.1 (normalize kv.2)) l acc
  = acc ++ ((λ kv, (kv.1, normalize kv.2)) <$> l).
Proof.
  revert acc. induction l as [|[k v] l IH]; intros acc Hnd; csimpl.
  - by rewrite app_nil_r.
  - assert (k ∉ keys acc) as Hk.
    { apply NoDup_app in Hnd as (_ & Hdisj & _). intros Hin. apply (Hdisj k Hin). left. }
    rewrite dict_set_fresh by done.
    rewrite IH.
    + by rewrite <- app_assoc.
    + unfold keys in *. rewrite fmap_app. csimpl. by rewrite <- app_assoc.
Qed.

(** The payload has the keys of [inputs], in their order, each with its
    value normalized. *)
Lemma payload_fmap (inputs : dict) :
  NoDup (keys inputs) → payload inputs = (λ kv, (kv.1, normalize kv.2)) <$> inputs.
Proof. intros Hnd. unfold payload. by rewrite fold_payload. Qed.

Lemma widget_in_fresh ds n c k : k ∉ ds.*1 → widget_in ds n c k = None.
Proof.
  induction ds as [|d ds IH]; csimpl; [done|].
  rewrite not_elem_of_cons. intros [Hne Hk]. rewrite decide_False by done. by apply IH.
Qed.

Lemma widget_in_elem_of ds n c k w :
  widget_in ds n c k = Some w → ∃ kd, (k, (kd, w)) ∈ ds.
Proof.
  induction ds as [|[k' [kd w']] ds IH]; cbn; [done|].
  destruct (decide (k' = k)) as [->|Hne].
  - case_decide; [|done]. intros [= ->]. exists kd. left.
  - intros [kd' Hin]%IH. exists kd'. by right.
Qed.

(** Running blocks that agree with a table posts what the table says. *)
Lemma run_blocks_agrees u n c bs ds inputs :
  Forall2 (agrees u n c) bs ds → NoDup ds.*1 → NoDup (keys inputs) →
  ∃ inputs', run_blocks bs inputs = Return inputs'
    ∧ NoDup (keys inputs')
    ∧ ∀ k, normalize <$> dict_get inputs' k =
           match widget_in ds n c k with
           | Some w => Some (posted_by u k w)
           | None => normalize <$> dict_get inputs k
           end.
Proof.
  intros Hagree. revert inputs.
  induction Hagree as [|b d bs ds (Hname & Hdecl & Hposts) _ IH]; intros inputs Hnd Hinputs.
  - exists inputs. done.
  - apply NoDup_cons in Hnd as [Hfresh Hnd]. cbn [run_blocks widget_in].
    rewrite Hname, Hdecl.
    destruct (decide (d.1 ∈ declares n c d.2.1)) as [Hin|Hnin].
    + unfold posts in Hposts. destruct (store b (returned b)) as [v|]; [|done].
      cbn in Hposts. injection Hposts as Hv. cbn.
      destruct (IH (dict_set inputs d.1 v) Hnd (NoDup_keys_dict_set _ _ _ Hinputs))
        as (inputs' & Hrun & Hkeys & Hget).
      exists inputs'. split_and!; [done..|].
      intros k. rewrite Hget. destruct (decide (d.1 = k)) as [<-|Hne].
      * rewrite widget_in_fresh by done. rewrite decide_True by done.
        rewrite dict_get_set, decide_True by done. cbn. by rewrite Hv.
      * rewrite dict_get_set, decide_False by done. done.
    + destruct (IH inputs Hnd Hinputs) as (inputs' & Hrun & Hkeys & Hget).
      exists inputs'. split_and!; [done..|].
      intros k. rewrite Hget. destruct (decide (d.1 = k)) as [<-|Hne]; [|done].
      rewrite widget_in_fresh by done. by rewrite decide_False.
Qed.

(** After the loop over the categorical features: what was there stays,
    and each categorical feature not there yet gets what its generic list
    stores. *)
Lemma remaining_spec u cols inputs :
  NoDup (keys inputs) →
  NoDup (keys (remaining u cols inputs))
  ∧ ∀ k, dict_get (remaining u cols inputs) k =
         match dict_get inputs k with
         | Some v => Some v
         | None => if decide (k ∈ cols) then Some (fallback_store (fallback_returned u k))
                   else None
         end.
Proof.
  revert inputs. induction cols as [|col cols IH]; intros inputs Hnd; cbn [remaining].
  - split; [done|]. intros k. rewrite decide_False by apply not_elem_of_nil.
    by destruct (dict_get inputs k).
  - destruct (decide (col ∉ keys inputs)) as [Hnew|Hold].
    + destruct (IH _ (NoDup_keys_dict_set inputs col
                        (fallback_store (fallback_returned u col)) Hnd)) as [Hkeys Hget].
      split; [done|]. intros k. rewrite Hget, dict_get_set.
      destruct (decide (col = k)) as [<-|Hne].
      * apply dict_get_None in Hnew. rewrite Hnew. rewrite decide_True by left. done.
      * destruct (dict_get inputs k); [done|].
        destruct (decide (k ∈ cols)) as [Hk|Hk].
        -- rewrite decide_True by (by right). done.
        -- rewrite decide_False; [done|]. rewrite not_elem_of_cons. split; [congruence | done].
    + destruct (IH _ Hnd) as [Hkeys Hget]. split; [done|]. intros k. rewrite Hget.
      destruct (dict_get inputs k) eqn:Hget_k; [done|].
      destruct (decide (col = k)) as [<-|Hne].
      * apply dict_get_None in Hget_k. apply dec_stable in Hold. done.
      * destruct (decide (k ∈ cols)) as [Hk|Hk].
        -- rewrite decide_True by (by right). done.
        -- rewrite decide_False; [done|]. rewrite not_elem_of_cons. split; [congruence | done].
Qed.

(** The generic list returns the placeholder or "Autre", and null is
    posted for either. *)
Lemma fallback_posts_none u col :
  normalize (fallback_store (fallback_returned u col)) = PNone
  ∧ (fallback_returned u col = PStr placeholder ∨ fallback_returned u col = PStr "Autre").
Proof.
  unfold fallback_returned, selectbox.
  destruct (pick u col) as [|[|i]]; cbn; split; auto.
Qed.

(** A selection list whose labels post the table's values posts the value
    at the position picked, and null on the placeholder. *)
Lemma selection_posts u key store labels values :
  posts store (PStr placeholder) = Return PNone →
  Forall2 (λ l v, posts store l = Return v) labels values →
  posts store (selectbox u key (PStr placeholder) labels)
  = Return (default PNone (selected u key values)).
Proof.
  intros Hplaceholder Hlists. unfold selectbox, selected.
  destruct (pick u key) as [|i]; [done|]. cbn.
  pose proof (proj1 (Forall2_lookup _ _ _) Hlists i) as Hi.
  destruct (labels !! i) as [l|], (values !! i) as [v|]; inversion Hi; done.
Qed.

Lemma options_post (A : Type) store (label value : A → pyval) (options : list A) :
  Forall (λ x, posts store (label x) = Return (value x)) options →
  Forall2 (λ l v, posts store l = Return v) (label <$> options) (value <$> options).
Proof. intros Hall. apply Forall2_fmap, Forall_Forall2_diag. done. Qed.

(** Each option of each list, one by one: the label shown is read back as
    the value it stands for. *)
Ltac each_option :=
  repeat first [apply Forall_nil_2 | apply Forall_cons_2; [vm_compute; reflexivity|]].

Ltac literal l := let l' := eval vm_compute in l in change l with l'.

Create HintDb options.

Lemma company_post :
  Forall (λ s, posts or_none (PStr s) = Return (PStr s)) (options_get "company").
Proof. literal (options_get "company"). each_option. Qed.
Lemma fuel_post :
  Forall (λ s, posts or_none (PStr s) = Return (PStr s)) (options_get "fuel").
Proof. literal (options_get "fuel"). each_option. Qed.
Lemma transmission_post :
  Forall (λ s, posts or_none (PStr s) = Return (PStr s)) (options_get "transmission").
Proof. literal (options_get "transmission"). each_option. Qed.
Lemma owner_post :
  Forall (λ s, posts or_none (PStr s) = Return (PStr s)) (options_get "owner").
Proof. literal (options_get "owner"). each_option. Qed.
Lemma seller_type_post :
  Forall (λ s, posts or_none (PStr s) = Return (PStr s)) (options_get "seller_type").
Proof. literal (options_get "seller_type"). each_option. Qed.
Lemma model_post :
  Forall (λ s, posts or_none (PStr s) = Return (PStr s)) COMMON_MODELS.
Proof. unfold COMMON_MODELS. each_option. Qed.
Lemma edition_post :
  Forall (λ s, posts or_none (PStr s) = Return (PStr s)) COMMON_EDITIONS.
Proof. unfold COMMON_EDITIONS. each_option. Qed.
Lemma year_post :
  Forall (λ x, posts or_none (PInt (Z.of_N x)) = Return (number x)) YEAR_OPTIONS.
Proof. literal YEAR_OPTIONS. each_option. Qed.
Lemma km_driven_post :
  Forall (λ x, posts (int_or_none " km") (PStr (format_thousands x +:+ " km"))
               = Return (number x)) KM_DRIVEN_OPTIONS.
Proof. unfold KM_DRIVEN_OPTIONS. each_option. Qed.
Lemma engine_cc_post :
  Forall (λ x, posts (float_or_none " cc") (PStr (format x +:+ " cc"))
               = Return (decimal x)) ENGINE_CC_OPTIONS.
Proof. unfold ENGINE_CC_OPTIONS. each_option. Qed.
Lemma max_power_bhp_post :
  Forall (λ x, posts (float_or_none " bhp") (PStr (format x +:+ " bhp"))
               = Return (decimal x)) POWER_BHP_OPTIONS.
Proof. unfold POWER_BHP_OPTIONS. each_option. Qed.
Lemma torque_nm_post :
  Forall (λ x, posts (float_or_none " Nm") (PStr (format x +:+ " Nm"))
               = Return (decimal x)) TORQUE_NM_OPTIONS.
Proof. unfold TORQUE_NM_OPTIONS. each_option. Qed.
Lemma mileage_mpg_post :
  Forall (λ x, posts (float_or_none " mpg") (PStr (format x +:+ " mpg"))
               = Return (decimal x)) MILEAGE_MPG_OPTIONS.
Proof. unfold MILEAGE_MPG_OPTIONS. each_option. Qed.
Lemma seats_post :
  Forall (λ x, posts (float_or_none " places") (PStr (format x +:+ " places"))
               = Return (decimal x)) SEATS_OPTIONS.
Proof. unfold SEATS_OPTIONS. each_option. Qed.

#[local] Hint Resolve company_post fuel_post transmission_post owner_post seller_type_post
  model_post edition_post year_post km_driven_post engine_cc_post max_power_bhp_post
  torque_nm_post mileage_mpg_post seats_post : options.

(** The blocks of the script agree, one by one, with the table. *)
Lemma blocks_agree u n c : Forall2 (agrees u n c) (blocks u n c) dedicated.
Proof.
  unfold blocks, dedicated. cbv zeta.
  repeat first
    [ apply Forall2_nil_2
    | apply Forall2_cons_2;
      [ split_and!; [reflexivity | reflexivity |];
        cbn [name declared_in store returned fst snd posted_by];
        first [ reflexivity
              | apply selection_posts; [vm_compute; reflexivity|];
                apply options_post; auto with options ]
      | ] ].
Qed.

Lemma dedicated_NoDup : NoDup dedicated.*1.
Proof. apply (bool_decide_unpack _). vm_compute. exact I. Qed.

(** No list of the table offers null. *)
Lemma dedicated_values n c k values :
  widget_of n c k = Some (SelectionList values) → PNone ∉ values.
Proof.
  intros [kd Hin]%widget_in_elem_of.
  assert (Forall (λ d, match d.2.2 with
                       | SelectionList values => PNone ∉ values
                       | TextBox => True
                       end) dedicated) as Hall.
  { unfold dedicated.
    repeat first [apply Forall_nil_2 | apply Forall_cons_2;
                  [cbn [fst snd];
                   first [exact I | by intros (x & ? & _)%list_elem_of_fmap]|]]. }
  rewrite Forall_forall in Hall. apply (Hall _ Hin).
Qed.

(** The form always submits, and the payload is the one [posted]
    describes. *)
Lemma submitted_posted (u : user) (numeric_cols categorical_cols : list string) :
  ∃ payload, submitted u numeric_cols categorical_cols = Return payload
    ∧ ∀ key, dict_get payload key = posted u numeric_cols categorical_cols key.
Proof.
  destruct (run_blocks_agrees u numeric_cols categorical_cols _ _ []
              (blocks_agree u numeric_cols categorical_cols) dedicated_NoDup (NoDup_nil_2))
    as (inputs & Hrun & Hnd & Hget).
  destruct (remaining_spec u categorical_cols inputs Hnd) as [Hnd' Hget'].
  exists (payload (remaining u categorical_cols inputs)). split.
  - unfold submitted, form. rewrite Hrun. done.
  - intros key. rewrite payload_fmap, dict_get_fmap_values, Hget' by done.
    unfold posted, widget_of. specialize (Hget key).
    destruct (widget_in dedicated numeric_cols categorical_cols key) as [w|];
      destruct (dict_get inputs key) as [v|]; try done.
    case_decide; [|done]. cbn [fmap option_fmap option_map]. f_equal.
    apply fallback_posts_none.
Qed.

(** C9, amended. On submission the form posts a value for every feature
    it shows a widget for, and for no other name: the value picked in a
    selection list of the feature's own and null while that list is left
    on the placeholder; the text typed in a text box and null when it
    holds blanks only; null, whatever is picked, for a categorical feature
    with no widget of its own, whose generic list posts null for "Autre" as
    for the placeholder. So the value is null exactly in those cases, and
    otherwise it is the value picked, or the text typed. *)
Theorem payload_null_iff (u : user) (numeric_cols categorical_cols : list string) :
  ∃ payload, submitted u numeric_cols categorical_cols = Return payload
    ∧ (∀ key, key ∈ keys payload ↔
         is_Some (widget_of numeric_cols categorical_cols key) ∨ key ∈ categorical_cols)
    ∧ (∀ key values,
         widget_of numeric_cols categorical_cols key = Some (SelectionList values) →
         dict_get payload key = Some (default PNone (selected u key values))
         ∧ ∀ v, selected u key values = Some v → v ≠ PNone)
    ∧ (∀ key,
         widget_of numeric_cols categorical_cols key = Some TextBox →
         dict_get payload key
         = Some (if strips_to_empty (typed u key) then PNone else PStr (typed u key)))
    ∧ (∀ key,
         widget_of numeric_cols categorical_cols key = None → key ∈ categorical_cols →
         dict_get payload key = Some PNone)
    ∧ (∀ key, dict_get payload key = Some PNone ↔
         (∃ values, widget_of numeric_cols categorical_cols key = Some (SelectionList values)
                    ∧ selected u key values = None)
         ∨ (widget_of numeric_cols categorical_cols key = Some TextBox
            ∧ strips_to_empty (typed u key) = true)
         ∨ (widget_of numeric_cols categorical_cols key = None
            ∧ key ∈ categorical_cols
            ∧ (fallback_returned u key = PStr placeholder
               ∨ fallback_returned u key = PStr "Autre")))
    ∧ (∀ key v, dict_get payload key = Some v → v ≠ PNone →
         (∃ values, widget_of numeric_cols categorical_cols key = Some (SelectionList values)
                    ∧ selected u key values = Some v)
         ∨ (widget_of numeric_cols categorical_cols key = Some TextBox
            ∧ v = PStr (typed u key))).
Proof.
  destruct (submitted_posted u numeric_cols categorical_cols) as (payload & Hsubmitted & Hget).
  exists payload. split; [done|]. split_and!.
  - intros key. destruct (dict_get payload key) as [v|] eqn:Hv.
    + split; [|intros _; by eapply dict_get_Some_key].
      intros _. rewrite Hget in Hv. unfold posted in Hv.
      destruct (widget_of numeric_cols categorical_cols key); [by left|].
      case_decide; [by right | done].
    + pose proof Hv as Hkey%dict_get_None. split; [done|].
      rewrite Hget in Hv. unfold posted in Hv.
      intros [[w Hw] | Hc]; [by rewrite Hw in Hv|].
      destruct (widget_of numeric_cols categorical_cols key); [done|].
      by rewrite decide_True in Hv.
  - intros key values Hwidget. split.
    + rewrite Hget. unfold posted. by rewrite Hwidget.
    + intros v Hselected ->. apply (dedicated_values _ _ _ _ Hwidget).
      unfold selected in Hselected. destruct (pick u key); [done|].
      by eapply list_elem_of_lookup_2.
  - intros key Hwidget. rewrite Hget. unfold posted. by rewrite Hwidget.
  - intros key Hwidget Hkey. rewrite Hget. unfold posted.
    by rewrite Hwidget, decide_True.
  - intros key. rewrite Hget. unfold posted.
    destruct (widget_of numeric_cols categorical_cols key) as [[values|]|] eqn:Hwidget; cbn.
    + pose proof (dedicated_values _ _ _ _ Hwidget) as Hvalues.
      destruct (selected u key values) as [v|] eqn:Hselected; cbn.
      * split.
        -- intros [= ->]. exfalso. apply Hvalues.
           unfold selected in Hselected. destruct (pick u key); [done|].
           by eapply list_elem_of_lookup_2.
        -- intros [(values' & [= <-] & ?) | [(? & _) | (? & _)]]; congruence.
      * split; [intros _; left; eauto|done].
    + destruct (strips_to_empty (typed u key)).
      * split; [intros _; right; left; done|done].
      * split; [done|]. intros [(? & ? & _) | [(_ & ?) | (? & _)]]; congruence.
    + case_decide as Hkey.
      * split; [|done]. intros _. right. right. split_and!; [done..|].
        apply fallback_posts_none.
      * split; [done|]. intros [(? & ? & _) | [(? & _) | (_ & ? & _)]]; congruence.
  - intros key v. rewrite Hget. unfold posted.
    destruct (widget_of numeric_cols categorical_cols key) as [[values|]|] eqn:Hwidget; cbn.
    + destruct (selected u key values) as [v'|] eqn:Hselected; cbn;
        intros [= <-] Hv; [|done].
      left. exists values. done.
    + destruct (strips_to_empty (typed u key)); intros [= <-] Hv; [done|].
      right. done.
    + case_decide; [|done]. by intros [= <-].
Qed.

(** C9 as stated fails for a categorical feature the form has no widget
    of its own for: the person picks "Autre", which is neither blank nor
    the placeholder, and null is posted. *)
Lemma autre_posted_as_null :
  fallback_returned Fixture.picks_autre "colour" = PStr "Autre"
  ∧ form Fixture.picks_autre [] ["colour"] = Return [("colour", PStr "")]
  ∧ submitted Fixture.picks_autre [] ["colour"] = Return [("colour", PNone)].
Proof. split_and!; vm_compute; reflexivity. Qed.

(** A form filled in and submitted. *)
Example buyer_submits :
  submitted Fixture.buyer ["year"; "km_driven"; "seats"; "doors"] ["fuel"; "name"; "colour"]
  = Return [("name", PNone); ("year", PInt 2015); ("km_driven", PInt 40000);
            ("seats", PFloat 5); ("fuel", PStr "Diesel"); ("colour", PNone)].
Proof. vm_compute. reflexivity. Qed.

End FrontendFacts.

(** ** More on the prediction service *)

Module ApiBehaviour.
Import Api PyFacts ApiFacts.

Section Service.
Context `{Model}.

(** X1. The frame [predict] builds is well formed whatever names the
    metadata lists, repeated names included: one row, a cell for every
    column, no column twice, the columns being the expected names, and each
    cell the request's value for its column, null when the request has
    none. *)
Theorem inference_frame_well_formed (expected_names : list string) (features : dict) :
  let X := inference_frame expected_names features in
  (∃ row, data X = [row]
          ∧ length row = length (columns X)
          ∧ ∀ i col, columns X !! i = Some col → row !! i = Some (get features col PNone))
  ∧ NoDup (columns X)
  ∧ (∀ col, col ∈ columns X ↔ col ∈ expected_names)
  ∧ ∀ fs model meta numeric_cols categorical_cols,
      load_artifacts fs = Return (model, meta) →
      lists meta numeric_cols categorical_cols →
      expected_names = numeric_cols ++ categorical_cols →
      predict fs features
      = Some (match model_predict model X with
              | Raise e => HTTPException 400 ("Prediction failed: " +:+ str e)
              | Return pred => Ok200 [("price", PFloat pred)]
              end).
Proof.
  intros X. unfold X. rewrite columns_inference_frame, data_inference_frame.
  split_and!.
  - eexists. split_and!; [done | by rewrite length_fmap |].
    intros i col Hcol. by rewrite list_lookup_fmap, Hcol.
  - apply first_occurrences_no_repeat.
  - apply first_occurrences_elem_of.
  - intros fs model meta numeric_cols categorical_cols Hload Hcols%lists_expected_cols ->.
    by rewrite (predict_names fs features model meta (numeric_cols ++ categorical_cols)).
Qed.

Lemma predict_get_ext (fs : gmap string file) (features features' : dict) :
  (∀ col, get features col PNone = get features' col PNone) →
  predict fs features = predict fs features'.
Proof.
  intros Hsame. unfold predict.
  destruct (load_artifacts fs) as [[model meta]|e]; [|done].
  destruct (expected_cols meta) as [cols|e]; [|done].
  change (Return cols ≫= ?k) with (k cols).
  destruct (row_keys cols) as [[expected_names|]|e]; [|done..].
  assert (inference_frame expected_names features = inference_frame expected_names features')
    as ->; [|done].
  unfold inference_frame, inference_row.
  rewrite (dict_comprehension_ext _ (λ col, get features' col PNone)); [done|].
  intros col _. apply Hsame.
Qed.

(** X2. A key the request maps to null counts as a key the request does not
    have: adding such a key, or setting a null one to null again, changes
    no answer; a request of nulls only is answered as the empty request. *)
Theorem null_same_as_absent (fs : gmap string file) (features : dict) (key : string) :
  get features key PNone = PNone →
  predict fs (dict_set features key PNone) = predict fs features
  ∧ ∀ cols, predict fs (dict_comprehension (λ _, PNone) cols) = predict fs [].
Proof.
  intros Hnull. split.
  - apply predict_get_ext. intros col. unfold get in *.
    rewrite dict_get_set. case_decide as Hkey; [|done]. subst col. by rewrite Hnull.
  - intros cols. apply predict_get_ext. intros col. unfold get.
    rewrite dict_get_comprehension. by case_decide.
Qed.

(** X3. The two endpoints agree on the artifacts as far as this: when
    the health check says "error", [predict] answers 500 whatever the
    request; a 500 that carries a detail carries the detail of the health
    check; and when [predict] answers anything but 500 the health check
    says "ok". *)
Theorem health_agrees_with_predict (fs : gmap string file) (features : dict) :
  (dict_get (health fs) "status" = Some (PStr "error") →
   ∃ r, predict fs features = Some r ∧ status_of r = 500%Z)
  ∧ (∀ detail,
       predict fs features = Some (HTTPException 500 detail) →
       health fs = [("status", PStr "error"); ("detail", PStr detail)])
  ∧ (∀ r, predict fs features = Some r → status_of r ≠ 500%Z →
       dict_get (health fs) "status" = Some (PStr "ok")).
Proof.
  unfold health, predict.
  destruct (load_artifacts fs) as [[model meta]|e]; cbn.
  2: { split_and!; [eauto | by intros ? [= <-] | by intros ? [= <-]]. }
  destruct (expected_cols meta) as [cols|e]; cbn.
  2: { split_and!; [eauto | done | by intros ? [= <-]]. }
  split_and!; [done | | done].
  intros detail. destruct (row_keys cols) as [[expected_names|]|e]; [|done..].
  by destruct (model_predict model _).
Qed.

(** X4. Existence comes first: when either file is missing both endpoints
    say so, whatever the other file holds; and when both are there a
    model that does not load is reported before the metadata is read. *)
Theorem missing_file_reported_first (fs : gmap string file) :
  (fs !! MODEL_PATH = None ∨ fs !! META_PATH = None →
   load_artifacts fs
   = Raise (FileNotFoundError "Model or metadata not found. Please train the model first."))
  ∧ (∀ model_file meta_file e,
       fs !! MODEL_PATH = Some model_file → fs !! META_PATH = Some meta_file →
       joblib_load model_file = Raise e →
       load_artifacts fs = Raise e
       ∧ dict_get (health fs) "detail" = Some (PStr (str e))
       ∧ ∀ features, predict fs features = Some (HTTPException 500 (str e))).
Proof.
  split.
  - unfold load_artifacts. intros [-> | ->]; [done|]. by destruct (fs !! MODEL_PATH).
  - intros model_file meta_file e Hmodel Hmeta Hload.
    assert (load_artifacts fs = Raise e) as Hraise.
    { unfold load_artifacts. rewrite Hmodel, Hmeta, Hload. done. }
    split_and!; [done | |].
    + unfold health. by rewrite Hraise.
    + intros features. unfold predict. by rewrite Hraise.
Qed.

End Service.

(** The health check may say "ok" where [predict] answers 500: metadata
    that lists a list among the names adds up, and the list cannot be a
    key of the row. *)
Example health_ok_predict_raises :
  dict_get (health Fixture.nested_name) "status" = Some (PStr "ok")
  ∧ predict Fixture.nested_name Fixture.request
    = Some (Uncaught (TypeError "unhashable type: 'list'")).
Proof. split; reflexivity. Qed.

(** [inference_frame_well_formed] on the trained store. *)
Lemma inference_frame_well_formed_witness :
  load_artifacts Fixture.trained = Return (450000%float, Fixture.trained_meta)
  ∧ lists Fixture.trained_meta ["year"; "km_driven"] ["fuel"]
  ∧ NoDup (columns (inference_frame ["year"; "km_driven"; "fuel"] Fixture.request_partial))
  ∧ predict Fixture.trained Fixture.request_partial = Some (Ok200 [("price", PFloat 450000)]).
Proof.
  destruct (inference_frame_well_formed ["year"; "km_driven"; "fuel"] Fixture.request_partial)
    as (_ & Hnodup & _ & Hpredict).
  split_and!; [reflexivity | exact trained_lists | exact Hnodup |].
  exact (Hpredict Fixture.trained 450000%float Fixture.trained_meta _ _
           eq_refl trained_lists eq_refl).
Defined.

(** [null_same_as_absent] on a request without the mileage. *)
Lemma null_same_as_absent_witness :
  get Fixture.request_partial "km_driven" PNone = PNone
  ∧ predict Fixture.trained (dict_set Fixture.request_partial "km_driven" PNone)
    = predict Fixture.trained Fixture.request_partial.
Proof.
  assert (get Fixture.request_partial "km_driven" PNone = PNone) as Habsent by reflexivity.
  split; [exact Habsent|].
  exact (proj1 (null_same_as_absent Fixture.trained Fixture.request_partial "km_driven" Habsent)).
Defined.

(** [health_agrees_with_predict]: before training, on metadata that is
    no dictionary, and after training. *)
Lemma health_agrees_with_predict_witness :
  dict_get (health Fixture.untrained) "status" = Some (PStr "error")
  ∧ dict_get (health Fixture.metadata_a_list) "status" = Some (PStr "error")
  ∧ (∃ r, predict Fixture.metadata_a_list Fixture.request = Some r ∧ status_of r = 500%Z)
  ∧ health Fixture.untrained
    = [("status", PStr "error");
       ("detail", PStr "Model or metadata not found. Please train the model first.")]
  ∧ dict_get (health Fixture.trained) "status" = Some (PStr "ok").
Proof.
  assert (dict_get (health Fixture.metadata_a_list) "status" = Some (PStr "error")) as Hlist
    by reflexivity.
  split_and!; [reflexivity | exact Hlist | | |].
  - exact (proj1 (health_agrees_with_predict Fixture.metadata_a_list Fixture.request) Hlist).
  - exact (proj1 (proj2 (health_agrees_with_predict Fixture.untrained Fixture.request))
             "Model or metadata not found. Please train the model first." eq_refl).
  - refine (proj2 (proj2 (health_agrees_with_predict Fixture.trained Fixture.request))
              (Ok200 [("price", PFloat 450000)]) eq_refl _).
    discriminate.
Defined.

(** [missing_file_reported_first]: the model file missing, and a model
    file that does not load. *)
Lemma missing_file_reported_first_witness :
  (Fixture.metadata_only !! MODEL_PATH = None ∨ Fixture.metadata_only !! META_PATH = None)
  ∧ load_artifacts Fixture.metadata_only
    = Raise (FileNotFoundError "Model or metadata not found. Please train the model first.")
  ∧ ∀ features,
      predict Fixture.corrupt_model features = Some (HTTPException 500 "invalid load key").
Proof.
  assert (Fixture.metadata_only !! MODEL_PATH = None
          ∨ Fixture.metadata_only !! META_PATH = None) as Hmissing by (left; reflexivity).
  split_and!; [exact Hmissing | |].
  - exact (proj1 (missing_file_reported_first Fixture.metadata_only) Hmissing).
  - destruct (proj2 (missing_file_reported_first Fixture.corrupt_model)
                _ _ Fixture.not_a_pickle eq_refl eq_refl eq_refl) as (_ & _ & Hpredict).
    exact Hpredict.
Defined.

End ApiBehaviour.

(** ** More on the service's tests *)

Module TestsFacts.
Import Api Tests PyFacts ApiFacts.


Section Client.
Context `{Model}.


(** X6. [test_predict_minimal] is skipped exactly when there is no metadata
    file; it passes when both artifacts load, the metadata lists names and
    the model gives the row of nulls a finite price; with a metadata file
    it fails when the metadata does not parse, when its feature entries do
    not make a row, and, the metadata listing names, when the artifacts do
    not load, the model file missing say, or the model does not price the
    row of nulls. *)
Theorem test_predict_minimal_outcome (fs : gmap string file) :
  (test_predict_minimal fs = Some Skipped ↔ fs !! META_PATH = None)
  ∧ (∀ model meta numeric_cols categorical_cols price,
       load_artifacts fs = Return (model, meta) →
       lists meta numeric_cols categorical_cols →
       model_predict model (inference_frame (numeric_cols ++ categorical_cols) [])
         = Return price →
       is_finite price = true →
       test_predict_minimal fs = Some Passed)
  ∧ (∀ meta_file,
       fs !! META_PATH = Some meta_file →
       (∃ e, json_load meta_file = Raise e)
       ∨ (∃ meta e, json_load meta_file = Return meta
                    ∧ (cols ← expected_cols meta; row_keys cols) = Raise e)
       ∨ (∃ meta numeric_cols categorical_cols,
            json_load meta_file = Return meta
            ∧ lists meta numeric_cols categorical_cols
            ∧ (fs !! MODEL_PATH = None
               ∨ (∃ e, load_artifacts fs = Raise e)
               ∨ (∃ model e,
                    load_artifacts fs = Return (model, meta)
                    ∧ model_predict model
                        (inference_frame (numeric_cols ++ categorical_cols) []) = Raise e))) →
       test_predict_minimal fs = Some Failed).
Proof.
  assert (∀ expected_names,
            inference_frame expected_names (dict_comprehension (λ _, PNone) expected_names)
            = inference_frame expected_names []) as Hframe.
  { intros expected_names. unfold inference_frame, inference_row.
    rewrite (dict_comprehension_ext _ (λ col, get [] col PNone)); [done|].
    intros col _. unfold get. rewrite dict_get_comprehension. by case_decide. }
  unfold test_predict_minimal.
  destruct (fs !! META_PATH) as [meta_file|] eqn:Hmeta.
  2: { split_and!; [done | | done].
       intros model meta numeric_cols categorical_cols price Hload.
       apply load_artifacts_Return in Hload as (? & ? & _ & ? & _). congruence. }
  split_and!; [split; [|done] | |].
  - destruct (json_load meta_file) as [meta|e]; cbn; [|done].
    destruct (expected_cols meta) as [cols|e]; cbn; [|done].
    destruct (row_keys cols) as [[expected_names|]|e]; [|done..].
    destruct (post_predict fs _) as [[status_code body|e]|]; [|done..].
    by repeat case_bool_decide.
  - intros model meta numeric_cols categorical_cols price Hload Hcols%lists_expected_cols
           Hprice Hfinite.
    set (expected_names := numeric_cols ++ categorical_cols) in *.
    pose proof Hload as (? & meta_file' & _ & Hfile & _ & Hjson)%load_artifacts_Return.
    assert (meta_file' = meta_file) as -> by congruence.
    rewrite Hjson, bind_Return, Hcols, bind_Return, row_keys_names.
    unfold post_predict.
    rewrite (predict_names fs _ model meta expected_names) by done.
    rewrite Hframe, Hprice. cbn. by rewrite Hfinite.
  - intros ? [= <-] [[e Hjson] | [(meta & e & Hjson & Hrow) | Hnames]].
    + by rewrite Hjson.
    + by rewrite Hjson, bind_Return, Hrow.
    + destruct Hnames as (meta & numeric_cols & categorical_cols & Hjson
                          & Hcols%lists_expected_cols & Hfails).
      set (expected_names := numeric_cols ++ categorical_cols) in *.
      rewrite Hjson, bind_Return, Hcols, bind_Return, row_keys_names.
      unfold post_predict.
      destruct Hfails as [Hmodel | [[e Hload] | (model & e & Hload & Hraise)]].
      * unfold predict, load_artifacts. by rewrite Hmodel.
      * unfold predict. by rewrite Hload.
      * rewrite (predict_names fs _ model meta expected_names) by done.
        by rewrite Hframe, Hraise.
Qed.

End Client.


(** [test_predict_minimal_outcome]: before training, after training,
    with the model file gone, and on metadata that is no dictionary. *)
Lemma test_predict_minimal_outcome_witness :
  test_predict_minimal Fixture.untrained = Some Skipped
  ∧ test_predict_minimal Fixture.trained = Some Passed
  ∧ test_predict_minimal Fixture.metadata_only = Some Failed
  ∧ test_predict_minimal Fixture.metadata_a_list = Some Failed.
Proof.
  split_and!.
  - apply (proj2 (proj1 (test_predict_minimal_outcome Fixture.untrained))). reflexivity.
  - apply (proj1 (proj2 (test_predict_minimal_outcome Fixture.trained))
             450000%float Fixture.trained_meta ["year"; "km_driven"] ["fuel"] 450000%float);
      [reflexivity | exact trained_lists | reflexivity | reflexivity].
  - refine (proj2 (proj2 (test_predict_minimal_outcome Fixture.metadata_only)) _ eq_refl _).
    right. right. exists Fixture.trained_meta, ["year"; "km_driven"], ["fuel"].
    split_and!; [reflexivity | exact trained_lists | left; reflexivity].
  - refine (proj2 (proj2 (test_predict_minimal_outcome Fixture.metadata_a_list)) _ eq_refl _).
    right. left. exists (PList []), (AttributeError "'list' object has no attribute 'get'").
    split; reflexivity.
Defined.

End TestsFacts.

(** ** The form and the service together *)

Module SessionFacts.
Import Api Frontend FormSpec Session PyFacts ApiFacts FrontendFacts.

Section Submit.
Context `{Model}.

Lemma form_columns_lists (fs : gmap string file) meta_file meta numeric_cols categorical_cols :
  fs !! META_PATH = Some meta_file → json_load meta_file = Return meta →
  lists meta numeric_cols categorical_cols →
  form_columns fs = Some (Return (numeric_cols, categorical_cols)).
Proof.
  intros Hfile Hjson (kvs & -> & Hnumeric & Hcategorical).
  unfold form_columns. rewrite Hfile, Hjson. cbn. rewrite Hnumeric, Hcategorical. cbn.
  by rewrite !names_strings.
Qed.

(** X7. From the widgets to the model. With artifacts that load and
    metadata that lists names, the form shows the features the metadata
    declares, and what the model is asked to price is one row with the
    expected columns, each holding what the person picked or typed for it
    and null for a feature the form shows no widget for; the person is
    shown the price when it is finite, or the 400 of a model that does not
    predict. *)
Theorem submit_reaches_model (u : user) (fs : gmap string file) model meta
  (numeric_cols categorical_cols : list string) (payload : dict) :
  load_artifacts fs = Return (model, meta) →
  lists meta numeric_cols categorical_cols →
  let X := {| columns := first_occurrences (numeric_cols ++ categorical_cols);
              data := [ (λ col, default PNone (posted u numeric_cols categorical_cols col))
                        <$> first_occurrences (numeric_cols ++ categorical_cols) ] |} in
  submitted u numeric_cols categorical_cols = Return payload →
  form_columns fs = Some (Return (numeric_cols, categorical_cols))
  ∧ inference_frame (numeric_cols ++ categorical_cols) payload = X
  ∧ (∀ price, model_predict model X = Return price → is_finite price = true →
       on_submit u fs = Some (Return (Price price)))
  ∧ (∀ e, model_predict model X = Raise e →
       on_submit u fs
       = Some (Return (ErrorStatus 400
                         [("detail", PStr ("Prediction failed: " +:+ str e))]))).
Proof.
  intros Hload Hlists X Hsubmitted.
  destruct (submitted_posted u numeric_cols categorical_cols) as (payload' & Hposted & Hget).
  assert (payload' = payload) as -> by congruence. clear Hposted.
  assert (form_columns fs = Some (Return (numeric_cols, categorical_cols))) as Hcolumns.
  { apply load_artifacts_Return in Hload as (model_file & meta_file & _ & Hmeta & _ & Hjson).
    by eapply form_columns_lists. }
  assert (inference_frame (numeric_cols ++ categorical_cols) payload = X) as Hframe.
  { unfold inference_frame, inference_row, X.
    rewrite keys_dict_comprehension, values_dict_comprehension.
    f_equal. f_equal. apply list_fmap_ext. intros i col _. unfold get. by rewrite Hget. }
  pose proof (predict_names fs payload model meta _ Hload (lists_expected_cols _ _ _ Hlists))
    as Hpredict.
  rewrite Hframe in Hpredict.
  split_and!; [done..| |].
  - intros price Hprice Hfinite.
    unfold on_submit. rewrite Hcolumns, Hsubmitted.
    unfold Tests.post_predict. rewrite Hpredict, Hprice.
    cbn. by rewrite Hfinite.
  - intros e Hraise.
    unfold on_submit. rewrite Hcolumns, Hsubmitted.
    unfold Tests.post_predict. by rewrite Hpredict, Hraise.
Qed.

(** X8. Before any training there is no metadata: the form shows no widget,
    posts the empty request and shows the service's 500. *)
Theorem submit_without_metadata (u : user) (fs : gmap string file) :
  fs !! META_PATH = None →
  form_columns fs = Some (Return ([], []))
  ∧ submitted u [] [] = Return []
  ∧ on_submit u fs
    = Some (Return (ErrorStatus 500
                      [("detail",
                        PStr "Model or metadata not found. Please train the model first.")])).
Proof.
  intros Hmeta.
  assert (form_columns fs = Some (Return ([], []))) as Hcolumns.
  { unfold form_columns. by rewrite Hmeta. }
  assert (submitted u [] [] = Return []) as Hsubmitted by reflexivity.
  split_and!; [done..|].
  unfold on_submit. rewrite Hcolumns, Hsubmitted.
  unfold Tests.post_predict, predict, load_artifacts. rewrite Hmeta.
  by destruct (fs !! MODEL_PATH).
Qed.

End Submit.

(** [submit_reaches_model]: a buyer's form against the trained store. *)
Lemma submit_reaches_model_witness :
  load_artifacts Fixture.trained = Return (450000%float, Fixture.trained_meta)
  ∧ lists Fixture.trained_meta ["year"; "km_driven"] ["fuel"]
  ∧ on_submit Fixture.buyer Fixture.trained = Some (Return (Price 450000))
  ∧ submitted Fixture.buyer ["year"; "km_driven"] ["fuel"]
    = Return [("year", PInt 2015); ("km_driven", PInt 40000); ("fuel", PStr "Diesel")]
  ∧ inference_frame (["year"; "km_driven"] ++ ["fuel"])
      [("year", PInt 2015); ("km_driven", PInt 40000); ("fuel", PStr "Diesel")]
    = {| columns := ["year"; "km_driven"; "fuel"];
         data := [[PInt 2015; PInt 40000; PStr "Diesel"]] |}.
Proof.
  assert (load_artifacts Fixture.trained = Return (450000%float, Fixture.trained_meta))
    as Hload by reflexivity.
  assert (submitted Fixture.buyer ["year"; "km_driven"] ["fuel"]
          = Return [("year", PInt 2015); ("km_driven", PInt 40000); ("fuel", PStr "Diesel")])
    as Hsubmitted by (vm_compute; reflexivity).
  destruct (submit_reaches_model Fixture.buyer Fixture.trained _ _ _ _ _ Hload trained_lists
              Hsubmitted) as (_ & Hframe & Hshown & _).
  split_and!; [exact Hload | exact trained_lists
               | exact (Hshown 450000%float eq_refl eq_refl)
               | exact Hsubmitted | exact Hframe].
Defined.

(** [submit_without_metadata]: the same form before any training. *)
Lemma submit_without_metadata_witness :
  Fixture.untrained !! META_PATH = None
  ∧ on_submit Fixture.buyer Fixture.untrained
    = Some (Return (ErrorStatus 500
                      [("detail",
                        PStr "Model or metadata not found. Please train the model first.")])).
Proof.
  assert (Fixture.untrained !! META_PATH = None) as Hmeta by reflexivity.
  split; [exact Hmeta|].
  destruct (submit_without_metadata Fixture.buyer Fixture.untrained Hmeta) as (_ & _ & Hshown).
  exact Hshown.
Defined.

End SessionFacts.

(** ** More on the training job *)

Module TrainBehaviour.
Import Train PyFacts TrainFacts.

Section Frames.
Context `{Pandas}.

(** What [convert_row] does to the cell [df[label]] reads: nothing to a
    missing one; a present one becomes its float times the rate. *)
Lemma convert_row_get label rate names (r r' : row) :
  convert_row label rate names r = Return r' →
  match row_get names r label with
  | None => row_get names r' label = None
  | Some v => ∃ x, astype_float v = Return x
                   ∧ row_get names r' label = Some (of_float (x * rate)%float)
  end.
Proof.
  unfold row_get. revert r r'.
  induction names as [|name names IH]; intros [|c r] r'; cbn; try (by intros [= <-]).
  destruct (decide (name = label)) as [->|Hne].
  - destruct c as [v|]; cbn.
    + destruct (astype_float v) as [x|] eqn:Hx; [|done]. cbn.
      destruct (convert_row label rate names r) as [r''|]; [|done]. cbn.
      intros [= <-]. cbn. rewrite decide_True by done. cbn. eauto.
    + destruct (convert_row label rate names r) as [r''|]; [|done]. cbn.
      intros [= <-]. cbn. rewrite decide_True by done. done.
  - cbn. destruct (convert_row label rate names r) as [r''|] eqn:Hr; [|done]. cbn.
    intros [= <-]. cbn. rewrite decide_False by done.
    specialize (IH r r'' Hr).
    destruct (list_find _ (zip names r)) as [[i [n' c']]|],
             (list_find _ (zip names r'')) as [[i' [n'' c'']]|]; cbn in *; done.
Qed.

Lemma convert_rows_series label rate names (rs rs' : list row) :
  convert_rows label rate names rs = Return rs' →
  Forall2 (λ r r', match row_get names r label with
                   | None => row_get names r' label = None
                   | Some v => ∃ x, astype_float v = Return x
                                    ∧ row_get names r' label = Some (of_float (x * rate)%float)
                   end) rs rs'.
Proof.
  revert rs'. induction rs as [|r rs IH]; intros rs'; cbn.
  - intros [= <-]. constructor.
  - destruct (convert_row label rate names r) as [r'|] eqn:Hr; [|done]. cbn.
    destruct (convert_rows label rate names rs) as [rs''|]; [|done]. cbn.
    intros [= <-]. constructor; [by apply convert_row_get | by apply IH].
Qed.

End Frames.

Section Run.
Context `{Sklearn}.

Lemma train_test_split_members (X : DataFrame) y (test_size : float) (seed : Z)
  X_train X_test y_train y_test :
  train_test_split X y test_size seed = Return (X_train, X_test, y_train, y_test) →
  columns X_train = columns X ∧ columns X_test = columns X
  ∧ (∀ r, r ∈ rows X_train ++ rows X_test → r ∈ rows X)
  ∧ (∀ c, c ∈ y_train ++ y_test → c ∈ y).
Proof.
  unfold train_test_split.
  destruct (validate_shuffle_split _ _) as [[n_train n_test]|]; [|done]. cbn.
  destruct (validate_shuffle_split_int _ _ _) as [[n_train' n_test']|]; [|done]. cbn.
  intros [= <- <- <- <-]. split_and!; [done | done | |].
  - intros r. rewrite elem_of_app. cbn.
    intros [(i & _ & Hi)%list_elem_of_omap | (i & _ & Hi)%list_elem_of_omap];
      by eapply list_elem_of_lookup_2.
  - intros c. rewrite elem_of_app.
    intros [(i & _ & Hi)%list_elem_of_omap | (i & _ & Hi)%list_elem_of_omap];
      by eapply list_elem_of_lookup_2.
Qed.

(** X9. A run that does not complete, for whatever reason (no CSV, a CSV
    that does not parse, no target column, a target that does not convert,
    too few rows to split, a fit or a metric that raises), leaves every
    file as it was and exits with status 1: both writes come after all of
    these. (The writes themselves are taken to succeed.) *)
Theorem failure_leaves_files (a : args) (fs : gmap string file) :
  (main a fs).1 ≠ Return () →
  (main a fs).2 = fs ∧ exit_status (main a fs).1 = 1%Z.
Proof.
  destruct (main a fs) as [[[]|e] fs'] eqn:Hmain; cbn; [done|].
  intros _. split; [|done]. by eapply main_Raise_unchanged.
Qed.


(** X11. The target is never a feature: in a run that completes, the
    frame the pipeline is fitted on has every column of the CSV but the
    target, and the columns the preprocessor selects, which are the two
    lists of the metadata, are all columns of that frame. *)
Theorem features_exclude_target (a : args) (fs fs' : gmap string file) :
  main a fs = (Return (), fs') →
  ∃ df fitted numeric_cols categorical_cols X_train y_train kvs,
    fs !! csv a = Some (CsvFile df)
    ∧ fit (build_pipeline numeric_cols categorical_cols) X_train y_train = Return fitted
    ∧ fmap snd (transformers (preprocess (build_pipeline numeric_cols categorical_cols)))
      = [numeric_cols; categorical_cols]
    ∧ read_json fs' (out_meta a) = Some (PDict kvs)
    ∧ dict_get kvs "numeric_features" = Some (PList (PStr <$> numeric_cols))
    ∧ dict_get kvs "categorical_features" = Some (PList (PStr <$> categorical_cols))
    ∧ columns X_train = filter (λ c, c ≠ target a) (columns df)
    ∧ (target a ∉ columns X_train)
    ∧ ∀ c, c ∈ numeric_cols ++ categorical_cols → c ∈ columns X_train.
Proof.
  intros (df & df' & numeric_cols & categorical_cols & X & X_train & X_test & y_train
          & y_test & pipeline & y_pred & rmse & mae & r2 & Hcsv & _ & Hconv
          & Hdetect & HX & Hsplit & Hfit & _ & _ & _ & _ & ->)%main_Return_inv.
  apply convert_target_Return in Hconv as (Hcols & _ & _).
  change (columns (dropna (drop_duplicates df) (target a))) with (columns df) in Hcols.
  apply detect_feature_types_Return in Hdetect as (_ & -> & ->).
  apply drop_column_Return in HX as (_ & HcolsX & _ & _).
  apply train_test_split_members in Hsplit as (Htrain & _ & _ & _).
  assert (columns X_train = filter (λ c, c ≠ target a) (columns df)) as Hfeatures.
  { by rewrite Htrain, HcolsX, Hcols. }
  eexists df, pipeline, _, _, X_train, y_train, _.
  split_and!; [done | done | done | unfold read_json; by rewrite lookup_insert_eq
               | reflexivity | reflexivity | done | |].
  - rewrite Hfeatures, list_elem_of_filter. by intros [? _].
  - intros c. rewrite Hfeatures, Hcols, elem_of_app.
    intros [[_ Hc]%list_elem_of_filter | [_ Hc]%list_elem_of_filter]; done.
Qed.

(** X12. Row counts: in a run that completes there is at least one
    training row and one test row, so at least two rows survived the
    cleaning, and together they are no more than the rows of the CSV; they
    are all of them when the CSV has no repeated row and no row without a
    target. *)
Theorem row_counts (a : args) (fs fs' : gmap string file) :
  main a fs = (Return (), fs') →
  ∃ df kvs (training_rows test_rows : Z),
    fs !! csv a = Some (CsvFile df)
    ∧ read_json fs' (out_meta a) = Some (PDict kvs)
    ∧ dict_get kvs "training_rows" = Some (PInt training_rows)
    ∧ dict_get kvs "test_rows" = Some (PInt test_rows)
    ∧ (1 ≤ training_rows)%Z ∧ (1 ≤ test_rows)%Z
    ∧ (training_rows + test_rows ≤ Z.of_nat (length (rows df)))%Z
    ∧ (NoDup (rows df) →
       Forall (λ r, is_Some (row_get (columns df) r (target a))) (rows df) →
       (training_rows + test_rows = Z.of_nat (length (rows df)))%Z).
Proof.
  intros (df & df' & numeric_cols & categorical_cols & X & X_train & X_test & y_train
          & y_test & pipeline & y_pred & rmse & mae & r2 & Hcsv & _ & Hconv
          & _ & HX & Hsplit & _ & _ & _ & _ & _ & ->)%main_Return_inv.
  apply convert_target_Return in Hconv as (_ & Hrows & _).
  apply drop_column_Return in HX as (_ & _ & HrowsX & _).
  apply train_test_split_Return in Hsplit
    as (n_train & n_test & _ & Hpos_train & Hpos_test & Hsum & Htrain & Htest).
  rewrite HrowsX, Hrows in Hsum.
  eexists df, _, (Z.of_nat (length (rows X_train))), (Z.of_nat (length (rows X_test))).
  split_and!; [done | unfold read_json; by rewrite lookup_insert_eq
               | reflexivity | reflexivity | | | |].
  - lia.
  - lia.
  - assert (length (rows (dropna (drop_duplicates df) (target a))) ≤ length (rows df))%nat.
    { etransitivity; [apply length_filter | apply drop_duplicates_rows_length]. }
    lia.
  - intros Hnodup Htargets.
    assert (rows (dropna (drop_duplicates df) (target a)) = rows df) as Hclean.
    { unfold dropna, drop_duplicates. cbn [rows schema].
      rewrite drop_duplicates_rows_id by done. apply filter_all. exact Htargets. }
    rewrite Hclean in Hsum. lia.
Qed.

(** X13. Detection looks at the column names and dtypes only: two runs
    that complete on CSVs with the same columns and dtypes, for the same
    target, write the same feature lists, whatever the rows, the test size
    and the currency rate. *)
Theorem feature_lists_structural (a1 a2 : args) (fs1 fs1' fs2 fs2' : gmap string file)
  (df1 df2 : DataFrame) :
  main a1 fs1 = (Return (), fs1') → main a2 fs2 = (Return (), fs2') →
  fs1 !! csv a1 = Some (CsvFile df1) → fs2 !! csv a2 = Some (CsvFile df2) →
  schema df1 = schema df2 → target a1 = target a2 →
  ∃ kvs1 kvs2,
    read_json fs1' (out_meta a1) = Some (PDict kvs1)
    ∧ read_json fs2' (out_meta a2) = Some (PDict kvs2)
    ∧ dict_get kvs1 "numeric_features" = dict_get kvs2 "numeric_features"
    ∧ dict_get kvs1 "categorical_features" = dict_get kvs2 "categorical_features".
Proof.
  intros (df1' & df1c & numeric1 & categorical1 & X1 & ? & ? & ? & ? & ? & ? & ? & ? & ?
          & Hcsv1 & _ & Hconv1 & Hdetect1 & _ & _ & _ & _ & _ & _ & _ & ->)%main_Return_inv.
  intros (df2' & df2c & numeric2 & categorical2 & X2 & ? & ? & ? & ? & ? & ? & ? & ? & ?
          & Hcsv2 & _ & Hconv2 & Hdetect2 & _ & _ & _ & _ & _ & _ & _ & ->)%main_Return_inv.
  intros Hdf1 Hdf2 Hschema Htarget.
  rewrite Hcsv1 in Hdf1. injection Hdf1 as ->. rewrite Hcsv2 in Hdf2. injection Hdf2 as ->.
  assert (schema df1c = schema df2c) as Hconverted.
  { unfold convert_target in Hconv1, Hconv2.
    destruct (convert_rows _ _ _ _) as [rs1|] in Hconv1; [|done].
    destruct (convert_rows _ _ _ _) as [rs2|] in Hconv2; [|done].
    cbn in Hconv1, Hconv2. injection Hconv1 as <-. injection Hconv2 as <-.
    cbn. by rewrite Hschema, Htarget. }
  assert (numeric1 = numeric2 ∧ categorical1 = categorical2) as [-> ->].
  { apply detect_feature_types_Return in Hdetect1 as (_ & -> & ->).
    apply detect_feature_types_Return in Hdetect2 as (_ & -> & ->).
    unfold columns, dtype_of. by rewrite Hconverted, Htarget. }
  eexists _, _. unfold read_json. rewrite !lookup_insert_eq. split_and!; reflexivity.
Qed.

(** X14. What the model is fitted and scored on: every target value
    handed to [fit] or to the metrics is present, and is the float of a
    target cell of the CSV times the currency rate. *)
Theorem targets_converted (a : args) (fs fs' : gmap string file) :
  main a fs = (Return (), fs') →
  ∃ df fitted numeric_cols categorical_cols X_train y_train y_test y_pred rmse,
    fs !! csv a = Some (CsvFile df)
    ∧ fit (build_pipeline numeric_cols categorical_cols) X_train y_train = Return fitted
    ∧ mean_squared_error y_test y_pred false = Return rmse
    ∧ ∀ c, c ∈ y_train ++ y_test →
        ∃ v x, c = Some (of_float (x * currency_rate a)%float)
               ∧ astype_float v = Return x
               ∧ Some v ∈ series df (target a).
Proof.
  intros (df & df' & numeric_cols & categorical_cols & X & X_train & X_test & y_train
          & y_test & pipeline & y_pred & rmse & mae & r2 & Hcsv & _ & Hconv
          & _ & _ & Hsplit & Hfit & _ & Hrmse & _ & _ & ->)%main_Return_inv.
  eexists df, pipeline, numeric_cols, categorical_cols, X_train, y_train, y_test, y_pred, rmse.
  split_and!; [done..|].
  apply train_test_split_members in Hsplit as (_ & _ & _ & Hmembers).
  intros c Hc%Hmembers.
  pose proof (convert_target_Return _ _ _ _ Hconv) as (Hcols & _ & _).
  change (columns (dropna (drop_duplicates df) (target a))) with (columns df) in Hcols.
  unfold series in Hc. rewrite Hcols in Hc.
  apply list_elem_of_fmap in Hc as (r' & -> & Hr').
  unfold convert_target in Hconv.
  destruct (convert_rows _ _ _ _) as [rs|] eqn:Hrows in Hconv; [|done].
  cbn in Hconv. injection Hconv as <-. cbn [rows] in Hr'.
  apply convert_rows_series in Hrows.
  apply list_elem_of_lookup_1 in Hr' as [i Hi].
  destruct (Forall2_lookup_r _ _ _ _ _ Hrows Hi) as (r & Hr & Hconverted).
  apply list_elem_of_lookup_2 in Hr. unfold dropna in Hr. cbn [rows] in Hr.
  apply list_elem_of_filter in Hr as [[v Hv] Hr].
  unfold drop_duplicates in Hr. cbn [rows] in Hr.
  apply (proj1 (drop_duplicates_rows_subseteq _ _)) in Hr.
  change (columns (drop_duplicates df)) with (columns df) in Hv.
  change (columns (dropna (drop_duplicates df) (target a))) with (columns df) in Hconverted.
  rewrite Hv in Hconverted. destruct Hconverted as (x & Hx & ->).
  exists v, x. split_and!; [done | done |].
  unfold series. apply list_elem_of_fmap. exists r. done.
Qed.

End Run.

(** [failure_leaves_files] on a CSV of one row, which cannot be split. *)
Lemma failure_leaves_files_witness :
  (main Fixture.arguments (Fixture.disk (Fixture.cars 1))).1 ≠ Return ()
  ∧ (main Fixture.arguments (Fixture.disk (Fixture.cars 1))).2 = Fixture.disk (Fixture.cars 1)
  ∧ exit_status (main Fixture.arguments (Fixture.disk (Fixture.cars 1))).1 = 1%Z.
Proof.
  assert ((main Fixture.arguments (Fixture.disk (Fixture.cars 1))).1 ≠ Return ()) as Hfails
    by (vm_compute; discriminate).
  split; [exact Hfails|].
  exact (failure_leaves_files _ _ Hfails).
Defined.


(** [features_exclude_target] on a run over ten rows. *)
Lemma features_exclude_target_witness :
  main Fixture.arguments (Fixture.disk (Fixture.cars 10))
    = (Return (), (main Fixture.arguments (Fixture.disk (Fixture.cars 10))).2)
  ∧ ∃ X_train numeric_cols categorical_cols,
      columns X_train = ["year"; "km_driven"; "fuel"]
      ∧ ("price" ∉ columns X_train)
      ∧ ∀ c, c ∈ numeric_cols ++ categorical_cols → c ∈ columns X_train.
Proof.
  assert (main Fixture.arguments (Fixture.disk (Fixture.cars 10))
          = (Return (), (main Fixture.arguments (Fixture.disk (Fixture.cars 10))).2)) as Hrun
    by (apply main_completes; vm_compute; reflexivity).
  split; [exact Hrun|].
  destruct (features_exclude_target _ _ _ Hrun)
    as (df & fitted & numeric_cols & categorical_cols & X_train & y_train & kvs
        & Hcsv & _ & _ & _ & _ & _ & Hcolumns & Htarget & Hlisted).
  assert (Some (CsvFile (Fixture.cars 10)) = Some (CsvFile df)) as [= <-]
    by (rewrite <- Hcsv; reflexivity).
  exists X_train, numeric_cols, categorical_cols.
  split_and!; [rewrite Hcolumns; reflexivity | exact Htarget | exact Hlisted].
Defined.

(** [row_counts] on a run over ten distinct rows, each with a price. *)
Lemma row_counts_witness :
  main Fixture.arguments (Fixture.disk (Fixture.cars 10))
    = (Return (), (main Fixture.arguments (Fixture.disk (Fixture.cars 10))).2)
  ∧ ∃ kvs (training_rows test_rows : Z),
      read_json (main Fixture.arguments (Fixture.disk (Fixture.cars 10))).2
        "models/metadata.json" = Some (PDict kvs)
      ∧ dict_get kvs "training_rows" = Some (PInt training_rows)
      ∧ dict_get kvs "test_rows" = Some (PInt test_rows)
      ∧ (1 ≤ training_rows)%Z ∧ (1 ≤ test_rows)%Z
      ∧ (training_rows + test_rows = 10)%Z.
Proof.
  assert (main Fixture.arguments (Fixture.disk (Fixture.cars 10))
          = (Return (), (main Fixture.arguments (Fixture.disk (Fixture.cars 10))).2)) as Hrun
    by (apply main_completes; vm_compute; reflexivity).
  split; [exact Hrun|].
  destruct (row_counts _ _ _ Hrun)
    as (df & kvs & training_rows & test_rows & Hcsv & Hmeta & Htraining & Htest
        & Hpos_training & Hpos_test & _ & Hall).
  assert (Some (CsvFile (Fixture.cars 10)) = Some (CsvFile df)) as [= <-]
    by (rewrite <- Hcsv; reflexivity).
  exists kvs, training_rows, test_rows.
  split_and!; [exact Hmeta | exact Htraining | exact Htest | exact Hpos_training
               | exact Hpos_test |].
  apply Hall.
  - apply (bool_decide_unpack _). vm_compute. exact I.
  - apply (bool_decide_unpack _). vm_compute. exact I.
Defined.

(** [feature_lists_structural] on two runs: ten rows at test size 0.3
    and rate 1, a hundred rows at test size 0.2 and rate 11. *)
Lemma feature_lists_structural_witness :
  main Fixture.arguments (Fixture.disk (Fixture.cars 10))
    = (Return (), (main Fixture.arguments (Fixture.disk (Fixture.cars 10))).2)
  ∧ main Fixture.arguments_rated (Fixture.disk (Fixture.cars 100))
    = (Return (), (main Fixture.arguments_rated (Fixture.disk (Fixture.cars 100))).2)
  ∧ schema (Fixture.cars 10) = schema (Fixture.cars 100)
  ∧ ∃ kvs1 kvs2,
      read_json (main Fixture.arguments (Fixture.disk (Fixture.cars 10))).2
        "models/metadata.json" = Some (PDict kvs1)
      ∧ read_json (main Fixture.arguments_rated (Fixture.disk (Fixture.cars 100))).2
          "models/metadata.json" = Some (PDict kvs2)
      ∧ dict_get kvs1 "numeric_features" = dict_get kvs2 "numeric_features"
      ∧ dict_get kvs1 "categorical_features" = dict_get kvs2 "categorical_features".
Proof.
  assert (main Fixture.arguments (Fixture.disk (Fixture.cars 10))
          = (Return (), (main Fixture.arguments (Fixture.disk (Fixture.cars 10))).2)) as Hrun1
    by (apply main_completes; vm_compute; reflexivity).
  assert (main Fixture.arguments_rated (Fixture.disk (Fixture.cars 100))
          = (Return (), (main Fixture.arguments_rated (Fixture.disk (Fixture.cars 100))).2))
    as Hrun2 by (apply main_completes; vm_compute; reflexivity).
  assert (schema (Fixture.cars 10) = schema (Fixture.cars 100)) as Hschema by reflexivity.
  split_and!; [exact Hrun1 | exact Hrun2 | exact Hschema |].
  exact (feature_lists_structural _ _ _ _ _ _ (Fixture.cars 10) (Fixture.cars 100)
           Hrun1 Hrun2 eq_refl eq_refl Hschema eq_refl).
Defined.

(** [targets_converted] on a run at rate 11: no target handed to the
    model is missing. *)
Lemma targets_converted_witness :
  main Fixture.arguments_rated (Fixture.disk (Fixture.cars 10))
    = (Return (), (main Fixture.arguments_rated (Fixture.disk (Fixture.cars 10))).2)
  ∧ ∃ y_train y_test : list (option cell),
      ∀ c, c ∈ y_train ++ y_test →
        ∃ v x, c = Some (of_float (x * 11)%float) ∧ astype_float v = Return x.
Proof.
  assert (main Fixture.arguments_rated (Fixture.disk (Fixture.cars 10))
          = (Return (), (main Fixture.arguments_rated (Fixture.disk (Fixture.cars 10))).2))
    as Hrun by (apply main_completes; vm_compute; reflexivity).
  split; [exact Hrun|].
  destruct (targets_converted _ _ _ Hrun)
    as (df & fitted & numeric_cols & categorical_cols & X_train & y_train & y_test & y_pred
        & rmse & _ & _ & _ & Hmembers).
  exists y_train, y_test. intros c Hc.
  destruct (Hmembers c Hc) as (v & x & Hconverted & Hfloat & _).
  exists v, x. split; [exact Hconverted | exact Hfloat].
Defined.

End TrainBehaviour.

(** ** More on the form *)

Module FormBehaviour.
Import Frontend FormSpec PyFacts FrontendFacts Text.

Lemma every_impl (P Q : ascii → bool) s :
  (∀ c, P c = true → Q c = true) → every P s = true → every Q s = true.
Proof.
  intros HPQ. induction s as [|c s IH]; cbn; [done|].
  intros [Hc Hs]%andb_prop. rewrite (HPQ c Hc). cbn. by apply IH.
Qed.

Lemma digits_of_uint d : every digit (NilEmpty.string_of_uint d) = true.
Proof. induction d; cbn; done. Qed.

Lemma to_uint_not_Nil (x : N) : N.to_uint x ≠ Decimal.Nil.
Proof.
  intros Hnil. pose proof (DecimalN.Unsigned.of_to x) as Hx. rewrite Hnil in Hx.
  cbn in Hx. subst x. discriminate Hnil.
Qed.

Lemma format_digits (x : N) : every digit (format x) = true.
Proof.
  unfold format, NilZero.string_of_uint.
  destruct (N.to_uint x) eqn:Hx; try apply (digits_of_uint (_ _)). done.
Qed.

Lemma format_nonempty (x : N) : ∃ c rest, format x = String c rest ∧ digit c = true.
Proof.
  pose proof (format_digits x) as Hdigits.
  unfold format, NilZero.string_of_uint in *.
  pose proof (to_uint_not_Nil x) as Hnil.
  destruct (N.to_uint x); try done; cbn in *; eauto.
Qed.

(** [int] reads back what [format] writes. *)
Lemma int_format (x : N) : int (format x) = Return (Z.of_N x).
Proof.
  unfold int, format. rewrite NilZero.usu by apply to_uint_not_Nil.
  by rewrite DecimalN.Unsigned.of_to.
Qed.

Lemma float_format (x : N) : float_ (format x) = Return (of_uint63 (Uint63.of_Z (Z.of_N x))).
Proof.
  unfold float_, format. rewrite NilZero.usu by apply to_uint_not_Nil.
  by rewrite DecimalN.Unsigned.of_to.
Qed.

Lemma prefix_refl (s : string) : String.prefix s s = true.
Proof. induction s as [|c s IH]; cbn; [done|]. by destruct (ascii_dec c c). Qed.

Lemma replace_from_skip old new s : replace_from (String.length s) old new s = "".
Proof. induction s as [|c s IH]; cbn; done. Qed.

Lemma app_empty (s : string) : "" +:+ s = s.
Proof. done. Qed.

Lemma app_String (c : ascii) (s t : string) : String c s +:+ t = String c (s +:+ t).
Proof. done. Qed.

(** Removing a suffix whose first character does not occur before it. *)
Lemma replace_suffix (a : ascii) (unit s : string) :
  every (other_than a) s = true →
  replace (s +:+ String a unit) (String a unit) "" = s.
Proof.
  unfold replace. induction s as [|c s IH]; intros Hs.
  - rewrite app_empty. cbn [replace_from]. rewrite prefix_refl.
    cbn [String.length Nat.sub]. rewrite Nat.sub_0_r. by rewrite replace_from_skip.
  - cbn in Hs. apply andb_prop in Hs as [Hc Hs].
    rewrite app_String. cbn [replace_from String.prefix].
    destruct (ascii_dec a c) as [->|Hne].
    + unfold other_than in Hc. by rewrite Ascii.eqb_refl in Hc.
    + by rewrite IH.
Qed.

Lemma group3_every P digits :
  P ","%char = true → every P digits = true → every P (group3 digits) = true.
Proof.
  intros Hcomma. induction digits as [|c rest IH]; cbn; [done|].
  intros [Hc Hrest]%andb_prop. rewrite Hc. cbn [andb].
  destruct (_ && _); [rewrite app_String, app_empty; cbn [every]; rewrite Hcomma; cbn [andb]|];
    by apply IH.
Qed.

(** Removing the commas [group3] put in. *)
Lemma replace_group3 digits :
  every (other_than ",") digits = true → replace (group3 digits) "," "" = digits.
Proof.
  unfold replace. induction digits as [|c rest IH]; [done|].
  cbn [every]. intros [Hc Hrest]%andb_prop.
  cbn [group3 replace_from String.prefix].
  destruct (ascii_dec "," c) as [<-|Hne]; [done|].
  f_equal. destruct (_ && _).
  - rewrite app_String, app_empty. cbn [replace_from String.prefix String.length Nat.sub].
    destruct (ascii_dec "," ","); [|done].
    assert (String.prefix "" (group3 rest) = true) as -> by (by destruct (group3 rest)).
    rewrite app_empty. by apply IH.
  - by apply IH.
Qed.

Lemma group3_head c rest : ∃ rest', group3 (String c rest) = String c rest'.
Proof. cbn. eauto. Qed.

Lemma digit_not (a : ascii) c : digit a = false → digit c = true → other_than a c = true.
Proof.
  intros Ha Hc. unfold other_than. destruct (Ascii.eqb c a) eqn:Heq; [|done].
  apply Ascii.eqb_eq in Heq. congruence.
Qed.

(** X15. The labels of the numeric lists read back as the numbers they
    show, for every number below 2^63, offered or not, and every unit: with
    thousands separators and a unit for the integers, with a unit for the
    floats. *)
Theorem labels_read_back (x : N) (unit : string) :
  (x < 2 ^ 63)%N →
  int_or_none (String " " unit) (PStr (format_thousands x +:+ String " " unit))
  = Return (PInt (Z.of_N x))
  ∧ float_or_none (String " " unit) (PStr (format x +:+ String " " unit))
    = Return (PFloat (of_uint63 (Uint63.of_Z (Z.of_N x)))).
Proof.
  intros _.
  destruct (format_nonempty x) as (c & rest & Hformat & Hc).
  pose proof (format_digits x) as Hdigits.
  assert (∀ c', digit c' = true → other_than " " c' = true) as Hspace
    by (intros c'; by apply digit_not).
  assert (∀ c', digit c' = true → other_than "," c' = true) as Hcomma
    by (intros c'; by apply digit_not).
  assert (∀ tail, String c tail ≠ placeholder) as Hplaceholder.
  { intros tail [= -> _]. done. }
  split.
  - unfold int_or_none, format_thousands.
    destruct (group3_head c rest) as [rest' Hgroup]. rewrite Hformat, Hgroup.
    rewrite app_String. rewrite decide_True by apply Hplaceholder.
    rewrite <- app_String, <- Hgroup, <- Hformat.
    rewrite replace_suffix.
    + rewrite replace_group3 by (by eapply every_impl). by rewrite int_format.
    + apply group3_every; [done|]. by eapply every_impl.
  - unfold float_or_none. rewrite Hformat, app_String.
    rewrite decide_True by apply Hplaceholder.
    rewrite <- app_String, <- Hformat. rewrite replace_suffix by (by eapply every_impl).
    by rewrite float_format.
Qed.

(** *** Which features are posted *)

Lemma widget_in_Some ds n c k w :
  widget_in ds n c k = Some w → ∃ kd, (k, (kd, w)) ∈ ds ∧ k ∈ declares n c kd.
Proof.
  induction ds as [|[k' [kd w']] ds IH]; cbn; [done|].
  destruct (decide (k' = k)) as [->|Hne].
  - case_decide; [|done]. intros [= ->]. exists kd. split; [left | done].
  - intros (kd' & Hin & Hdecl)%IH. exists kd'. split; [by right | done].
Qed.

Lemma widget_in_declared ds n c k kd w :
  NoDup ds.*1 → (k, (kd, w)) ∈ ds →
  widget_in ds n c k = if decide (k ∈ declares n c kd) then Some w else None.
Proof.
  induction ds as [|[k' [kd' w']] ds IH]; csimpl; [by intros _ ?%elem_of_nil|].
  intros [Hfresh Hnd]%NoDup_cons [[= -> -> ->] | Hin]%elem_of_cons.
  - by rewrite decide_True.
  - rewrite decide_False; [by apply IH|].
    intros ->. apply Hfresh. apply list_elem_of_fmap. by exists (k, (kd, w)).
Qed.

(** The numeric features the form has a widget for. *)
Lemma dedicated_numeric k w :
  (k, (Numeric, w)) ∈ dedicated →
  k ∈ ["year"; "km_driven"; "engine_cc"; "max_power_bhp"; "torque_nm"; "mileage_mpg"; "seats"].
Proof.
  assert (Forall (λ d, if d.2.1 is Numeric
                       then bool_decide (d.1 ∈ ["year"; "km_driven"; "engine_cc";
                                                "max_power_bhp"; "torque_nm"; "mileage_mpg";
                                                "seats"]) = true
                       else True) dedicated) as Hall.
  { unfold dedicated.
    repeat first [apply Forall_nil_2
                 | apply Forall_cons_2; [cbn [fst snd]; first [exact I | reflexivity]|]]. }
  intros Hin. rewrite Forall_forall in Hall. specialize (Hall _ Hin). cbn in Hall.
  by apply bool_decide_eq_true in Hall.
Qed.

Lemma numeric_dedicated k :
  k ∈ ["year"; "km_driven"; "engine_cc"; "max_power_bhp"; "torque_nm"; "mileage_mpg"; "seats"] →
  ∃ values, (k, (Numeric, SelectionList values)) ∈ dedicated
            ∧ Forall (λ v, match v with PInt _ | PFloat _ => True | _ => False end) values.
Proof.
  intros Hk.
  assert (Forall (λ d, d.2.1 = Numeric →
                       ∃ values, d.2.2 = SelectionList values
                                 ∧ Forall (λ v, match v with
                                                | PInt _ | PFloat _ => True
                                                | _ => False
                                                end) values) dedicated) as Hall.
  { unfold dedicated.
    repeat first
      [ apply Forall_nil_2
      | apply Forall_cons_2;
        [ cbn [fst snd]; intros Hkind; first
            [ discriminate Hkind
            | eexists; split; [reflexivity|]; apply Forall_fmap, Forall_true; by intros x ]
        | ] ]. }
  assert (∃ w, (k, (Numeric, w)) ∈ dedicated) as [w Hin].
  { repeat (apply elem_of_cons in Hk as [-> | Hk]);
      [ eexists; apply (list_elem_of_lookup_2 _ 4); reflexivity
      | eexists; apply (list_elem_of_lookup_2 _ 5); reflexivity
      | eexists; apply (list_elem_of_lookup_2 _ 6); reflexivity
      | eexists; apply (list_elem_of_lookup_2 _ 7); reflexivity
      | eexists; apply (list_elem_of_lookup_2 _ 8); reflexivity
      | eexists; apply (list_elem_of_lookup_2 _ 9); reflexivity
      | eexists; apply (list_elem_of_lookup_2 _ 10); reflexivity
      | by apply elem_of_nil in Hk ]. }
  rewrite Forall_forall in Hall.
  destruct (Hall _ Hin eq_refl) as (values & Hw & Hvalues). cbn in Hw. subst w. eauto.
Qed.

(** X16. Which features the form posts: every categorical feature of the
    metadata, and of the numeric features the seven the form has a list
    for; no key twice and none that is not a declared feature. A numeric
    feature outside the seven is never posted, so the service reads it as
    null. *)
Theorem posted_features (u : user) (numeric_cols categorical_cols : list string)
  (payload : dict) :
  submitted u numeric_cols categorical_cols = Return payload →
  NoDup (keys payload)
  ∧ (∀ key, key ∈ keys payload ↔
       key ∈ categorical_cols
       ∨ (key ∈ numeric_cols
          ∧ key ∈ ["year"; "km_driven"; "engine_cc"; "max_power_bhp"; "torque_nm";
                   "mileage_mpg"; "seats"]))
  ∧ (∀ key, key ∈ keys payload → key ∈ numeric_cols ++ categorical_cols).
Proof.
  intros Hsubmitted.
  destruct (run_blocks_agrees u numeric_cols categorical_cols _ _ []
              (blocks_agree u numeric_cols categorical_cols) dedicated_NoDup (NoDup_nil_2))
    as (inputs & Hrun & Hnd & _).
  destruct (remaining_spec u categorical_cols inputs Hnd) as [Hnd' _].
  destruct (submitted_posted u numeric_cols categorical_cols) as (payload' & Hposted & Hget).
  assert (payload' = payload) as -> by congruence. clear Hposted.
  assert (payload = Frontend.payload (remaining u categorical_cols inputs)) as Hpayload.
  { unfold submitted, form in Hsubmitted. rewrite Hrun in Hsubmitted. cbn in Hsubmitted.
    by injection Hsubmitted. }
  assert (∀ key, key ∈ keys payload ↔
            key ∈ categorical_cols
            ∨ (key ∈ numeric_cols
               ∧ key ∈ ["year"; "km_driven"; "engine_cc"; "max_power_bhp"; "torque_nm";
                        "mileage_mpg"; "seats"])) as Hkeys.
  { intros key. split.
    - intros Hkey. destruct (dict_get payload key) as [v|] eqn:Hv.
      2: { by apply dict_get_None in Hv. }
      rewrite Hget in Hv. unfold posted, widget_of in Hv.
      destruct (widget_in dedicated numeric_cols categorical_cols key) as [w|] eqn:Hw.
      + apply widget_in_Some in Hw as ([|] & Hin & Hdecl); [by left|].
        right. split; [done|]. by eapply dedicated_numeric.
      + case_decide; [by left | done].
    - intros Hkey. apply dec_stable. intros Hnot%dict_get_None.
      rewrite Hget in Hnot. unfold posted, widget_of in Hnot.
      destruct Hkey as [Hc | [Hn Hseven]].
      + destruct (widget_in dedicated numeric_cols categorical_cols key); [done|].
        by rewrite decide_True in Hnot.
      + destruct (numeric_dedicated key Hseven)
          as (values & Hin & _).
        rewrite (widget_in_declared _ _ _ _ _ _ dedicated_NoDup Hin) in Hnot.
        cbn in Hnot. by rewrite decide_True in Hnot. }
  split_and!; [| done |].
  - rewrite Hpayload, payload_fmap by done. unfold keys in *.
    rewrite <- list_fmap_compose. exact Hnd'.
  - intros key [Hc | [Hn _]]%Hkeys; rewrite elem_of_app; auto.
Qed.

(** *** What is posted for them *)

Lemma dedicated_plain k kd values :
  (k, (kd, SelectionList values)) ∈ dedicated → Forall (λ v, plain v = true) values.
Proof.
  assert (Forall (λ d, match d.2.2 with
                       | SelectionList values => forallb plain values = true
                       | TextBox => True
                       end) dedicated) as Hall.
  { unfold dedicated.
    repeat first [apply Forall_nil_2
                 | apply Forall_cons_2;
                   [cbn [fst snd]; first [exact I | vm_compute; reflexivity]|]]. }
  intros Hin. rewrite Forall_forall in Hall. specialize (Hall _ Hin). cbn in Hall.
  apply Forall_forall. intros v Hv%list_elem_of_In.
  by apply (proj1 (forallb_forall _ _) Hall).
Qed.

Lemma selected_elem_of u key values v : selected u key values = Some v → v ∈ values.
Proof.
  unfold selected. destruct (pick u key); [done|]. apply list_elem_of_lookup_2.
Qed.

(** X17. What the form posts is null, a number, or text that is not
    blank, never a blank string, a list or a dictionary; and for the seven
    numeric features with a list of their own it is null or a number, never
    the label shown. *)
Theorem posted_values (u : user) (numeric_cols categorical_cols : list string)
  (payload : dict) :
  submitted u numeric_cols categorical_cols = Return payload →
  ∀ key v, dict_get payload key = Some v →
    (v = PNone ∨ plain v = true)
    ∧ (∀ s, v = PStr s → strips_to_empty s = false)
    ∧ (key ∈ ["year"; "km_driven"; "engine_cc"; "max_power_bhp"; "torque_nm";
              "mileage_mpg"; "seats"] →
       match v with PNone | PInt _ | PFloat _ => True | _ => False end).
Proof.
  intros Hsubmitted.
  destruct (submitted_posted u numeric_cols categorical_cols) as (payload' & Hposted & Hget).
  assert (payload' = payload) as -> by congruence. clear Hposted.
  intros key v. rewrite Hget. unfold posted, widget_of.
  intros Hv.
  assert (v = PNone ∨ plain v = true) as Hplain.
  { destruct (widget_in dedicated numeric_cols categorical_cols key) as [[values|]|] eqn:Hw.
    - apply widget_in_Some in Hw as (kd & Hin & _).
      pose proof (dedicated_plain _ _ _ Hin) as Hvalues. rewrite Forall_forall in Hvalues.
      injection Hv as <-. cbn.
      destruct (selected u key values) as [v|] eqn:Hselected; cbn; [|by left].
      right. by apply Hvalues, (selected_elem_of u key).
    - injection Hv as <-. cbn. destruct (strips_to_empty (typed u key)) eqn:Hblank; [by left|].
      right. cbn. by rewrite Hblank.
    - case_decide; [|done]. injection Hv as <-. by left. }
  split_and!; [done | |].
  - intros s ->. destruct Hplain as [|Hplain]; [done|]. cbn in Hplain.
    by apply negb_true_iff in Hplain.
  - intros Hseven. destruct (numeric_dedicated key Hseven) as (values & Hin & Hvalues).
    rewrite (widget_in_declared _ numeric_cols categorical_cols _ _ _ dedicated_NoDup Hin) in Hv.
    cbn [declares] in Hv. case_decide.
    + injection Hv as <-. cbn [posted_by].
      destruct (selected u key values) as [v|] eqn:Hselected; cbn; [|done].
      rewrite Forall_forall in Hvalues.
      pose proof (Hvalues v (selected_elem_of u key _ _ Hselected)) as Hnumber.
      by destruct v.
    + case_decide; [|done]. by injection Hv as <-.
Qed.

(** X18. A widget nobody touches posts null: a list left where it
    starts, a text box left blank. *)
Theorem untouched_posts_null (u : user) (numeric_cols categorical_cols : list string)
  (key : string) (payload : dict) :
  pick u key = 0 → strips_to_empty (typed u key) = true →
  submitted u numeric_cols categorical_cols = Return payload →
  ∀ v, dict_get payload key = Some v → v = PNone.
Proof.
  intros Hpick Htyped Hsubmitted.
  destruct (submitted_posted u numeric_cols categorical_cols) as (payload' & Hposted & Hget).
  assert (payload' = payload) as -> by congruence. clear Hposted.
  intros v. rewrite Hget. unfold posted.
  destruct (widget_of numeric_cols categorical_cols key) as [[values|]|].
  - unfold posted_by, selected. rewrite Hpick. by intros [= <-].
  - unfold posted_by. rewrite Htyped. by intros [= <-].
  - case_decide; [|done]. by intros [= <-].
Qed.

(** X19. A feature the form knows, declared in the other list, loses its
    widget. Listed among the categorical features it gets the generic list
    and is posted as null whatever is picked; listed only among the numeric
    features it gets no widget and is not posted. *)
Theorem misdeclared_feature (u : user) (numeric_cols categorical_cols : list string)
  (key : string) (kd : kind) (w : widget) (payload : dict) :
  (key, (kd, w)) ∈ dedicated → key ∉ declares numeric_cols categorical_cols kd →
  submitted u numeric_cols categorical_cols = Return payload →
  dict_get payload key = (if decide (key ∈ categorical_cols) then Some PNone else None).
Proof.
  intros Hin Hdecl Hsubmitted.
  destruct (submitted_posted u numeric_cols categorical_cols) as (payload' & Hposted & Hget).
  assert (payload' = payload) as -> by congruence. clear Hposted.
  rewrite Hget. unfold posted, widget_of.
  rewrite (widget_in_declared _ _ _ _ _ _ dedicated_NoDup Hin).
  by rewrite decide_False.
Qed.

(** [labels_read_back] on an engine of 1,500 cc. *)
Lemma labels_read_back_witness :
  (1500 < 2 ^ 63)%N
  ∧ int_or_none " cc" (PStr "1,500 cc") = Return (PInt 1500)
  ∧ float_or_none " cc" (PStr "1500 cc") = Return (PFloat 1500).
Proof.
  assert (1500 < 2 ^ 63)%N as Hsmall by reflexivity.
  split; [exact Hsmall|].
  exact (labels_read_back 1500 "cc" Hsmall).
Defined.

(** [posted_features] on a form with a numeric feature, doors, that the
    form has no list for. *)
Lemma posted_features_witness :
  submitted Fixture.buyer ["year"; "km_driven"; "seats"; "doors"] ["fuel"; "name"; "colour"]
  = Return [("name", PNone); ("year", PInt 2015); ("km_driven", PInt 40000);
            ("seats", PFloat 5); ("fuel", PStr "Diesel"); ("colour", PNone)]
  ∧ NoDup ["name"; "year"; "km_driven"; "seats"; "fuel"; "colour"]
  ∧ ∀ key, key ∈ ["name"; "year"; "km_driven"; "seats"; "fuel"; "colour"] →
           key ∈ ["year"; "km_driven"; "seats"; "doors"] ++ ["fuel"; "name"; "colour"].
Proof.
  assert (submitted Fixture.buyer ["year"; "km_driven"; "seats"; "doors"]
                    ["fuel"; "name"; "colour"]
          = Return [("name", PNone); ("year", PInt 2015); ("km_driven", PInt 40000);
                    ("seats", PFloat 5); ("fuel", PStr "Diesel"); ("colour", PNone)])
    as Hsubmitted by (vm_compute; reflexivity).
  split; [exact Hsubmitted|].
  destruct (posted_features _ _ _ _ Hsubmitted) as (Hnodup & _ & Hdeclared).
  split; [exact Hnodup | exact Hdeclared].
Defined.

(** [posted_values] on the same form. *)
Lemma posted_values_witness :
  submitted Fixture.buyer ["year"; "km_driven"; "seats"; "doors"] ["fuel"; "name"; "colour"]
  = Return [("name", PNone); ("year", PInt 2015); ("km_driven", PInt 40000);
            ("seats", PFloat 5); ("fuel", PStr "Diesel"); ("colour", PNone)]
  ∧ (PStr "Diesel" = PNone ∨ plain (PStr "Diesel") = true).
Proof.
  assert (submitted Fixture.buyer ["year"; "km_driven"; "seats"; "doors"]
                    ["fuel"; "name"; "colour"]
          = Return [("name", PNone); ("year", PInt 2015); ("km_driven", PInt 40000);
                    ("seats", PFloat 5); ("fuel", PStr "Diesel"); ("colour", PNone)])
    as Hsubmitted by (vm_compute; reflexivity).
  split; [exact Hsubmitted|].
  exact (proj1 (posted_values _ _ _ _ Hsubmitted "fuel" (PStr "Diesel") eq_refl)).
Defined.

(** [untouched_posts_null]: the fuel list left on its placeholder. *)
Lemma untouched_posts_null_witness :
  pick Fixture.picks_autre "fuel" = 0
  ∧ strips_to_empty (typed Fixture.picks_autre "fuel") = true
  ∧ submitted Fixture.picks_autre ["year"] ["fuel"; "colour"]
    = Return [("year", PNone); ("fuel", PNone); ("colour", PNone)]
  ∧ ∀ v, dict_get [("year", PNone); ("fuel", PNone); ("colour", PNone)] "fuel" = Some v →
         v = PNone.
Proof.
  assert (pick Fixture.picks_autre "fuel" = 0) as Hpick by reflexivity.
  assert (strips_to_empty (typed Fixture.picks_autre "fuel") = true) as Htyped by reflexivity.
  assert (submitted Fixture.picks_autre ["year"] ["fuel"; "colour"]
          = Return [("year", PNone); ("fuel", PNone); ("colour", PNone)]) as Hsubmitted
    by (vm_compute; reflexivity).
  split_and!; [exact Hpick | exact Htyped | exact Hsubmitted |].
  exact (untouched_posts_null _ _ _ "fuel" _ Hpick Htyped Hsubmitted).
Defined.

(** [misdeclared_feature]: the year listed among the categorical
    features; the year picked is posted as null. *)
Lemma misdeclared_feature_witness :
  ("year", (Numeric, SelectionList (number <$> YEAR_OPTIONS))) ∈ dedicated
  ∧ ("year" ∉ declares [] ["year"] Numeric)
  ∧ pick Fixture.buyer "year" = 16
  ∧ submitted Fixture.buyer [] ["year"] = Return [("year", PNone)]
  ∧ dict_get [("year", PNone)] "year" = Some PNone.
Proof.
  assert (("year", (Numeric, SelectionList (number <$> YEAR_OPTIONS))) ∈ dedicated) as Hin
    by (apply (list_elem_of_lookup_2 _ 4); reflexivity).
  assert ("year" ∉ declares [] ["year"] Numeric) as Hdecl by apply not_elem_of_nil.
  assert (submitted Fixture.buyer [] ["year"] = Return [("year", PNone)]) as Hsubmitted
    by (vm_compute; reflexivity).
  split_and!; [exact Hin | exact Hdecl | reflexivity | exact Hsubmitted |].
  exact (misdeclared_feature Fixture.buyer [] ["year"] "year" _ _ _ Hin Hdecl Hsubmitted).
Defined.

End FormBehaviour.
